(** * MoL attention layer (nntrainer/layers/mol_attention_layer.cpp)

    A shallow embedding of [MoLAttentionLayer]: its setup ([finalize]), its
    forward pass ([forwarding]), the shared backward computation
    ([calcDerivativeHelper]) with its two entry points ([calcDerivative],
    [calcGradient]) and [setBatch].

    Scalars are real numbers: the [float] arithmetic of the layer is read as
    exact arithmetic.  Tensors keep the layout of the C++ [Tensor]: a
    four-axis [TensorDim] and one flat row-major buffer. *)

From Stdlib Require Import String Reals Lra Lia Arith Bool PeanoNat List.
Import ListNotations.

Set Implicit Arguments.

(** ** Finite sums of reals *)

Fixpoint rsum (n : nat) (f : nat -> R) : R :=
  match n with
  | O => 0%R
  | S m => (rsum m f + f m)%R
  end.

(** ** Tensor dimensions *)

Record TensorDim : Type := mkDim {
  batch : nat;
  channel : nat;
  height : nat;
  width : nat
}.

(** [TensorDim{w}], [TensorDim{h, w}]: leading axes default to 1. *)
Definition dim1 (w : nat) : TensorDim := mkDim 1 1 1 w.
Definition dim2 (h w : nat) : TensorDim := mkDim 1 1 h w.

Definition set_batch (d : TensorDim) (b : nat) : TensorDim :=
  mkDim b (channel d) (height d) (width d).
Definition set_width (d : TensorDim) (w : nat) : TensorDim :=
  mkDim (batch d) (channel d) (height d) w.

Definition getFeatureLen (d : TensorDim) : nat :=
  channel d * height d * width d.
Definition getDataLen (d : TensorDim) : nat :=
  batch d * getFeatureLen d.

Definition dim_eqb (d e : TensorDim) : bool :=
  (batch d =? batch e) && (channel d =? channel e) &&
  (height d =? height e) && (width d =? width e).

(** Row-major position of element (b, c, h, w). *)
Definition getIndex (d : TensorDim) (b c h w : nat) : nat :=
  ((b * channel d + c) * height d + h) * width d + w.

(** The four coordinates of a flat position. *)
Definition coord_w (d : TensorDim) (i : nat) : nat := i mod width d.
Definition coord_h (d : TensorDim) (i : nat) : nat := (i / width d) mod height d.
Definition coord_c (d : TensorDim) (i : nat) : nat :=
  (i / width d / height d) mod channel d.
Definition coord_b (d : TensorDim) (i : nat) : nat :=
  i / width d / height d / channel d.

(** ** Tensors *)

Record Tensor : Type := mkTensor {
  dim : TensorDim;
  data : list R
}.

(** A default-constructed [Tensor]. *)
Definition empty_tensor : Tensor := mkTensor (mkDim 0 0 0 0) [].

Definition empty (t : Tensor) : bool := getDataLen (dim t) =? 0.

(** [t.batch()], [t.height()], [t.width()]. *)
Definition Tensor_batch (t : Tensor) : nat := batch (dim t).
Definition Tensor_height (t : Tensor) : nat := height (dim t).
Definition Tensor_width (t : Tensor) : nat := width (dim t).

Definition getValue (t : Tensor) (b c h w : nat) : R :=
  nth (getIndex (dim t) b c h w) (data t) 0%R.

(** A tensor of dimension [d] whose element (b, c, h, w) is [f b c h w];
    the result of every element-wise loop of the tensor runtime. *)
Definition build (d : TensorDim) (f : nat -> nat -> nat -> nat -> R) : Tensor :=
  mkTensor d
    (map (fun i => f (coord_b d i) (coord_c d i) (coord_h d i) (coord_w d i))
         (seq 0 (getDataLen d))).

(** [Tensor(dim)]: fresh storage; [setZero]. *)
Definition zeros (d : TensorDim) : Tensor := build d (fun _ _ _ _ => 0%R).

(** An operation handed a result tensor writes the values into that tensor's
    storage; an empty result tensor is created with the computed dimension. *)
Definition store_into (out res : Tensor) : Tensor :=
  if empty out then res
  else mkTensor (dim out)
         (map (fun i => if i <? length (data res) then nth i (data res) 0%R
                        else nth i (data out) 0%R)
              (seq 0 (getDataLen (dim out)))).

(** [reshape]: same storage, new dimension of the same length. *)
Definition reshape (t : Tensor) (d : TensorDim) : Tensor :=
  if getDataLen d =? getDataLen (dim t) then mkTensor d (data t) else t.

(** ** Element-wise operations of the tensor runtime *)

(** Broadcasting: an operand axis of extent 1 is read at position 0. *)
Definition bcast (extent i : nat) : nat := if extent =? 1 then 0 else i.

Definition getValue_bcast (m : Tensor) (b c h w : nat) : R :=
  getValue m (bcast (batch (dim m)) b) (bcast (channel (dim m)) c)
             (bcast (height (dim m)) h) (bcast (width (dim m)) w).

Definition apply_broadcast (op : R -> R -> R) (x m : Tensor) : Tensor :=
  build (dim x) (fun b c h w => op (getValue x b c h w) (getValue_bcast m b c h w)).

(** [x.add(m)], [x.subtract(m)], [x.multiply(m)], [x.divide(m)]. *)
Definition add (x m : Tensor) : Tensor := apply_broadcast Rplus x m.
Definition subtract (x m : Tensor) : Tensor := apply_broadcast Rminus x m.
Definition multiply (x m : Tensor) : Tensor := apply_broadcast Rmult x m.
Definition divide (x m : Tensor) : Tensor := apply_broadcast Rdiv x m.

(** The same with a result tensor: [x.add(m, out)] and the like. *)
Definition add_out (x m out : Tensor) : Tensor := store_into out (add x m).
Definition subtract_out (x m out : Tensor) : Tensor := store_into out (subtract x m).
Definition divide_out (x m out : Tensor) : Tensor := store_into out (divide x m).

(** [x.apply(f)] and the scalar forms [x.add(v)], [x.multiply(v)]. *)
Definition apply (f : R -> R) (x : Tensor) : Tensor :=
  build (dim x) (fun b c h w => f (getValue x b c h w)).
Definition add_scalar (x : Tensor) (v : R) : Tensor := apply (fun a => (a + v)%R) x.
Definition multiply_scalar (x : Tensor) (v : R) : Tensor := apply (fun a => (a * v)%R) x.

(** ** Reductions *)

(** [x.sum(3)]: along the width axis. *)
Definition sum_axis3 (x : Tensor) : Tensor :=
  build (set_width (dim x) 1)
        (fun b c h _ => rsum (width (dim x)) (fun w => getValue x b c h w)).

(** [x.sum(2)]: along the height axis. *)
Definition sum_axis2 (x : Tensor) : Tensor :=
  build (mkDim (batch (dim x)) (channel (dim x)) 1 (width (dim x)))
        (fun b c _ w => rsum (height (dim x)) (fun h => getValue x b c h w)).

(** [x.sum({0, 1, 2})]: along batch, channel and height. *)
Definition sum_axes012 (x : Tensor) : Tensor :=
  build (dim1 (width (dim x)))
        (fun _ _ _ w =>
           rsum (batch (dim x)) (fun b =>
           rsum (channel (dim x)) (fun c =>
           rsum (height (dim x)) (fun h => getValue x b c h w)))).

(** ** Views into a tensor's storage

    [t.getSharedDataTensor(d, offset, false)] is a tensor of dimension [d]
    whose storage is the storage of [t] from [offset] on and whose strides
    are those of [t]. *)

Record SharedView : Type := mkView {
  base : Tensor;
  vdim : TensorDim;
  voffset : nat
}.

Definition getSharedDataTensor (t : Tensor) (d : TensorDim) (offset : nat) : SharedView :=
  mkView t d offset.

(** Position in the base storage of element (b, c, h, w) of a view. *)
Definition view_index (v : SharedView) (b c h w : nat) : nat :=
  voffset v + getIndex (dim (base v)) b c h w.

Definition view_getValue (v : SharedView) (b c h w : nat) : R :=
  nth (view_index v b c h w) (data (base v)) 0%R.

(** [dst.copy_with_stride(view)] on a default-constructed [dst]: a fresh
    contiguous tensor with the view's dimension and elements. *)
Definition copy_with_stride (v : SharedView) : Tensor :=
  build (vdim v) (view_getValue v).

(** [l[i] = x]. *)
Fixpoint set_nth (i : nat) (x : R) (l : list R) : list R :=
  match l, i with
  | [], _ => []
  | _ :: tl, O => x :: tl
  | y :: tl, S j => y :: set_nth j x tl
  end.

(** Every (b, c, h, w) of a dimension, in loop order. *)
Definition all_coords (d : TensorDim) : list (nat * nat * nat * nat) :=
  flat_map (fun b =>
  flat_map (fun c =>
  flat_map (fun h =>
  map (fun w => (b, c, h, w)) (seq 0 (width d)))
    (seq 0 (height d)))
    (seq 0 (channel d)))
    (seq 0 (batch d)).

(** [view.copy_with_stride(from)]: when the dimensions agree every element
    of [from] is written through the view into the base storage; otherwise
    the values go to a fresh tensor that replaces the temporary view object
    and the base is left as it was.  The result is the base tensor. *)
Definition view_copy_with_stride (v : SharedView) (from : Tensor) : Tensor :=
  if dim_eqb (vdim v) (dim from) then
    mkTensor (dim (base v))
      (fold_left (fun l '(b, c, h, w) =>
                    set_nth (view_index v b c h w) (getValue from b c h w) l)
                 (all_coords (vdim v)) (data (base v)))
  else base v.

(** ** Matrix products of the tensor runtime

    [dot] reads a tensor as a matrix whose rows are the (batch, channel,
    height) positions and whose columns are the width positions. *)

Definition rows (d : TensorDim) : nat := batch d * channel d * height d.
Definition row_of (d : TensorDim) (b c h : nat) : nat :=
  (b * channel d + c) * height d + h.

Definition mat_get (t : Tensor) (trans : bool) (i j : nat) : R :=
  if trans then nth (j * width (dim t) + i) (data t) 0%R
  else nth (i * width (dim t) + j) (data t) 0%R.

Definition dot_value (x m : Tensor) (trans trans_m : bool) (i j : nat) : R :=
  let K := if trans_m then width (dim m) else rows (dim m) in
  rsum K (fun k => (mat_get x trans i k * mat_get m trans_m k j)%R).

Definition dot_dim (x m : Tensor) (trans trans_m : bool) : TensorDim :=
  let N := if trans_m then rows (dim m) else width (dim m) in
  if trans then mkDim 1 1 (width (dim x)) N else set_width (dim x) N.

(** [x.dot(m, trans, trans_m)]. *)
Definition dot (x m : Tensor) (trans trans_m : bool) : Tensor :=
  let rd := dot_dim x m trans trans_m in
  build rd (fun b c h w => dot_value x m trans trans_m (row_of rd b c h) w).

(** [x.dot(m, result, trans, trans_m)]. *)
Definition dot_out (x m result : Tensor) (trans trans_m : bool) : Tensor :=
  store_into result (dot x m trans trans_m).

(** [t.getBatchSlice(b, 1)] and the write-back of a slice that shares the
    storage of [t]. *)
Definition getBatchSlice (t : Tensor) (b : nat) : Tensor :=
  let L := getFeatureLen (dim t) in
  mkTensor (set_batch (dim t) 1) (firstn L (skipn (b * L) (data t))).

Definition putBatchSlice (t : Tensor) (b : nat) (s : Tensor) : Tensor :=
  let L := getFeatureLen (dim t) in
  mkTensor (dim t)
    (firstn (b * L) (data t) ++ firstn L (data s) ++ skipn ((b + 1) * L) (data t)).

(** [x.dotBatched(m, result, trans, trans_m)]: one product per batch row,
    each written into the matching slice of [result]. *)
Definition dotBatched (x m result : Tensor) (trans trans_m : bool) : Tensor :=
  fold_left
    (fun r b =>
       putBatchSlice r b
         (dot_out (getBatchSlice x b) (getBatchSlice m b) (getBatchSlice r b)
                  trans trans_m))
    (seq 0 (batch (dim x))) result.

(** [self.dot_deriv_wrt_1(m, output_deriv)]: [self] receives
    output_deriv . m^T. *)
Definition dot_deriv_wrt_1 (self m output_deriv : Tensor) : Tensor :=
  dot_out output_deriv m self false true.

(** [x.dot_deriv_wrt_2(m_deriv, output_deriv)]: [m_deriv] receives
    x^T . output_deriv. *)
Definition dot_deriv_wrt_2 (x m_deriv output_deriv : Tensor) : Tensor :=
  dot_out x output_deriv m_deriv true false.

(** [self.dot_batched_deriv_wrt_1(m, output_deriv)]: [self] receives, per
    batch row, output_deriv . m^T. *)
Definition dot_batched_deriv_wrt_1 (self m output_deriv : Tensor) : Tensor :=
  dotBatched output_deriv m self false true.

(** ** Activation functions *)

Inductive ActivationType : Type :=
  | ACT_NONE
  | ACT_TANH
  | ACT_SIGMOID
  | ACT_SOFTMAX.

(** Modelled from the spec: the activation library (tanh, sigmoid and a
    row-wise softmax, each with a forward evaluator and a backward evaluator
    that takes the forward output and the incoming gradient); its
    implementation is not part of the layer's source file. *)
Definition sigmoid_fn (x : R) : R := (1 / (1 + exp (- x)))%R.
Definition sigmoidPrime (y : R) : R := (y * (1 - y))%R.
Definition tanhPrime (y : R) : R := (1 - y * y)%R.

(** Row-wise softmax along the width axis. *)
Definition softmax_fn (x : Tensor) : Tensor :=
  build (dim x)
    (fun b c h w =>
       (exp (getValue x b c h w)
        / rsum (width (dim x)) (fun j => exp (getValue x b c h j)))%R).

(** Softmax backward: row by row, the Jacobian built from the forward
    output [y], applied to the incoming gradient [d]. *)
Definition softmaxPrime (y d : Tensor) : Tensor :=
  build (dim y)
    (fun b c h i =>
       rsum (width (dim y)) (fun j =>
         ((if i =? j
           then getValue y b c h i * (1 - getValue y b c h j)
           else - (getValue y b c h i * getValue y b c h j))
          * getValue d b c h j)%R)).

(** [act.run_fn(x, output)]. *)
Definition run_fn (act : ActivationType) (x output : Tensor) : Tensor :=
  match act with
  | ACT_NONE => store_into output x
  | ACT_TANH => store_into output (apply tanh x)
  | ACT_SIGMOID => store_into output (apply sigmoid_fn x)
  | ACT_SOFTMAX => store_into output (softmax_fn x)
  end.

(** [act.run_prime_fn(output, outgoing_derivative, incoming_derivative)]. *)
Definition run_prime_fn (act : ActivationType)
    (output outgoing incoming : Tensor) : Tensor :=
  match act with
  | ACT_NONE => store_into outgoing incoming
  | ACT_TANH => multiply (store_into outgoing (apply tanhPrime output)) incoming
  | ACT_SIGMOID => multiply (store_into outgoing (apply sigmoidPrime output)) incoming
  | ACT_SOFTMAX => store_into outgoing (softmaxPrime output incoming)
  end.

(** ** Exceptions and properties *)

Inductive exn : Type :=
  | runtime_error (what : string)
  | invalid_argument (what : string).

Inductive result (A : Type) : Type :=
  | Ok (a : A)
  | Throw (e : exn).
Arguments Ok {A} a.
Arguments Throw {A} e.

Definition bind {A B : Type} (r : result A) (k : A -> result B) : result B :=
  match r with
  | Ok a => k a
  | Throw e => Throw e
  end.

Notation "x <- r ;; k" := (bind r (fun x => k))
  (at level 61, r at next level, right associativity).
Notation "' pat <- r ;; k" := (bind r (fun x => match x with pat => k end))
  (at level 61, pat pattern, r at next level, right associativity).

(** A layer property is set or empty; [get] on an empty property throws. *)
Definition Property : Type := option nat.
Definition prop_empty (p : Property) : bool :=
  match p with Some _ => false | None => true end.
Definition prop_get (p : Property) : result nat :=
  match p with
  | Some v => Ok v
  | None => Throw (invalid_argument "Cannot get property, property is empty")
  end.

(** ** Slots of the layer *)

Module AttentionParams.
Inductive t : Type :=
  | query | value | state
  | fc_w | fc_bias | fc_proj_w
  | fc_out | fc_tanh | fc_proj_out
  | scores | prob | prob_left | prob_right
  | u_neg_div | u_pos_div.

Definition to_nat (p : t) : nat :=
  match p with
  | query => 0 | value => 1 | state => 2
  | fc_w => 3 | fc_bias => 4 | fc_proj_w => 5
  | fc_out => 6 | fc_tanh => 7 | fc_proj_out => 8
  | scores => 9 | prob => 10 | prob_left => 11 | prob_right => 12
  | u_neg_div => 13 | u_pos_div => 14
  end.

Definition eqb (p q : t) : bool := to_nat p =? to_nat q.
End AttentionParams.

(** [wt_idx]: the array from logical slot to context index. *)
Definition IndexTable : Type := AttentionParams.t -> nat.
Definition set_idx (tbl : IndexTable) (p : AttentionParams.t) (i : nat) : IndexTable :=
  fun q => if AttentionParams.eqb q p then i else tbl q.

Definition SINGLE_INOUT_IDX : nat := 0.

(** ** The layer object *)

Record MolProps : Type := mkProps {
  Unit : Property;
  MoL_K : Property
}.

Record MoLAttentionLayer : Type := mkLayer {
  helper_exec : bool;
  wt_idx : IndexTable;
  act_softmax : ActivationType;
  act_tanh : ActivationType;
  act_sigmoid : ActivationType;
  mol_props : MolProps;
  (** Ghost: how many times [calcDerivativeHelper] has run.  Not a member
      of the class; it only records the calls. *)
  helper_runs : nat
}.

(** The constructor: [helper_exec(false), wt_idx({0})]. *)
Definition new_layer (props : MolProps) : MoLAttentionLayer :=
  mkLayer false (fun _ => 0) ACT_NONE ACT_NONE ACT_NONE props 0.

Definition with_wt_idx (l : MoLAttentionLayer) (p : AttentionParams.t) (i : nat)
  : MoLAttentionLayer :=
  mkLayer (helper_exec l) (set_idx (wt_idx l) p i) (act_softmax l) (act_tanh l)
          (act_sigmoid l) (mol_props l) (helper_runs l).

Definition with_acti (l : MoLAttentionLayer) (sm th sg : ActivationType)
  : MoLAttentionLayer :=
  mkLayer (helper_exec l) (wt_idx l) sm th sg (mol_props l) (helper_runs l).

Definition with_helper_exec (l : MoLAttentionLayer) (v : bool) : MoLAttentionLayer :=
  mkLayer v (wt_idx l) (act_softmax l) (act_tanh l) (act_sigmoid l)
          (mol_props l) (helper_runs l).

Definition count_helper_run (l : MoLAttentionLayer) : MoLAttentionLayer :=
  mkLayer (helper_exec l) (wt_idx l) (act_softmax l) (act_tanh l) (act_sigmoid l)
          (mol_props l) (S (helper_runs l)).

(** ** The setup context *)

Inductive TensorLifespan : Type := ITERATION_LIFESPAN.

Record WeightSpec : Type := mkWeightSpec {
  w_dim : TensorDim;
  w_name : string;
  w_trainable : bool
}.

Record TensorSpec : Type := mkTensorSpec {
  t_dim : TensorDim;
  t_name : string;
  t_trainable : bool;
  t_lifespan : TensorLifespan
}.

Record InitLayerContext : Type := mkInit {
  input_dim : list TensorDim;
  layer_name : string;
  weights_spec : list WeightSpec;
  tensors_spec : list TensorSpec;
  output_dim : list TensorDim
}.

Definition getNumInputs (c : InitLayerContext) : nat := length (input_dim c).

(** [requestWeight] and [requestTensor] record the request and return its
    index in the list of requests of that kind. *)
Definition requestWeight (c : InitLayerContext) (d : TensorDim) (name : string)
    (trainable : bool) : InitLayerContext * nat :=
  (mkInit (input_dim c) (layer_name c)
          (weights_spec c ++ [mkWeightSpec d name trainable])
          (tensors_spec c) (output_dim c),
   length (weights_spec c)).

Definition requestTensor (c : InitLayerContext) (d : TensorDim) (name : string)
    (trainable : bool) (life : TensorLifespan) : InitLayerContext * nat :=
  (mkInit (input_dim c) (layer_name c) (weights_spec c)
          (tensors_spec c ++ [mkTensorSpec d name trainable life])
          (output_dim c),
   length (tensors_spec c)).

Definition setOutputDimensions (c : InitLayerContext) (ds : list TensorDim)
  : InitLayerContext :=
  mkInit (input_dim c) (layer_name c) (weights_spec c) (tensors_spec c) ds.

Definition null_dim : TensorDim := mkDim 0 0 0 0.

(** ** [MoLAttentionLayer::finalize] *)

Definition finalize (l : MoLAttentionLayer) (context : InitLayerContext)
  : result (MoLAttentionLayer * InitLayerContext) :=
  if negb (getNumInputs context =? 3) then
    Throw (runtime_error "MoL Attention layer needs 3 inputs.")
  else
    let all_dims := input_dim context in
    let query_dim := nth (AttentionParams.to_nat AttentionParams.query) all_dims null_dim in
    let value_dim := nth (AttentionParams.to_nat AttentionParams.value) all_dims null_dim in
    let l := with_wt_idx l AttentionParams.query (AttentionParams.to_nat AttentionParams.query) in
    let l := with_wt_idx l AttentionParams.value (AttentionParams.to_nat AttentionParams.value) in
    let l := with_wt_idx l AttentionParams.state (AttentionParams.to_nat AttentionParams.state) in
    let l := with_acti l ACT_SOFTMAX ACT_TANH ACT_SIGMOID in
    if prop_empty (Unit (mol_props l)) then
      Throw (invalid_argument
               (String.append "Number of units not provided for layer "
                              (layer_name context)))
    else
    unit <- prop_get (Unit (mol_props l)) ;;
    if prop_empty (MoL_K (mol_props l)) then
      Throw (invalid_argument
               (String.append "MoL_K property not provided for layer "
                              (layer_name context)))
    else
    mol_k <- prop_get (MoL_K (mol_props l)) ;;
    let fc_w_dim := dim2 (width query_dim) unit in
    let '(context, i) := requestWeight context fc_w_dim "fc_w" true in
    let l := with_wt_idx l AttentionParams.fc_w i in
    let fc_bias_dim := dim1 unit in
    let '(context, i) := requestWeight context fc_bias_dim "fc_bias" true in
    let l := with_wt_idx l AttentionParams.fc_bias i in
    let fc_proj_w_dim := dim2 unit (3 * mol_k) in
    let '(context, i) := requestWeight context fc_proj_w_dim "fc_proj_w" true in
    let l := with_wt_idx l AttentionParams.fc_proj_w i in
    let fc_out_dim := query_dim in
    let fc_out_dim := set_width fc_out_dim (width fc_w_dim) in
    let '(context, i) :=
      requestTensor context fc_out_dim "fc_out" false ITERATION_LIFESPAN in
    let l := with_wt_idx l AttentionParams.fc_out i in
    let fc_proj_out_dim := fc_out_dim in
    let fc_out_dim := set_width fc_out_dim (width fc_proj_w_dim) in
    let '(context, i) :=
      requestTensor context fc_proj_out_dim "fc_proj_out" false ITERATION_LIFESPAN in
    let l := with_wt_idx l AttentionParams.fc_proj_out i in
    let scores_dim := mkDim (batch value_dim) 1 1 (height value_dim) in
    let '(context, i) :=
      requestTensor context scores_dim "scores" false ITERATION_LIFESPAN in
    let l := with_wt_idx l AttentionParams.scores i in
    let prob_dim := value_dim in
    let prob_dim := set_width prob_dim mol_k in
    let '(context, i) :=
      requestTensor context prob_dim "prob" false ITERATION_LIFESPAN in
    let l := with_wt_idx l AttentionParams.prob i in
    let '(context, i) :=
      requestTensor context prob_dim "prob_left" false ITERATION_LIFESPAN in
    let l := with_wt_idx l AttentionParams.prob_left i in
    let '(context, i) :=
      requestTensor context prob_dim "prob_right" false ITERATION_LIFESPAN in
    let l := with_wt_idx l AttentionParams.prob_right i in
    let '(context, i) :=
      requestTensor context prob_dim "u_neg_div" false ITERATION_LIFESPAN in
    let l := with_wt_idx l AttentionParams.u_neg_div i in
    let '(context, i) :=
      requestTensor context prob_dim "u_pos_div" false ITERATION_LIFESPAN in
    let l := with_wt_idx l AttentionParams.u_pos_div i in
    Ok (l, setOutputDimensions context [query_dim]).

(** ** The run-time context *)

Record RunLayerContext : Type := mkRun {
  inputs : list Tensor;
  outputs : list Tensor;
  weights : list Tensor;
  weight_grads : list Tensor;
  tensors : list Tensor;
  incoming_derivatives : list Tensor;
  outgoing_derivatives : list Tensor
}.

Fixpoint upd (i : nat) (x : Tensor) (l : list Tensor) : list Tensor :=
  match l, i with
  | [], _ => []
  | _ :: tl, O => x :: tl
  | y :: tl, S j => y :: upd j x tl
  end.

Definition getInput (c : RunLayerContext) (i : nat) : Tensor := nth i (inputs c) empty_tensor.
Definition getOutput (c : RunLayerContext) (i : nat) : Tensor := nth i (outputs c) empty_tensor.
Definition getWeight (c : RunLayerContext) (i : nat) : Tensor := nth i (weights c) empty_tensor.
Definition getWeightGrad (c : RunLayerContext) (i : nat) : Tensor :=
  nth i (weight_grads c) empty_tensor.
Definition getTensor (c : RunLayerContext) (i : nat) : Tensor := nth i (tensors c) empty_tensor.
Definition getIncomingDerivative (c : RunLayerContext) (i : nat) : Tensor :=
  nth i (incoming_derivatives c) empty_tensor.
Definition getOutgoingDerivative (c : RunLayerContext) (i : nat) : Tensor :=
  nth i (outgoing_derivatives c) empty_tensor.

(** Writing through the reference a getter returned. *)
Definition setOutput (c : RunLayerContext) (i : nat) (x : Tensor) : RunLayerContext :=
  mkRun (inputs c) (upd i x (outputs c)) (weights c) (weight_grads c) (tensors c)
        (incoming_derivatives c) (outgoing_derivatives c).
Definition setWeightGrad (c : RunLayerContext) (i : nat) (x : Tensor) : RunLayerContext :=
  mkRun (inputs c) (outputs c) (weights c) (upd i x (weight_grads c)) (tensors c)
        (incoming_derivatives c) (outgoing_derivatives c).
Definition setTensor (c : RunLayerContext) (i : nat) (x : Tensor) : RunLayerContext :=
  mkRun (inputs c) (outputs c) (weights c) (weight_grads c) (upd i x (tensors c))
        (incoming_derivatives c) (outgoing_derivatives c).
Definition setOutgoingDerivative (c : RunLayerContext) (i : nat) (x : Tensor)
  : RunLayerContext :=
  mkRun (inputs c) (outputs c) (weights c) (weight_grads c) (tensors c)
        (incoming_derivatives c) (upd i x (outgoing_derivatives c)).

(** [context.updateTensor(idx, batch)]: the tensor gets the new batch size
    and storage of the new length; the old contents are not kept. *)
Definition updateTensor (c : RunLayerContext) (i : nat) (b : nat) : RunLayerContext :=
  setTensor c i (zeros (set_batch (dim (getTensor c i)) b)).

(** ** [MoLAttentionLayer::forwarding] *)

(** The floor added to the scale before dividing: [1e-8f]. *)
Definition scale_eps : R := (1 / 100000000)%R.

(** The tensor statements of [forwarding], with the mixture size already
    read from the properties. *)
Definition forwarding_body (l : MoLAttentionLayer) (mol_k : nat)
    (context : RunLayerContext) : RunLayerContext :=
  let ix := wt_idx l in
  let query := getInput context (ix AttentionParams.query) in
  let value := getInput context (ix AttentionParams.value) in
  let state := getInput context (ix AttentionParams.state) in
  let fc_w := getWeight context (ix AttentionParams.fc_w) in
  let fc_bias := getWeight context (ix AttentionParams.fc_bias) in
  let fc_proj_w := getWeight context (ix AttentionParams.fc_proj_w) in
  let i_fc_out := ix AttentionParams.fc_out in
  let i_fc_tanh := ix AttentionParams.fc_tanh in
  let i_fc_proj_out := ix AttentionParams.fc_proj_out in
  let i_scores := ix AttentionParams.scores in
  let i_prob := ix AttentionParams.prob in
  let i_prob_left := ix AttentionParams.prob_left in
  let i_prob_right := ix AttentionParams.prob_right in
  let i_u_neg_div := ix AttentionParams.u_neg_div in
  let i_u_pos_div := ix AttentionParams.u_pos_div in
  let batch := batch (dim query) in
  (* fc_out = query.dot(fc_w); fc_out.add_i(fc_bias) *)
  let context := setTensor context i_fc_out (dot query fc_w false false) in
  let context := setTensor context i_fc_out (add (getTensor context i_fc_out) fc_bias) in
  (* tanh.run_fn(fc_out, fc_tanh) *)
  let context :=
    setTensor context i_fc_tanh
      (run_fn (act_tanh l) (getTensor context i_fc_out) (getTensor context i_fc_tanh)) in
  (* fc_proj_out = fc_tanh.dot(fc_proj_w) *)
  let context :=
    setTensor context i_fc_proj_out
      (dot (getTensor context i_fc_tanh) fc_proj_w false false) in
  let seg := mkDim batch 1 1 mol_k in
  let kappa_src :=
    copy_with_stride (getSharedDataTensor (getTensor context i_fc_proj_out) seg 0) in
  let beta_src :=
    copy_with_stride (getSharedDataTensor (getTensor context i_fc_proj_out) seg mol_k) in
  let alpha_src :=
    copy_with_stride (getSharedDataTensor (getTensor context i_fc_proj_out) seg (mol_k * 2)) in
  let kappa_src := apply exp kappa_src in
  let beta_src := apply exp beta_src in
  let kappa := kappa_src in
  let beta := beta_src in
  let alpha := run_fn (act_softmax l) alpha_src empty_tensor in
  let context :=
    setTensor context i_fc_proj_out
      (view_copy_with_stride
         (getSharedDataTensor (getTensor context i_fc_proj_out) seg 0) kappa) in
  let context :=
    setTensor context i_fc_proj_out
      (view_copy_with_stride
         (getSharedDataTensor (getTensor context i_fc_proj_out) seg mol_k) beta) in
  let context :=
    setTensor context i_fc_proj_out
      (view_copy_with_stride
         (getSharedDataTensor (getTensor context i_fc_proj_out) seg (mol_k * 2)) alpha) in
  let m := add state kappa in
  (* every row h of u_base is filled with h + 1 *)
  let u_base :=
    build (mkDim batch 1 (Tensor_height value) mol_k) (fun _ _ h _ => INR (h + 1)) in
  let u_pos := add_scalar u_base (5 / 10)%R in
  let u_base := add_scalar u_base (- (5 / 10))%R in
  let u_neg := u_base in
  let beta_eps := add_scalar beta scale_eps in
  let u_pos_m := subtract u_pos m in
  let context :=
    setTensor context i_u_pos_div
      (divide_out u_pos_m beta_eps (getTensor context i_u_pos_div)) in
  let context :=
    setTensor context i_prob_left
      (run_fn (act_sigmoid l) (getTensor context i_u_pos_div)
              (getTensor context i_prob_left)) in
  let u_neg_m := subtract u_neg m in
  let context :=
    setTensor context i_u_neg_div
      (divide_out u_neg_m beta_eps (getTensor context i_u_neg_div)) in
  let context :=
    setTensor context i_prob_right
      (run_fn (act_sigmoid l) (getTensor context i_u_neg_div)
              (getTensor context i_prob_right)) in
  let context :=
    setTensor context i_prob
      (subtract_out (getTensor context i_prob_left) (getTensor context i_prob_right)
                    (getTensor context i_prob)) in
  let prob_scaled := multiply (getTensor context i_prob) alpha in
  let context :=
    setTensor context i_scores
      (store_into (getTensor context i_scores) (sum_axis3 prob_scaled)) in
  let context :=
    setOutput context SINGLE_INOUT_IDX
      (dotBatched (getTensor context i_scores) value
                  (getOutput context SINGLE_INOUT_IDX) false false) in
  context.

Definition forwarding (l : MoLAttentionLayer) (context : RunLayerContext)
  : result (MoLAttentionLayer * RunLayerContext) :=
  mol_k <- prop_get (MoL_K (mol_props l)) ;;
  (* reset helper state *)
  let l := with_helper_exec l false in
  Ok (l, forwarding_body l mol_k context).

(** ** [MoLAttentionLayer::calcDerivativeHelper]

    [dstate] is the reference both callers pass: the outgoing derivative
    at the slot of the location state, given here by its index. *)

Definition calcDerivativeHelper_body (l : MoLAttentionLayer) (mol_k : nat)
    (context : RunLayerContext) (dstate : nat) : RunLayerContext :=
  let ix := wt_idx l in
  let query := getInput context (ix AttentionParams.query) in
  let value := getInput context (ix AttentionParams.value) in
  let derivative := getIncomingDerivative context SINGLE_INOUT_IDX in
  (* fc_proj_out and dfc_proj_out are references to one and the same slot *)
  let i_fc_proj_out := ix AttentionParams.fc_proj_out in
  let i_dfc_proj_out := ix AttentionParams.fc_proj_out in
  let scores := getTensor context (ix AttentionParams.scores) in
  let prob := getTensor context (ix AttentionParams.prob) in
  let prob_left := getTensor context (ix AttentionParams.prob_left) in
  let prob_right := getTensor context (ix AttentionParams.prob_right) in
  let u_neg_div := getTensor context (ix AttentionParams.u_neg_div) in
  let u_pos_div := getTensor context (ix AttentionParams.u_pos_div) in
  let batch := batch (dim query) in
  let seg := mkDim batch 1 1 mol_k in
  let kappa :=
    copy_with_stride (getSharedDataTensor (getTensor context i_fc_proj_out) seg 0) in
  let beta :=
    copy_with_stride (getSharedDataTensor (getTensor context i_fc_proj_out) seg mol_k) in
  let alpha :=
    copy_with_stride (getSharedDataTensor (getTensor context i_fc_proj_out) seg (mol_k * 2)) in
  let dscores := zeros (mkDim (Tensor_batch value) 1 1 (Tensor_height value)) in
  let dscores := dot_batched_deriv_wrt_1 dscores value derivative in
  let dscores :=
    reshape dscores (mkDim (Tensor_batch scores) 1 (Tensor_width scores) 1) in
  let dprob_scaled := zeros (mkDim batch 1 (Tensor_height value) mol_k) in
  let dprob_scaled := add dprob_scaled dscores in
  let dalpha := sum_axis2 (multiply dprob_scaled prob) in
  let dprob := multiply dprob_scaled alpha in
  let dprob_left := dprob in
  let dprob_right := multiply_scalar dprob (-1)%R in
  let beta_eps := add_scalar beta scale_eps in
  let du_neg_div := run_prime_fn (act_sigmoid l) prob_right empty_tensor dprob_right in
  let du_neg_m := divide du_neg_div beta_eps in
  let dm_neg := sum_axis2 (multiply_scalar du_neg_m (-1)%R) in
  let dbeta_eps_neg :=
    sum_axis2 (multiply_scalar (multiply du_neg_m u_neg_div) (-1)%R) in
  let du_pos_div := run_prime_fn (act_sigmoid l) prob_left empty_tensor dprob_left in
  let du_pos_m := divide du_pos_div beta_eps in
  let dm_pos := sum_axis2 (multiply_scalar du_pos_m (-1)%R) in
  let dbeta_eps_pos :=
    sum_axis2 (multiply_scalar (multiply du_pos_m u_pos_div) (-1)%R) in
  let dbeta_eps := add dbeta_eps_neg dbeta_eps_pos in
  (* dm_neg.add(dm_pos, dstate) *)
  let context :=
    setOutgoingDerivative context dstate
      (add_out dm_neg dm_pos (getOutgoingDerivative context dstate)) in
  let dkappa := getOutgoingDerivative context dstate in
  let dbeta := dbeta_eps in
  let dalpha_src := run_prime_fn (act_softmax l) alpha empty_tensor dalpha in
  let dkappa_src := multiply dkappa kappa in
  let dbeta_src := multiply dbeta beta in
  (* dfc_proj_out shares memory with fc_proj_out *)
  let context :=
    setTensor context i_dfc_proj_out
      (view_copy_with_stride
         (getSharedDataTensor (getTensor context i_dfc_proj_out) seg 0) dkappa_src) in
  let context :=
    setTensor context i_dfc_proj_out
      (view_copy_with_stride
         (getSharedDataTensor (getTensor context i_dfc_proj_out) seg mol_k) dbeta_src) in
  let context :=
    setTensor context i_dfc_proj_out
      (view_copy_with_stride
         (getSharedDataTensor (getTensor context i_dfc_proj_out) seg (mol_k * 2))
         dalpha_src) in
  context.

Definition calcDerivativeHelper (l : MoLAttentionLayer) (context : RunLayerContext)
    (dstate : nat) : result (MoLAttentionLayer * RunLayerContext) :=
  mol_k <- prop_get (MoL_K (mol_props l)) ;;
  let context := calcDerivativeHelper_body l mol_k context dstate in
  (* update the helper state *)
  let l := count_helper_run (with_helper_exec l true) in
  Ok (l, context).

(** ** [MoLAttentionLayer::calcDerivative] *)

(** The statement before the helper call. *)
Definition calcDerivative_first (l : MoLAttentionLayer) (context : RunLayerContext)
  : RunLayerContext :=
  let ix := wt_idx l in
  let i_dvalue := ix AttentionParams.value in
  let derivative := getIncomingDerivative context SINGLE_INOUT_IDX in
  let i_scores := ix AttentionParams.scores in
  (* scores.dot_batched_deriv_wrt_1(dvalue, derivative) *)
  setTensor context i_scores
    (dot_batched_deriv_wrt_1 (getTensor context i_scores)
       (getOutgoingDerivative context i_dvalue) derivative).

(** The statements after the helper call. *)
Definition calcDerivative_rest (l : MoLAttentionLayer) (context : RunLayerContext)
  : RunLayerContext :=
  let ix := wt_idx l in
  let i_dquery := ix AttentionParams.query in
  let fc_w := getWeight context (ix AttentionParams.fc_w) in
  let fc_proj_w := getWeight context (ix AttentionParams.fc_proj_w) in
  let i_fc_out := ix AttentionParams.fc_out in
  let i_fc_tanh := ix AttentionParams.fc_tanh in
  let i_dfc_proj_out := ix AttentionParams.fc_proj_out in
  let dfc_tanh := zeros (dim (getTensor context i_fc_out)) in
  let dfc_tanh :=
    dot_deriv_wrt_1 dfc_tanh fc_proj_w (getTensor context i_dfc_proj_out) in
  let dfc_out :=
    run_prime_fn (act_tanh l) (getTensor context i_fc_tanh) empty_tensor dfc_tanh in
  let context :=
    setOutgoingDerivative context i_dquery
      (dot_deriv_wrt_1 (getOutgoingDerivative context i_dquery) fc_w dfc_out) in
  context.

Definition calcDerivative (l : MoLAttentionLayer) (context : RunLayerContext)
  : result (MoLAttentionLayer * RunLayerContext) :=
  let i_dstate := wt_idx l AttentionParams.state in
  let context := calcDerivative_first l context in
  ' (l, context) <-
     (if negb (helper_exec l) then calcDerivativeHelper l context i_dstate
      else Ok (l, context)) ;;
  Ok (l, calcDerivative_rest l context).

(** ** [MoLAttentionLayer::calcGradient] *)

(** The statements after the helper call. *)
Definition calcGradient_rest (l : MoLAttentionLayer) (context : RunLayerContext)
  : RunLayerContext :=
  let ix := wt_idx l in
  let query := getInput context (ix AttentionParams.query) in
  let fc_proj_w := getWeight context (ix AttentionParams.fc_proj_w) in
  let i_dfc_w := ix AttentionParams.fc_w in
  let i_dfc_bias := ix AttentionParams.fc_bias in
  let i_dfc_proj_w := ix AttentionParams.fc_proj_w in
  let i_fc_out := ix AttentionParams.fc_out in
  let i_fc_tanh := ix AttentionParams.fc_tanh in
  let i_dfc_proj_out := ix AttentionParams.fc_proj_out in
  let dfc_tanh := zeros (dim (getTensor context i_fc_out)) in
  let context :=
    setWeightGrad context i_dfc_proj_w
      (dot_deriv_wrt_2 (getTensor context i_fc_tanh)
         (getWeightGrad context i_dfc_proj_w) (getTensor context i_dfc_proj_out)) in
  let dfc_tanh :=
    dot_deriv_wrt_1 dfc_tanh fc_proj_w (getTensor context i_dfc_proj_out) in
  let dfc_out :=
    run_prime_fn (act_tanh l) (getTensor context i_fc_tanh) empty_tensor dfc_tanh in
  let context :=
    setWeightGrad context i_dfc_w
      (dot_deriv_wrt_2 query (getWeightGrad context i_dfc_w) dfc_out) in
  let context :=
    setWeightGrad context i_dfc_bias
      (store_into (getWeightGrad context i_dfc_bias) (sum_axes012 dfc_out)) in
  context.

Definition calcGradient (l : MoLAttentionLayer) (context : RunLayerContext)
  : result (MoLAttentionLayer * RunLayerContext) :=
  let i_dstate := wt_idx l AttentionParams.state in
  ' (l, context) <-
     (if negb (helper_exec l) then calcDerivativeHelper l context i_dstate
      else Ok (l, context)) ;;
  Ok (l, calcGradient_rest l context).

(** ** [MoLAttentionLayer::setBatch] *)

Definition setBatch (l : MoLAttentionLayer) (context : RunLayerContext) (batch : nat)
  : MoLAttentionLayer * RunLayerContext :=
  let ix := wt_idx l in
  let context := updateTensor context (ix AttentionParams.fc_out) batch in
  let context := updateTensor context (ix AttentionParams.fc_proj_out) batch in
  let context := updateTensor context (ix AttentionParams.scores) batch in
  let context := updateTensor context (ix AttentionParams.prob) batch in
  let context := updateTensor context (ix AttentionParams.prob_left) batch in
  let context := updateTensor context (ix AttentionParams.prob_right) batch in
  let context := updateTensor context (ix AttentionParams.u_neg_div) batch in
  let context := updateTensor context (ix AttentionParams.u_pos_div) batch in
  (l, context).

(** ** Setup and run-time context together *)

(** The context handed to [finalize] for a layer with the given inputs:
    nothing requested yet. *)
Definition fresh_context (name : string) (dims : list TensorDim) : InitLayerContext :=
  mkInit dims name [] [] [].

(** The run-time context built for a finalized layer: every input, weight,
    scratch tensor, output and derivative has the dimension that was
    declared or requested at setup. *)
Record realizes (ictx : InitLayerContext) (c : RunLayerContext) : Prop := {
  inputs_dim : map dim (inputs c) = input_dim ictx;
  outputs_dim : map dim (outputs c) = output_dim ictx;
  weights_dim : map dim (weights c) = map w_dim (weights_spec ictx);
  weight_grads_dim : map dim (weight_grads c) = map w_dim (weights_spec ictx);
  tensors_dim : map dim (tensors c) = map t_dim (tensors_spec ictx);
  incoming_dim : map dim (incoming_derivatives c) = output_dim ictx;
  outgoing_dim : map dim (outgoing_derivatives c) = input_dim ictx
}.

(** A run-time context of zero tensors with the dimensions of a setup. *)
Definition zero_context (ictx : InitLayerContext) : RunLayerContext :=
  mkRun (map zeros (input_dim ictx))
        (map zeros (output_dim ictx))
        (map (fun s => zeros (w_dim s)) (weights_spec ictx))
        (map (fun s => zeros (w_dim s)) (weights_spec ictx))
        (map (fun s => zeros (t_dim s)) (tensors_spec ictx))
        (map zeros (output_dim ictx))
        (map zeros (input_dim ictx)).

(** The names under which scratch tensors were requested. *)
Definition requested_names (ictx : InitLayerContext) : list string :=
  map t_name (tensors_spec ictx).

(** ** The attention formula, as the specification words it

    These definitions follow the specification, not the code; the theorems
    below compare them with what [forwarding] leaves in the context.  The
    inputs and weights are read at the indices [finalize] assigns. *)

Section MixtureFormula.
Variable c : RunLayerContext.
Variable K : nat.

(** packed_output = tanh(query . W1 + b1) . W2 *)
Definition packed_output : Tensor :=
  dot (apply tanh (add (dot (getInput c 0) (getWeight c 0) false false)
                       (getWeight c 1)))
      (getWeight c 2) false false.

Definition shift_logit (b k : nat) : R := getValue packed_output b 0 0 k.
Definition scale_logit (b k : nat) : R := getValue packed_output b 0 0 (K + k).
Definition weight_logit (b k : nat) : R := getValue packed_output b 0 0 (2 * K + k).

(** center = location_state + exp(shift_logits) *)
Definition mol_center (b k : nat) : R :=
  (getValue (getInput c 2) b 0 0 k + exp (shift_logit b k))%R.
(** scale = exp(scale_logits) *)
Definition mol_scale (b k : nat) : R := exp (scale_logit b k).
(** weight = softmax(weight_logits) *)
Definition mol_weight (b k : nat) : R :=
  (exp (weight_logit b k) / rsum K (fun j => exp (weight_logit b j)))%R.

(** prob(t, k) = sigmoid((t + 0.5 - center) / (scale + eps))
               - sigmoid((t - 0.5 - center) / (scale + eps)) *)
Definition mol_prob (b t k : nat) : R :=
  (sigmoid_fn ((INR t + 5 / 10 - mol_center b k) / (mol_scale b k + scale_eps))
   - sigmoid_fn ((INR t - 5 / 10 - mol_center b k) / (mol_scale b k + scale_eps)))%R.

(** score(t) = sum over k of weight(k) * prob(t, k) *)
Definition mol_score (b t : nat) : R :=
  rsum K (fun k => (mol_weight b k * mol_prob b t k)%R).
End MixtureFormula.

(** ** A concrete setup

    One batch row, a query of width 2, four value vectors of width 1, one
    mixture component, two hidden units. *)
Definition scenario_props : MolProps := mkProps (Some 2) (Some 1).
Definition scenario_dims : list TensorDim :=
  [mkDim 1 1 1 2; mkDim 1 1 4 1; mkDim 1 1 1 1].
Definition scenario_init : InitLayerContext := fresh_context "mol" scenario_dims.


(** The concrete setup run once: setup, a forward pass on a context of
    zero tensors, then the weight-gradient entry point. *)
Definition scenario_after_backward : result (MoLAttentionLayer * RunLayerContext) :=
  ' (l, ictx) <- finalize (new_layer scenario_props) scenario_init ;;
  ' (l, c) <- forwarding l (zero_context ictx) ;;
  calcGradient l c.


(** The index table and the layer object [finalize] leaves behind when it
    starts from a newly constructed layer and a context without earlier
    requests. *)
Definition finalized_wt_idx : IndexTable :=
  let t : IndexTable := fun _ => 0 in
  let t := set_idx t AttentionParams.query 0 in
  let t := set_idx t AttentionParams.value 1 in
  let t := set_idx t AttentionParams.state 2 in
  let t := set_idx t AttentionParams.fc_w 0 in
  let t := set_idx t AttentionParams.fc_bias 1 in
  let t := set_idx t AttentionParams.fc_proj_w 2 in
  let t := set_idx t AttentionParams.fc_out 0 in
  let t := set_idx t AttentionParams.fc_proj_out 1 in
  let t := set_idx t AttentionParams.scores 2 in
  let t := set_idx t AttentionParams.prob 3 in
  let t := set_idx t AttentionParams.prob_left 4 in
  let t := set_idx t AttentionParams.prob_right 5 in
  let t := set_idx t AttentionParams.u_neg_div 6 in
  set_idx t AttentionParams.u_pos_div 7.

Definition finalized_layer (props : MolProps) : MoLAttentionLayer :=
  mkLayer false finalized_wt_idx ACT_SOFTMAX ACT_TANH ACT_SIGMOID props 0.

(** What a fresh context holds after [finalize]. *)
Definition finalized_context (name : string) (q v s : TensorDim) (u k : nat)
  : InitLayerContext :=
  mkInit [q; v; s] name
    [mkWeightSpec (dim2 (width q) u) "fc_w" true;
     mkWeightSpec (dim1 u) "fc_bias" true;
     mkWeightSpec (dim2 u (3 * k)) "fc_proj_w" true]
    [mkTensorSpec (set_width q u) "fc_out" false ITERATION_LIFESPAN;
     mkTensorSpec (set_width q u) "fc_proj_out" false ITERATION_LIFESPAN;
     mkTensorSpec (mkDim (batch v) 1 1 (height v)) "scores" false ITERATION_LIFESPAN;
     mkTensorSpec (set_width v k) "prob" false ITERATION_LIFESPAN;
     mkTensorSpec (set_width v k) "prob_left" false ITERATION_LIFESPAN;
     mkTensorSpec (set_width v k) "prob_right" false ITERATION_LIFESPAN;
     mkTensorSpec (set_width v k) "u_neg_div" false ITERATION_LIFESPAN;
     mkTensorSpec (set_width v k) "u_pos_div" false ITERATION_LIFESPAN]
    [q].


(** ** The context at backward time

    What the backward entry points find after a forward pass: the inputs
    and outgoing derivatives with the declared dimensions, the packed
    projection output as the forward pass assigned it, three segments wide,
    and the cached scorer tensors. *)
Record after_forward (B T Q V U K : nat) (c : RunLayerContext) : Prop := {
  af_inputs :
    map dim (inputs c) = [mkDim B 1 1 Q; mkDim B 1 T V; mkDim B 1 1 K];
  af_tensors :
    map dim (tensors c)
    = [mkDim B 1 1 U; mkDim B 1 1 (3 * K); mkDim B 1 1 T;
       mkDim B 1 T K; mkDim B 1 T K; mkDim B 1 T K; mkDim B 1 T K; mkDim B 1 T K];
  af_packed_len : length (data (getTensor c 1)) = B * (3 * K);
  af_outgoing :
    map dim (outgoing_derivatives c) = [mkDim B 1 1 Q; mkDim B 1 T V; mkDim B 1 1 K]
}.

(** ** The scorer backward formulas, as the specification words them

    Read from the context the backward pass starts from; the slots are the
    ones [finalize] assigns. *)

Section ScorerBackward.
Variable c : RunLayerContext.
Variable K : nat.
Variable T : nat.

(** kappa, beta and alpha as the forward pass left them in the packed
    buffer. *)
Definition cached_shift (b k : nat) : R := getValue (getTensor c 1) b 0 0 k.
Definition cached_scale (b k : nat) : R := getValue (getTensor c 1) b 0 0 (K + k).
Definition cached_weight (b k : nat) : R := getValue (getTensor c 1) b 0 0 (2 * K + k).

(** d_score: the batched-dot backward primitive applied to the value
    sequence and the incoming context gradient. *)
Definition d_score_tensor : Tensor :=
  reshape
    (dot_batched_deriv_wrt_1
       (zeros (mkDim (Tensor_batch (getInput c 1)) 1 1 (Tensor_height (getInput c 1))))
       (getInput c 1) (getIncomingDerivative c 0))
    (mkDim (Tensor_batch (getTensor c 2)) 1 (Tensor_width (getTensor c 2)) 1).
Definition d_score (b t : nat) : R := getValue d_score_tensor b 0 t 0.

(** d_weight(k) = sum over t of d_score(t) * prob(t, k) *)
Definition d_weight (b k : nat) : R :=
  rsum T (fun t => (d_score b t * getValue (getTensor c 3) b 0 t k)%R).

(** d_prob(t, k) = d_score(t) * weight(k) *)
Definition d_prob (b t k : nat) : R := (d_score b t * cached_weight b k)%R.

(** The sigmoid backward formula on the cached sigmoid outputs, with
    incoming gradients d_prob and - d_prob. *)
Definition d_left_arg (b t k : nat) : R :=
  (sigmoidPrime (getValue (getTensor c 4) b 0 t k) * d_prob b t k)%R.
Definition d_right_arg (b t k : nat) : R :=
  (sigmoidPrime (getValue (getTensor c 5) b 0 t k) * - d_prob b t k)%R.

(** The cached arguments of the two sigmoids. *)
Definition left_arg (b t k : nat) : R := getValue (getTensor c 7) b 0 t k.
Definition right_arg (b t k : nat) : R := getValue (getTensor c 6) b 0 t k.

Definition safe_scale (b k : nat) : R := (cached_scale b k + scale_eps)%R.

(** The two gradients as the claim writes them. *)
Definition d_center_as_claimed (b k : nat) : R :=
  (- rsum T (fun t => d_left_arg b t k + d_right_arg b t k))%R.
Definition d_safe_scale_as_claimed (b k : nat) : R :=
  (- rsum T (fun t => d_left_arg b t k * left_arg b t k
                      + d_right_arg b t k * right_arg b t k))%R.

(** The same with the division by the floored scale that the arguments
    (u - center) / safe_scale bring in. *)
Definition d_center (b k : nat) : R :=
  (- rsum T (fun t => (d_left_arg b t k + d_right_arg b t k) / safe_scale b k))%R.
Definition d_safe_scale (b k : nat) : R :=
  (- rsum T (fun t => (d_left_arg b t k * left_arg b t k
                       + d_right_arg b t k * right_arg b t k) / safe_scale b k))%R.
End ScorerBackward.

(** The softmax backward formula on the cached weights. *)
Definition d_weight_logit (c : RunLayerContext) (K T b k : nat) : R :=
  rsum K (fun j =>
    ((if k =? j
      then cached_weight c K b k * (1 - cached_weight c K b j)
      else - (cached_weight c K b k * cached_weight c K b j))
     * d_weight c T b j)%R).


(** ** A concrete backward step

    One batch row, one timestep, one mixture component, one hidden unit;
    query and weights zero, value 1, location state 1/2, incoming context
    gradient 1. *)
Definition gradient_scenario_props : MolProps := mkProps (Some 1) (Some 1).
Definition unit_dim : TensorDim := mkDim 1 1 1 1.
Definition gradient_scenario : RunLayerContext :=
  mkRun
    [zeros unit_dim; mkTensor unit_dim [1%R]; mkTensor unit_dim [(1 / 2)%R]]
    [zeros unit_dim]
    [zeros (dim2 1 1); zeros (dim1 1); zeros (dim2 1 3)]
    [zeros (dim2 1 1); zeros (dim1 1); zeros (dim2 1 3)]
    [zeros unit_dim; zeros unit_dim; zeros unit_dim; zeros unit_dim;
     zeros unit_dim; zeros unit_dim; zeros unit_dim; zeros unit_dim]
    [mkTensor unit_dim [1%R]]
    [zeros unit_dim; zeros unit_dim; zeros unit_dim].


(** ** The projections that produce the packed parameters

    [forwarding] first computes the hidden activation
    [tanh (query . fc_w + fc_bias)] and then the packed parameters
    [hidden . fc_proj_w]; element by element these are: *)

Definition mol_hidden (c : RunLayerContext) (Q : nat) (b u : nat) : R :=
  tanh (rsum Q (fun q => getValue (getInput c 0) b 0 0 q * getValue (getWeight c 0) 0 0 q u)
        + getValue (getWeight c 1) 0 0 0 u)%R.

Definition mol_packed (c : RunLayerContext) (Q U : nat) (b j : nat) : R :=
  rsum U (fun u => mol_hidden c Q b u * getValue (getWeight c 2) 0 0 u j)%R.

(** ** The weight gradients, as read off the backward pass

    The weights and their gradient buffers with the dimensions [finalize]
    requests. *)
Record weights_allocated (Q U K : nat) (c : RunLayerContext) : Prop := {
  wa_weights :
    map dim (weights c) = [mkDim 1 1 Q U; mkDim 1 1 1 U; mkDim 1 1 U (3 * K)];
  wa_grads :
    map dim (weight_grads c) = [mkDim 1 1 Q U; mkDim 1 1 1 U; mkDim 1 1 U (3 * K)]
}.

(** The gradient that reaches the hidden activation: the tanh backward
    formula on the cached activation, applied to the packed gradient
    pulled back through the second projection. *)
Definition d_hidden (c : RunLayerContext) (K : nat) (b u : nat) : R :=
  ((1 - getValue (getTensor c 0) b 0 0 u * getValue (getTensor c 0) b 0 0 u)
   * rsum (3 * K) (fun j => getValue (getTensor c 1) b 0 0 j
                            * getValue (getWeight c 2) 0 0 u j))%R.

(** * Properties *)

(** ** Indexing *)

Section Indexing.
Variable d : TensorDim.
Variables b c h w : nat.
Hypothesis Hb : b < batch d.
Hypothesis Hc : c < channel d.
Hypothesis Hh : h < height d.
Hypothesis Hw : w < width d.

Lemma coord_w_getIndex : coord_w d (getIndex d b c h w) = w.
Proof.
  unfold coord_w, getIndex.
  rewrite Nat.add_comm, Nat.Div0.mod_add. now apply Nat.mod_small.
Qed.

Lemma div_width_getIndex :
  getIndex d b c h w / width d = (b * channel d + c) * height d + h.
Proof.
  unfold getIndex.
  rewrite Nat.div_add_l by lia. rewrite (Nat.div_small w) by assumption. lia.
Qed.

Lemma coord_h_getIndex : coord_h d (getIndex d b c h w) = h.
Proof.
  unfold coord_h. rewrite div_width_getIndex.
  rewrite Nat.add_comm, Nat.Div0.mod_add. now apply Nat.mod_small.
Qed.

Lemma div_height_getIndex :
  getIndex d b c h w / width d / height d = b * channel d + c.
Proof.
  rewrite div_width_getIndex.
  rewrite Nat.div_add_l by lia. rewrite (Nat.div_small h) by assumption. lia.
Qed.

Lemma coord_c_getIndex : coord_c d (getIndex d b c h w) = c.
Proof.
  unfold coord_c. rewrite div_height_getIndex.
  rewrite Nat.add_comm, Nat.Div0.mod_add. now apply Nat.mod_small.
Qed.

Lemma coord_b_getIndex : coord_b d (getIndex d b c h w) = b.
Proof.
  unfold coord_b. rewrite div_height_getIndex.
  rewrite Nat.div_add_l by lia. rewrite (Nat.div_small c) by assumption. lia.
Qed.

Lemma getIndex_lt : getIndex d b c h w < getDataLen d.
Proof.
  unfold getIndex, getDataLen, getFeatureLen.
  assert (H1 : b * channel d + c + 1 <= batch d * channel d) by nia.
  assert (H2 : (b * channel d + c) * height d + h + 1
               <= batch d * channel d * height d) by nia.
  nia.
Qed.

Lemma nth_build (f : nat -> nat -> nat -> nat -> R) :
  nth (getIndex d b c h w) (data (build d f)) 0%R = f b c h w.
Proof.
  unfold build; simpl.
  pose proof getIndex_lt as Hlt.
  rewrite (nth_indep _ 0%R
             (f (coord_b d 0) (coord_c d 0) (coord_h d 0) (coord_w d 0)))
    by (rewrite length_map, length_seq; exact Hlt).
  rewrite (map_nth (fun i => f (coord_b d i) (coord_c d i) (coord_h d i) (coord_w d i))).
  rewrite seq_nth by exact Hlt. simpl.
  now rewrite coord_b_getIndex, coord_c_getIndex, coord_h_getIndex, coord_w_getIndex.
Qed.

Lemma getValue_build (f : nat -> nat -> nat -> nat -> R) :
  getValue (build d f) b c h w = f b c h w.
Proof. unfold getValue. simpl dim. apply nth_build. Qed.
End Indexing.

Lemma dim_build (d : TensorDim) f : dim (build d f) = d.
Proof. reflexivity. Qed.

Lemma length_build (d : TensorDim) f : length (data (build d f)) = getDataLen d.
Proof. unfold build; simpl. now rewrite length_map, length_seq. Qed.

(** ** Writing into a result tensor *)

Lemma nth_store_into (out res : Tensor) (i : nat) :
  i < getDataLen (dim out) -> i < length (data res) ->
  nth i (data (store_into out res)) 0%R = nth i (data res) 0%R.
Proof.
  intros Hi Hr. unfold store_into.
  destruct (empty out); [reflexivity|]. simpl.
  rewrite (nth_indep _ 0%R
             ((fun i => if i <? length (data res) then nth i (data res) 0%R
                        else nth i (data out) 0%R) 0))
    by (rewrite length_map, length_seq; exact Hi).
  rewrite (map_nth (fun i => if i <? length (data res) then nth i (data res) 0%R
                             else nth i (data out) 0%R)).
  rewrite seq_nth by exact Hi. simpl.
  apply Nat.ltb_lt in Hr. now rewrite Hr.
Qed.

Lemma dim_store_into (out res : Tensor) :
  dim res = dim out -> dim (store_into out res) = dim out.
Proof. intros H. unfold store_into. destruct (empty out); [exact H | reflexivity]. Qed.

Lemma dim_store_into_nonempty (out res : Tensor) :
  empty out = false -> dim (store_into out res) = dim out.
Proof. intros H. unfold store_into. now rewrite H. Qed.

Lemma getValue_store_into_build (out : Tensor) (d : TensorDim) f (b c h w : nat) :
  dim out = d ->
  b < batch d -> c < channel d -> h < height d -> w < width d ->
  getValue (store_into out (build d f)) b c h w = f b c h w.
Proof.
  intros Hd Hb Hc Hh Hw. unfold getValue.
  rewrite dim_store_into by (now rewrite dim_build).
  rewrite Hd, nth_store_into.
  - now apply nth_build.
  - rewrite Hd. now apply getIndex_lt.
  - rewrite length_build. now apply getIndex_lt.
Qed.

(** ** Element-wise operations, element by element *)

Section Elementwise.
Variables x m : Tensor.
Variables b c h w : nat.
Hypothesis Hb : b < batch (dim x).
Hypothesis Hc : c < channel (dim x).
Hypothesis Hh : h < height (dim x).
Hypothesis Hw : w < width (dim x).

Lemma getValue_apply_broadcast (op : R -> R -> R) :
  getValue (apply_broadcast op x m) b c h w
  = op (getValue x b c h w) (getValue_bcast m b c h w).
Proof. unfold apply_broadcast. now rewrite getValue_build. Qed.

Lemma getValue_apply (f : R -> R) :
  getValue (apply f x) b c h w = f (getValue x b c h w).
Proof. unfold apply. now rewrite getValue_build. Qed.
End Elementwise.

Lemma getValue_sum_axis3 (x : Tensor) (b c h : nat) :
  b < batch (dim x) -> c < channel (dim x) -> h < height (dim x) ->
  getValue (sum_axis3 x) b c h 0
  = rsum (width (dim x)) (fun w => getValue x b c h w).
Proof.
  intros Hb Hc Hh. unfold sum_axis3.
  rewrite getValue_build; simpl; auto with arith.
Qed.

Lemma getValue_sum_axis2 (x : Tensor) (b c w : nat) :
  b < batch (dim x) -> c < channel (dim x) -> w < width (dim x) ->
  getValue (sum_axis2 x) b c 0 w
  = rsum (height (dim x)) (fun h => getValue x b c h w).
Proof.
  intros Hb Hc Hw. unfold sum_axis2.
  rewrite getValue_build; simpl; auto with arith.
Qed.

Lemma getValue_copy_with_stride (v : SharedView) (b c h w : nat) :
  b < batch (vdim v) -> c < channel (vdim v) ->
  h < height (vdim v) -> w < width (vdim v) ->
  getValue (copy_with_stride v) b c h w = view_getValue v b c h w.
Proof. intros. unfold copy_with_stride. now rewrite getValue_build. Qed.

(** ** Sums *)

Lemma rsum_ext (n : nat) (f g : nat -> R) :
  (forall i, i < n -> f i = g i) -> rsum n f = rsum n g.
Proof.
  induction n as [|n IH]; intros H; simpl; [reflexivity|].
  rewrite IH by (intros; apply H; lia). now rewrite H by lia.
Qed.

Lemma rsum_plus (n : nat) (f g : nat -> R) :
  rsum n (fun i => (f i + g i)%R) = (rsum n f + rsum n g)%R.
Proof. induction n as [|n IH]; simpl; [lra | rewrite IH; lra]. Qed.

Lemma rsum_opp (n : nat) (f : nat -> R) :
  rsum n (fun i => (- f i)%R) = (- rsum n f)%R.
Proof. induction n as [|n IH]; simpl; [lra | rewrite IH; lra]. Qed.

Lemma rsum_scal_r (n : nat) (f : nat -> R) (a : R) :
  rsum n (fun i => (f i * a)%R) = (rsum n f * a)%R.
Proof. induction n as [|n IH]; simpl; [lra | rewrite IH; lra]. Qed.

Lemma rsum_nonneg (n : nat) (f : nat -> R) :
  (forall i, i < n -> (0 <= f i)%R) -> (0 <= rsum n f)%R.
Proof.
  induction n as [|n IH]; intros H; simpl; [lra|].
  assert (0 <= rsum n f)%R by (apply IH; intros; apply H; lia).
  assert (0 <= f n)%R by (apply H; lia). lra.
Qed.

(** ** Setup errors *)

Lemma finalize_ok (l : MoLAttentionLayer) (context : InitLayerContext) (u k : nat) :
  getNumInputs context = 3 ->
  Unit (mol_props l) = Some u -> MoL_K (mol_props l) = Some k ->
  exists r, finalize l context = Ok r.
Proof.
  intros Hn Hu Hk. unfold finalize.
  rewrite Hn. simpl. rewrite Hu, Hk. simpl. eexists; reflexivity.
Qed.

Lemma forwarding_ok (l : MoLAttentionLayer) (context : RunLayerContext) (k : nat) :
  MoL_K (mol_props l) = Some k -> exists r, forwarding l context = Ok r.
Proof. intros Hk. unfold forwarding. rewrite Hk. eexists; reflexivity. Qed.

Lemma calcDerivativeHelper_ok (l : MoLAttentionLayer) (context : RunLayerContext)
    (dstate k : nat) :
  MoL_K (mol_props l) = Some k ->
  calcDerivativeHelper l context dstate
  = Ok (count_helper_run (with_helper_exec l true),
        calcDerivativeHelper_body l k context dstate).
Proof. intros Hk. unfold calcDerivativeHelper. rewrite Hk. reflexivity. Qed.

Lemma calcDerivative_ok (l : MoLAttentionLayer) (context : RunLayerContext) (k : nat) :
  MoL_K (mol_props l) = Some k -> exists r, calcDerivative l context = Ok r.
Proof.
  intros Hk. unfold calcDerivative.
  destruct (helper_exec l); cbv beta iota zeta delta [negb].
  - eexists; reflexivity.
  - rewrite (calcDerivativeHelper_ok _ _ _ Hk). eexists; reflexivity.
Qed.

Lemma calcGradient_ok (l : MoLAttentionLayer) (context : RunLayerContext) (k : nat) :
  MoL_K (mol_props l) = Some k -> exists r, calcGradient l context = Ok r.
Proof.
  intros Hk. unfold calcGradient.
  destruct (helper_exec l); cbv beta iota zeta delta [negb].
  - eexists; reflexivity.
  - rewrite (calcDerivativeHelper_ok _ _ _ Hk). eexists; reflexivity.
Qed.

(** [finalize] does not touch the properties, the helper flag or the ghost
    counter, and it returns only when both properties are set. *)
Lemma finalize_props (l l' : MoLAttentionLayer) (context context' : InitLayerContext) :
  finalize l context = Ok (l', context') ->
  mol_props l' = mol_props l
  /\ (exists u, Unit (mol_props l) = Some u)
  /\ (exists k, MoL_K (mol_props l) = Some k).
Proof.
  unfold finalize.
  destruct (negb (getNumInputs context =? 3)); [discriminate|].
  simpl.
  destruct (Unit (mol_props l)) as [u|]; simpl; [|discriminate].
  destruct (MoL_K (mol_props l)) as [k|]; simpl; [|discriminate].
  intros H. injection H as <- _.
  split; [reflexivity|]. split; [now exists u | now exists k].
Qed.


(** ** What [finalize] requests *)

Lemma finalize_fresh (props : MolProps) (name : string) (q v s : TensorDim) (u k : nat) :
  Unit props = Some u -> MoL_K props = Some k ->
  finalize (new_layer props) (fresh_context name [q; v; s])
  = Ok (finalized_layer props, finalized_context name q v s u k).
Proof.
  intros Hu Hk.
  unfold finalize, fresh_context, new_layer. simpl.
  rewrite Hu, Hk. simpl. reflexivity.
Qed.

(** C4. At the concrete setup (two hidden units, one mixture component)
    [finalize] requests the packed projection output with the dimension of
    the first projection output, width 2, and not with the width 3 of the
    three one-wide segments: the width of the second projection is written
    into [fc_out_dim] after [fc_proj_out_dim] was copied from it. *)
Theorem fc_proj_out_requested_with_unit_width :
  exists l ictx,
    finalize (new_layer scenario_props) scenario_init = Ok (l, ictx)
    /\ nth_error (tensors_spec ictx) (wt_idx l AttentionParams.fc_proj_out)
       = Some (mkTensorSpec (mkDim 1 1 1 2) "fc_proj_out" false ITERATION_LIFESPAN)
    /\ nth_error (weights_spec ictx) (wt_idx l AttentionParams.fc_proj_w)
       = Some (mkWeightSpec (mkDim 1 1 2 3) "fc_proj_w" true)
    /\ width (mkDim 1 1 1 2) <> 3 * 1.
Proof.
  do 2 eexists. split; [vm_compute; reflexivity|].
  vm_compute. repeat split; discriminate.
Qed.

(** C5. At the concrete setup (query width 2, value width 1) [finalize]
    declares the output with the dimension of the query, width 2, while
    the value sequence has feature width 1. *)
Theorem output_declared_with_query_width :
  exists l ictx,
    finalize (new_layer scenario_props) scenario_init = Ok (l, ictx)
    /\ output_dim ictx = [mkDim 1 1 1 2]
    /\ nth_error (input_dim ictx) (wt_idx l AttentionParams.value)
       = Some (mkDim 1 1 4 1)
    /\ width (mkDim 1 1 1 2) <> width (mkDim 1 1 4 1).
Proof.
  do 2 eexists. split; [vm_compute; reflexivity|].
  vm_compute. repeat split; discriminate.
Qed.

(** C6. At the concrete setup [finalize] requests eight scratch tensors,
    none of them for the tanh output: the slot of [fc_tanh] keeps the
    index the constructor gave it, which is the index of [fc_out]; and
    [setBatch] resizes the eight requested tensors only. *)
Theorem fc_tanh_never_requested :
  exists l ictx,
    finalize (new_layer scenario_props) scenario_init = Ok (l, ictx)
    /\ requested_names ictx
       = ["fc_out"; "fc_proj_out"; "scores"; "prob"; "prob_left";
          "prob_right"; "u_neg_div"; "u_pos_div"]%string
    /\ ~ In "fc_tanh"%string (requested_names ictx)
    /\ wt_idx l AttentionParams.fc_tanh = wt_idx (new_layer scenario_props) AttentionParams.fc_tanh
    /\ wt_idx l AttentionParams.fc_tanh = wt_idx l AttentionParams.fc_out
    /\ map dim (tensors (snd (setBatch l (zero_context ictx) 5)))
       = [mkDim 5 1 1 2; mkDim 5 1 1 2; mkDim 5 1 1 4; mkDim 5 1 4 1;
          mkDim 5 1 4 1; mkDim 5 1 4 1; mkDim 5 1 4 1; mkDim 5 1 4 1].
Proof.
  do 2 eexists. split; [vm_compute; reflexivity|].
  split; [vm_compute; reflexivity|].
  split.
  { vm_compute. intros H. repeat (destruct H as [H|H]; [discriminate H|]). exact H. }
  split; [vm_compute; reflexivity|].
  split; [vm_compute; reflexivity|].
  cbv beta iota zeta delta
    [setBatch snd wt_idx updateTensor setTensor getTensor tensors upd nth
     zero_context tensors_spec map t_dim zeros dim build set_batch
     batch channel height width].
  reflexivity.
Qed.

(** ** The helper flag *)

Lemma forwarding_eq (l : MoLAttentionLayer) (c : RunLayerContext) (k : nat) :
  MoL_K (mol_props l) = Some k ->
  forwarding l c
  = Ok (with_helper_exec l false, forwarding_body (with_helper_exec l false) k c).
Proof. intros Hk. unfold forwarding. rewrite Hk. reflexivity. Qed.

Lemma calcDerivative_pending (l : MoLAttentionLayer) (c : RunLayerContext) (k : nat) :
  MoL_K (mol_props l) = Some k -> helper_exec l = false ->
  calcDerivative l c
  = Ok (count_helper_run (with_helper_exec l true),
        calcDerivative_rest (count_helper_run (with_helper_exec l true))
          (calcDerivativeHelper_body l k (calcDerivative_first l c)
             (wt_idx l AttentionParams.state))).
Proof.
  intros Hk He. unfold calcDerivative. rewrite He.
  cbv beta iota zeta delta [negb].
  rewrite (calcDerivativeHelper_ok _ _ _ Hk). reflexivity.
Qed.

Lemma calcDerivative_computed (l : MoLAttentionLayer) (c : RunLayerContext) :
  helper_exec l = true ->
  calcDerivative l c = Ok (l, calcDerivative_rest l (calcDerivative_first l c)).
Proof. intros He. unfold calcDerivative. rewrite He. reflexivity. Qed.

Lemma calcGradient_pending (l : MoLAttentionLayer) (c : RunLayerContext) (k : nat) :
  MoL_K (mol_props l) = Some k -> helper_exec l = false ->
  calcGradient l c
  = Ok (count_helper_run (with_helper_exec l true),
        calcGradient_rest (count_helper_run (with_helper_exec l true))
          (calcDerivativeHelper_body l k c (wt_idx l AttentionParams.state))).
Proof.
  intros Hk He. unfold calcGradient. rewrite He.
  cbv beta iota zeta delta [negb].
  rewrite (calcDerivativeHelper_ok _ _ _ Hk). reflexivity.
Qed.

Lemma calcGradient_computed (l : MoLAttentionLayer) (c : RunLayerContext) :
  helper_exec l = true ->
  calcGradient l c = Ok (l, calcGradient_rest l c).
Proof. intros He. unfold calcGradient. rewrite He. reflexivity. Qed.

Lemma forwarding_layer (l l1 : MoLAttentionLayer) (c c1 : RunLayerContext) :
  forwarding l c = Ok (l1, c1) -> l1 = with_helper_exec l false.
Proof.
  unfold forwarding.
  destruct (prop_get (MoL_K (mol_props l))) as [k|e]; [|discriminate].
  unfold bind. intros H. congruence.
Qed.

Lemma calcDerivativeHelper_layer (l l1 : MoLAttentionLayer) (c c1 : RunLayerContext)
    (dstate : nat) :
  calcDerivativeHelper l c dstate = Ok (l1, c1) ->
  l1 = count_helper_run (with_helper_exec l true).
Proof.
  unfold calcDerivativeHelper.
  destruct (prop_get (MoL_K (mol_props l))) as [k|e]; [|discriminate].
  unfold bind. intros H. congruence.
Qed.

Lemma calcDerivative_layer (l l1 : MoLAttentionLayer) (c c1 : RunLayerContext) :
  calcDerivative l c = Ok (l1, c1) ->
  l1 = if helper_exec l then l else count_helper_run (with_helper_exec l true).
Proof.
  unfold calcDerivative.
  destruct (helper_exec l); cbv beta iota zeta delta [negb].
  - unfold bind. intros H. congruence.
  - match goal with
    | |- context [calcDerivativeHelper ?a ?b ?d] =>
        destruct (calcDerivativeHelper a b d) as [[l2 c2]|e] eqn:Hh
    end; [|discriminate].
    apply calcDerivativeHelper_layer in Hh. subst l2.
    unfold bind. intros H. congruence.
Qed.

Lemma calcGradient_layer (l l1 : MoLAttentionLayer) (c c1 : RunLayerContext) :
  calcGradient l c = Ok (l1, c1) ->
  l1 = if helper_exec l then l else count_helper_run (with_helper_exec l true).
Proof.
  unfold calcGradient.
  destruct (helper_exec l); cbv beta iota zeta delta [negb].
  - unfold bind. intros H. congruence.
  - match goal with
    | |- context [calcDerivativeHelper ?a ?b ?d] =>
        destruct (calcDerivativeHelper a b d) as [[l2 c2]|e] eqn:Hh
    end; [|discriminate].
    apply calcDerivativeHelper_layer in Hh. subst l2.
    unfold bind. intros H. congruence.
Qed.

(** The concrete setup, evaluated. *)
Lemma scenario_finalize :
  exists l ictx,
    finalize (new_layer scenario_props) scenario_init = Ok (l, ictx)
    /\ MoL_K (mol_props l) = Some 1
    /\ helper_exec l = false.
Proof.
  do 2 eexists. split; [vm_compute; reflexivity|].
  split; vm_compute; reflexivity.
Qed.

Lemma scenario_after_backward_eq :
  exists l c,
    scenario_after_backward = Ok (l, c)
    /\ helper_exec l = true
    /\ MoL_K (mol_props l) = Some 1.
Proof.
  destruct scenario_finalize as (l0 & i0 & Hfin & Hk & He).
  unfold scenario_after_backward. rewrite Hfin.
  cbv beta iota delta [bind].
  rewrite (forwarding_eq l0 (zero_context i0) Hk).
  cbv beta iota.
  rewrite (@calcGradient_pending (with_helper_exec l0 false) _ 1 Hk eq_refl).
  do 2 eexists. split; [reflexivity|]. split; [reflexivity | exact Hk].
Qed.




(** ** Lists of known shape *)

Lemma map_eq_cons_inv (A B : Type) (f : A -> B) (l : list A) (y : B) (r : list B) :
  map f l = y :: r -> exists x l', l = x :: l' /\ f x = y /\ map f l' = r.
Proof.
  destruct l as [|x l']; simpl; [discriminate|].
  intros H. injection H as H1 H2. now exists x, l'.
Qed.

Lemma map_eq_nil_inv (A B : Type) (f : A -> B) (l : list A) :
  map f l = [] -> l = [].
Proof. destruct l; [reflexivity | discriminate]. Qed.

Ltac explode_map H :=
  repeat
    match type of H with
    | map _ ?l = _ :: _ =>
        let x := fresh "t" in
        let l' := fresh "l" in
        let Hx := fresh "Hdim" in
        apply map_eq_cons_inv in H;
        destruct H as (x & l' & -> & Hx & H)
    | map _ ?l = [] => apply map_eq_nil_inv in H; subst l
    end.

(** ** Results written into tensors of the same dimension *)

Lemma map_nth_seq (l : list R) :
  map (fun i => nth i l 0%R) (seq 0 (length l)) = l.
Proof.
  apply nth_ext with (d := 0%R) (d' := 0%R).
  - now rewrite length_map, length_seq.
  - intros n Hn. rewrite length_map, length_seq in Hn.
    rewrite (nth_indep _ 0%R ((fun i => nth i l 0%R) 0))
      by (now rewrite length_map, length_seq).
    rewrite (map_nth (fun i => nth i l 0%R)). now rewrite seq_nth.
Qed.

Lemma store_into_id (out res : Tensor) :
  dim out = dim res -> length (data res) = getDataLen (dim res) ->
  store_into out res = res.
Proof.
  intros Hd Hl. unfold store_into. destruct (empty out); [reflexivity|].
  destruct res as [d l]. simpl in *. rewrite Hd. f_equal.
  rewrite <- Hl.
  transitivity (map (fun i => nth i l 0%R) (seq 0 (length l)));
    [|apply map_nth_seq].
  apply map_ext_in. intros i Hi. apply in_seq in Hi.
  destruct (Nat.ltb_spec i (length l)); [reflexivity | lia].
Qed.

(** ** Broadcast reads *)

Lemma bcast_lt (n i : nat) : i < n -> bcast n i = i.
Proof.
  intros H. unfold bcast. destruct (Nat.eqb_spec n 1); [lia | reflexivity].
Qed.

Lemma getValue_bcast_same (m : Tensor) (b c h w : nat) :
  b < batch (dim m) -> c < channel (dim m) ->
  h < height (dim m) -> w < width (dim m) ->
  getValue_bcast m b c h w = getValue m b c h w.
Proof. intros. unfold getValue_bcast. now rewrite !bcast_lt. Qed.

Lemma getValue_bcast_row (m : Tensor) (b h k : nat) :
  channel (dim m) = 1 -> height (dim m) = 1 ->
  b < batch (dim m) -> k < width (dim m) ->
  getValue_bcast m b 0 h k = getValue m b 0 0 k.
Proof.
  intros Hc Hh Hb Hk. unfold getValue_bcast.
  rewrite Hc, Hh. rewrite (bcast_lt Hb), (bcast_lt Hk). reflexivity.
Qed.

Lemma getValue_bcast_column (m : Tensor) (b h k : nat) :
  channel (dim m) = 1 -> width (dim m) = 1 ->
  b < batch (dim m) -> h < height (dim m) ->
  getValue_bcast m b 0 h k = getValue m b 0 h 0.
Proof.
  intros Hc Hw Hb Hh. unfold getValue_bcast.
  rewrite Hc, Hw. rewrite (bcast_lt Hb), (bcast_lt Hh). reflexivity.
Qed.

(** A view of a one-row-per-batch tensor reads the parent at the offset. *)
Lemma view_getValue_segment (P : Tensor) (d : TensorDim) (off b k : nat) :
  channel (dim P) = 1 -> height (dim P) = 1 ->
  view_getValue (getSharedDataTensor P d off) b 0 0 k = getValue P b 0 0 (off + k).
Proof.
  intros Hc Hh. unfold view_getValue, view_index, getValue, getIndex. simpl.
  rewrite Hc, Hh. f_equal. lia.
Qed.

(** ** Tactics for reading tensors element by element *)

Ltac known_dims :=
  repeat match goal with
         | H : dim ?t = _ |- _ =>
             is_var t; destruct t as [?td ?tl]; cbn [dim] in H; subst
         end.

Ltac collapse_store :=
  repeat match goal with
         | |- context [store_into ?o ?r] =>
             lazymatch r with
             | context [store_into _ _] => fail
             | _ => idtac
             end;
             rewrite (store_into_id o r) by (reflexivity || apply length_build)
         end.

Ltac range_side := simpl; repeat split; (reflexivity || lia).

Ltac tensor_step :=
  first
    [ rewrite getValue_apply_broadcast by range_side
    | rewrite getValue_apply by range_side
    | rewrite getValue_build by range_side
    | rewrite getValue_copy_with_stride by range_side
    | rewrite getValue_bcast_same by range_side
    | rewrite getValue_bcast_row by range_side
    | rewrite getValue_bcast_column by range_side
    | rewrite view_getValue_segment by range_side ].

(** Runs the statements of a method body on a context whose lists are
    explicit, for the layer [finalize] leaves behind. *)
Ltac run_body :=
  cbv beta iota zeta delta
    [forwarding_body calcDerivativeHelper_body calcDerivative_first
     calcDerivative_rest calcGradient_rest
     finalized_layer finalized_wt_idx wt_idx set_idx
     AttentionParams.eqb AttentionParams.to_nat Nat.eqb mol_props
     getInput getWeight getWeightGrad getTensor getOutput
     getIncomingDerivative getOutgoingDerivative
     setTensor setOutput setWeightGrad setOutgoingDerivative
     inputs outputs weights tensors weight_grads
     incoming_derivatives outgoing_derivatives upd nth
     helper_exec act_tanh act_sigmoid act_softmax helper_runs
     SINGLE_INOUT_IDX with_helper_exec count_helper_run
     run_fn run_prime_fn add_out subtract_out divide_out
     Tensor_height Tensor_batch Tensor_width].

(** ** The sigmoid *)

Lemma sigmoid_pos (x : R) : (0 < sigmoid_fn x)%R.
Proof.
  unfold sigmoid_fn. pose proof (exp_pos (- x)).
  apply Rdiv_lt_0_compat; lra.
Qed.

Lemma sigmoid_lt_1 (x : R) : (sigmoid_fn x < 1)%R.
Proof.
  unfold sigmoid_fn. pose proof (exp_pos (- x)) as H.
  apply (Rmult_lt_reg_r (1 + exp (- x))); [lra|].
  unfold Rdiv. rewrite Rmult_assoc, Rinv_l by lra. lra.
Qed.

Lemma sigmoid_monotone (x y : R) : (x <= y)%R -> (sigmoid_fn x <= sigmoid_fn y)%R.
Proof.
  intros Hxy. unfold sigmoid_fn.
  pose proof (exp_pos (- x)) as Hx. pose proof (exp_pos (- y)) as Hy.
  assert (Hle : (exp (- y) <= exp (- x))%R).
  { destruct Hxy as [Hlt | ->]; [|lra].
    left. apply exp_increasing. lra. }
  unfold Rdiv. rewrite !Rmult_1_l.
  apply Rinv_le_contravar; lra.
Qed.

Lemma getValue_store_row_of_sum (out x : Tensor) (B T b h : nat) :
  dim out = mkDim B 1 1 T ->
  batch (dim x) = B -> channel (dim x) = 1 -> height (dim x) = T ->
  b < B -> h < T ->
  getValue (store_into out (sum_axis3 x)) b 0 0 h
  = rsum (width (dim x)) (fun w => getValue x b 0 h w).
Proof.
  intros Ho Hb Hc Hh Hlb Hlh.
  assert (Hne : empty out = false).
  { unfold empty, getDataLen, getFeatureLen. rewrite Ho. simpl.
    apply Nat.eqb_neq. nia. }
  unfold getValue. rewrite dim_store_into_nonempty by exact Hne. rewrite Ho.
  assert (Hidx : getIndex (mkDim B 1 1 T) b 0 0 h
                 = getIndex (set_width (dim x) 1) b 0 h 0).
  { unfold getIndex. simpl. rewrite Hc, Hh. lia. }
  assert (Hlt : getIndex (set_width (dim x) 1) b 0 h 0 < getDataLen (set_width (dim x) 1)).
  { apply getIndex_lt; simpl; lia. }
  rewrite nth_store_into.
  - rewrite Hidx. unfold sum_axis3. rewrite nth_build by (simpl; lia). reflexivity.
  - rewrite Ho, Hidx.
    replace (getDataLen (mkDim B 1 1 T)) with (getDataLen (set_width (dim x) 1)); [exact Hlt|].
    unfold getDataLen, getFeatureLen. simpl. rewrite Hb, Hc, Hh. lia.
  - rewrite Hidx. unfold sum_axis3. rewrite length_build. exact Hlt.
Qed.


(** ** Forward pass: what is left in the context *)

Lemma realizes_zero_context (ictx : InitLayerContext) :
  realizes ictx (zero_context ictx).
Proof.
  assert (Hz : forall l : list TensorDim, map dim (map zeros l) = l).
  { intros l. rewrite map_map. simpl. apply map_id. }
  assert (Hw : forall l : list WeightSpec,
             map dim (map (fun s => zeros (w_dim s)) l) = map w_dim l).
  { intros l. rewrite map_map. reflexivity. }
  assert (Ht : forall l : list TensorSpec,
             map dim (map (fun s => zeros (t_dim s)) l) = map t_dim l).
  { intros l. rewrite map_map. reflexivity. }
  constructor; simpl; auto.
Qed.

Lemma store_into_empty (res : Tensor) : store_into empty_tensor res = res.
Proof. reflexivity. Qed.

Lemma getValue_softmax (x : Tensor) (b c h w : nat) :
  b < batch (dim x) -> c < channel (dim x) ->
  h < height (dim x) -> w < width (dim x) ->
  getValue (softmax_fn x) b c h w
  = (exp (getValue x b c h w)
     / rsum (width (dim x)) (fun j => exp (getValue x b c h j)))%R.
Proof. intros. unfold softmax_fn. now rewrite getValue_build. Qed.

Lemma forwarding_body_prob (props : MolProps) (name : string) (B T Q V U K : nat)
    (c : RunLayerContext) :
  realizes (finalized_context name (mkDim B 1 1 Q) (mkDim B 1 T V) (mkDim B 1 1 K) U K) c ->
  forall b h k, b < B -> h < T -> k < K ->
    let c' := forwarding_body (finalized_layer props) K c in
    getValue (getTensor c' 4) b 0 h k
    = sigmoid_fn ((INR (h + 1) + 5 / 10 - mol_center c b k) / (mol_scale c K b k + scale_eps))
    /\ getValue (getTensor c' 5) b 0 h k
    = sigmoid_fn ((INR (h + 1) - 5 / 10 - mol_center c b k) / (mol_scale c K b k + scale_eps))
    /\ getValue (getTensor c' 3) b 0 h k
       = (getValue (getTensor c' 4) b 0 h k - getValue (getTensor c' 5) b 0 h k)%R.
Proof.
  intros [Hi Ho Hw Hwg Ht Hinc Hout].
  destruct c as [ins outs ws wgs ts inc outg].
  simpl in Hi, Ho, Hw, Hwg, Ht, Hinc, Hout.
  explode_map Hi. explode_map Ho. explode_map Hw. explode_map Ht.
  known_dims.
  intros b h k Hb Hh Hk.
  unfold mol_center, mol_scale, shift_logit, scale_logit, packed_output.
  run_body.
  cbn [batch height dim].
  rewrite (store_into_id (add (dot _ _ false false) _) (apply tanh _))
    by (reflexivity || apply length_build).
  match goal with |- context [getSharedDataTensor ?p _ 0] => set (P := p) end.
  assert (HP : channel (dim P) = 1 /\ height (dim P) = 1) by (split; reflexivity).
  destruct HP as [HPc HPh].
  clearbody P.
  unfold subtract, divide, add, add_scalar.
  collapse_store.
  repeat tensor_step.
  change (0 + k) with k.
  repeat split; reflexivity.
Qed.

Lemma forwarding_body_scores (props : MolProps) (name : string) (B T Q V U K : nat)
    (c : RunLayerContext) :
  realizes (finalized_context name (mkDim B 1 1 Q) (mkDim B 1 T V) (mkDim B 1 1 K) U K) c ->
  forall b h, b < B -> h < T ->
    getValue (getTensor (forwarding_body (finalized_layer props) K c) 2) b 0 0 h
    = mol_score c K b (h + 1).
Proof.
  intros [Hi Ho Hw Hwg Ht Hinc Hout].
  destruct c as [ins outs ws wgs ts inc outg].
  simpl in Hi, Ho, Hw, Hwg, Ht, Hinc, Hout.
  explode_map Hi. explode_map Ho. explode_map Hw. explode_map Ht.
  known_dims.
  intros b h Hb Hh.
  unfold mol_score, mol_weight, mol_prob, mol_center, mol_scale,
    shift_logit, scale_logit, weight_logit, packed_output.
  run_body.
  cbn [batch height dim].
  rewrite (store_into_id (add (dot _ _ false false) _) (apply tanh _))
    by (reflexivity || apply length_build).
  match goal with |- context [getSharedDataTensor ?p _ 0] => set (P := p) end.
  assert (HP : channel (dim P) = 1 /\ height (dim P) = 1) by (split; reflexivity).
  destruct HP as [HPc HPh].
  clearbody P.
  unfold subtract, divide, add, add_scalar, multiply.
  collapse_store.
  rewrite (@getValue_store_row_of_sum _ _ B T) by (reflexivity || assumption).
  cbn [dim apply_broadcast build width].
  apply rsum_ext. intros k Hk.
  rewrite store_into_empty.
  repeat tensor_step.
  rewrite getValue_softmax by range_side.
  cbn [dim copy_with_stride build vdim getSharedDataTensor width].
  repeat tensor_step.
  replace (K * 2) with (2 * K) by lia.
  change (0 + k) with k.
  rewrite Rmult_comm. f_equal. f_equal.
  apply rsum_ext. intros j Hj. now repeat tensor_step.
Qed.

Lemma half_interval (t m s : R) :
  (0 < s)%R -> ((t - 5 / 10 - m) / s <= (t + 5 / 10 - m) / s)%R.
Proof.
  intros Hs. unfold Rdiv. apply Rmult_le_compat_r; [|lra].
  left. now apply Rinv_0_lt_compat.
Qed.

(** C1. After [finalize] on a fresh context and a forward pass on a
    context with the declared dimensions, the score of batch row [b] at
    timestep [t] (1 <= t <= T) is the sum over the mixture components of
    weight(k) * (sigmoid((t + 0.5 - center(k)) / (scale(k) + 1e-8))
                 - sigmoid((t - 0.5 - center(k)) / (scale(k) + 1e-8))),
    with center = location_state + exp(shift_logits),
    scale = exp(scale_logits) and weight = softmax(weight_logits). *)
Theorem forwarding_scores_formula
    (props : MolProps) (name : string) (B T Q V U K : nat)
    (l : MoLAttentionLayer) (ictx : InitLayerContext) (c : RunLayerContext) :
  Unit props = Some U -> MoL_K props = Some K ->
  finalize (new_layer props)
           (fresh_context name [mkDim B 1 1 Q; mkDim B 1 T V; mkDim B 1 1 K])
  = Ok (l, ictx) ->
  realizes ictx c ->
  exists l' c',
    forwarding l c = Ok (l', c')
    /\ forall b t, b < B -> 1 <= t <= T ->
         getValue (getTensor c' (wt_idx l' AttentionParams.scores)) b 0 0 (t - 1)
         = mol_score c K b t.
Proof.
  intros HU HK Hfin Hreal.
  rewrite (@finalize_fresh props name (mkDim B 1 1 Q) (mkDim B 1 T V) (mkDim B 1 1 K)
             U K HU HK) in Hfin.
  assert (Hl : l = finalized_layer props) by congruence.
  assert (Hc : ictx = finalized_context name (mkDim B 1 1 Q) (mkDim B 1 T V)
                        (mkDim B 1 1 K) U K) by congruence.
  subst l ictx. clear Hfin.
  rewrite (@forwarding_eq (finalized_layer props) c K HK).
  do 2 eexists. split; [reflexivity|].
  intros b t Hb Ht.
  change (wt_idx (with_helper_exec (finalized_layer props) false)
                 AttentionParams.scores) with 2.
  replace t with (t - 1 + 1) at 2 by lia.
  apply (forwarding_body_scores props Hreal); lia.
Qed.

Lemma forwarding_scores_formula_witness :
  exists l' c',
    forwarding (finalized_layer scenario_props)
               (zero_context (finalized_context "mol" (mkDim 1 1 1 2) (mkDim 1 1 4 1)
                                                (mkDim 1 1 1 1) 2 1))
    = Ok (l', c')
    /\ forall b t, b < 1 -> 1 <= t <= 4 ->
         getValue (getTensor c' (wt_idx l' AttentionParams.scores)) b 0 0 (t - 1)
         = mol_score (zero_context (finalized_context "mol" (mkDim 1 1 1 2)
                                      (mkDim 1 1 4 1) (mkDim 1 1 1 1) 2 1)) 1 b t.
Proof.
  apply (@forwarding_scores_formula scenario_props "mol" 1 4 2 1 2 1
           (finalized_layer scenario_props)
           (finalized_context "mol" (mkDim 1 1 1 2) (mkDim 1 1 4 1) (mkDim 1 1 1 1) 2 1)).
  - reflexivity.
  - reflexivity.
  - vm_compute. reflexivity.
  - apply realizes_zero_context.
Defined.



(** ** Writes through a view *)

Lemma length_set_nth (i : nat) (x : R) (l : list R) :
  length (set_nth i x l) = length l.
Proof.
  revert i. induction l as [|y l IH]; intros [|i]; simpl; auto.
Qed.

Lemma nth_set_nth_eq (i : nat) (x : R) (l : list R) :
  i < length l -> nth i (set_nth i x l) 0%R = x.
Proof.
  revert i. induction l as [|y l IH]; intros [|i] H; simpl in *; try lia; auto.
  apply IH. lia.
Qed.

Lemma nth_set_nth_neq (i j : nat) (x : R) (l : list R) :
  i <> j -> nth j (set_nth i x l) 0%R = nth j l 0%R.
Proof.
  revert i j. induction l as [|y l IH]; intros [|i] [|j] H; simpl; auto; try lia.
Qed.

Section FoldWrites.
Variable X : Type.
Variable f : list R -> X -> list R.
Variable pos : X -> nat.
Variable val : X -> R.
Hypothesis f_writes : forall l x, f l x = set_nth (pos x) (val x) l.

Lemma length_fold_writes (L : list X) (l0 : list R) :
  length (fold_left f L l0) = length l0.
Proof.
  revert l0. induction L as [|a L IH]; intros l0; simpl; [reflexivity|].
  now rewrite IH, f_writes, length_set_nth.
Qed.

Lemma nth_fold_writes_miss (L : list X) (l0 : list R) (p : nat) :
  (forall x, In x L -> pos x <> p) ->
  nth p (fold_left f L l0) 0%R = nth p l0 0%R.
Proof.
  revert l0. induction L as [|a L IH]; intros l0 H; simpl; [reflexivity|].
  rewrite IH by (intros x Hx; apply H; now right).
  rewrite f_writes. apply nth_set_nth_neq. apply H. now left.
Qed.

Lemma nth_fold_writes_hit (L : list X) (l0 : list R) (x : X) :
  In x L ->
  (forall y, In y L -> pos y = pos x -> y = x) ->
  pos x < length l0 ->
  nth (pos x) (fold_left f L l0) 0%R = val x.
Proof.
  induction L as [|a L IH] using rev_ind; intros Hin Hinj Hlt; [contradiction|].
  rewrite fold_left_app. simpl. rewrite f_writes.
  destruct (Nat.eq_dec (pos a) (pos x)) as [E|E].
  - assert (a = x) by (apply Hinj; [apply in_or_app; right; now left | exact E]).
    subst a. apply nth_set_nth_eq. now rewrite length_fold_writes.
  - rewrite nth_set_nth_neq by exact E.
    apply IH; [| |exact Hlt].
    + apply in_app_or in Hin. destruct Hin as [Hin|[Hin|[]]]; [exact Hin|].
      subst a. contradiction.
    + intros y Hy. apply Hinj. apply in_or_app. now left.
Qed.
End FoldWrites.

Lemma in_all_coords (d : TensorDim) (b c h w : nat) :
  In (b, c, h, w) (all_coords d)
  <-> b < batch d /\ c < channel d /\ h < height d /\ w < width d.
Proof.
  unfold all_coords. rewrite in_flat_map. split.
  - intros (b' & Hb & H). rewrite in_flat_map in H. destruct H as (c' & Hc & H).
    rewrite in_flat_map in H. destruct H as (h' & Hh & H).
    rewrite in_map_iff in H. destruct H as (w' & E & Hw).
    injection E as -> -> -> ->.
    rewrite in_seq in Hb, Hc, Hh, Hw. lia.
  - intros (Hb & Hc & Hh & Hw).
    exists b. split; [apply in_seq; lia|].
    rewrite in_flat_map. exists c. split; [apply in_seq; lia|].
    rewrite in_flat_map. exists h. split; [apply in_seq; lia|].
    rewrite in_map_iff. exists w. split; [reflexivity | apply in_seq; lia].
Qed.

Lemma row_col_unique (W b b' k k' : nat) :
  k < W -> k' < W -> b * W + k = b' * W + k' -> b = b' /\ k = k'.
Proof.
  intros Hk Hk' E.
  assert (Hb : b = b').
  { apply (f_equal (fun n => n / W)) in E.
    rewrite !Nat.div_add_l, !Nat.div_small in E by lia. lia. }
  subst b'. split; [reflexivity | lia].
Qed.

Section SegmentWrite.
Variables P from : Tensor.
Variables B W K off : nat.
Hypothesis HP : dim P = mkDim B 1 1 W.
Hypothesis HPlen : length (data P) = getDataLen (dim P).
Hypothesis Hfrom : dim from = mkDim B 1 1 K.
Hypothesis Hoff : off + K <= W.

Let v := getSharedDataTensor P (mkDim B 1 1 K) off.
Let wr := fun (l : list R) '(b, c, h, w) =>
  set_nth (view_index v b c h w) (getValue from b c h w) l.
Let wpos := fun '(b, c, h, w) => view_index v b c h w.
Let wval := fun '(b, c, h, w) => getValue from b c h w.

Lemma wr_writes (l : list R) (x : nat * nat * nat * nat) :
  wr l x = set_nth (wpos x) (wval x) l.
Proof. destruct x as [[[b c] h] w]. reflexivity. Qed.

Lemma dim_segment_write : dim (view_copy_with_stride v from) = mkDim B 1 1 W.
Proof.
  unfold view_copy_with_stride. destruct (dim_eqb (vdim v) (dim from)); exact HP.
Qed.

Lemma length_segment_write :
  length (data (view_copy_with_stride v from))
  = getDataLen (dim (view_copy_with_stride v from)).
Proof.
  rewrite dim_segment_write. unfold view_copy_with_stride.
  destruct (dim_eqb (vdim v) (dim from)); simpl.
  - change (length (fold_left wr (all_coords (vdim v)) (data P))
            = getDataLen (mkDim B 1 1 W)).
    rewrite (@length_fold_writes _ wr wpos wval wr_writes).
    now rewrite HPlen, HP.
  - now rewrite HPlen, HP.
Qed.

Lemma segment_eqb : dim_eqb (vdim v) (dim from) = true.
Proof.
  rewrite Hfrom. unfold dim_eqb. simpl. now rewrite !Nat.eqb_refl.
Qed.

Lemma getValue_segment_write_hit (b k : nat) :
  b < B -> k < K ->
  getValue (view_copy_with_stride v from) b 0 0 (off + k) = getValue from b 0 0 k.
Proof.
  intros Hb Hk. unfold getValue at 1. rewrite dim_segment_write.
  unfold view_copy_with_stride. rewrite segment_eqb. simpl data.
  assert (Hpos : getIndex (mkDim B 1 1 W) b 0 0 (off + k) = view_index v b 0 0 k).
  { unfold view_index, getIndex. simpl. rewrite HP. simpl. lia. }
  rewrite Hpos.
  apply (@nth_fold_writes_hit _ wr wpos wval wr_writes
           (all_coords (vdim v)) (data P) (b, 0, 0, k)).
  - apply in_all_coords. simpl. lia.
  - intros [[[b' c'] h'] w'] Hin E. apply in_all_coords in Hin. simpl in Hin.
    unfold wpos, view_index, getIndex, v in E. simpl in E. rewrite HP in E. simpl in E.
    assert (c' = 0) by lia. assert (h' = 0) by lia. subst c' h'.
    destruct (@row_col_unique W b' b w' k) as [-> ->]; [lia | lia | lia |].
    reflexivity.
  - rewrite HPlen, HP. unfold wpos, view_index, getIndex, getDataLen, getFeatureLen, v.
    simpl. rewrite HP. simpl. nia.
Qed.

Lemma getValue_segment_write_miss (b w : nat) :
  b < B -> w < W -> w < off \/ off + K <= w ->
  getValue (view_copy_with_stride v from) b 0 0 w = getValue P b 0 0 w.
Proof.
  intros Hb Hw Hout. unfold getValue. rewrite dim_segment_write, HP.
  unfold view_copy_with_stride. rewrite segment_eqb. simpl data.
  apply (@nth_fold_writes_miss _ wr wpos wval wr_writes).
  intros [[[b' c'] h'] w'] Hin E. apply in_all_coords in Hin. simpl in Hin.
  unfold wpos, view_index, getIndex, v in E. simpl in E. rewrite HP in E. simpl in E.
  assert (c' = 0) by lia. assert (h' = 0) by lia. subst c' h'.
  destruct (@row_col_unique W b' b (off + w') w) as [_ Hw']; lia.
Qed.
End SegmentWrite.

(** ** Backward pass: the shared computation *)

Lemma dim_putBatchSlice (t s : Tensor) (b : nat) : dim (putBatchSlice t b s) = dim t.
Proof. reflexivity. Qed.

Lemma dim_dotBatched (x m result : Tensor) (trans trans_m : bool) :
  dim (dotBatched x m result trans trans_m) = dim result.
Proof.
  unfold dotBatched.
  generalize (seq 0 (batch (dim x))). intros L. revert result.
  induction L as [|b L IH]; intros result; simpl; [reflexivity|].
  now rewrite IH.
Qed.

Lemma reshape_same_len (t : Tensor) (d : TensorDim) :
  getDataLen d = getDataLen (dim t) -> reshape t d = mkTensor d (data t).
Proof. intros H. unfold reshape. apply Nat.eqb_eq in H. now rewrite H. Qed.

Lemma rsum_pair_opp (n : nat) (f1 f2 g : nat -> R) :
  (forall t, t < n -> (f1 t + f2 t = - g t)%R) ->
  (rsum n f1 + rsum n f2 = - rsum n g)%R.
Proof.
  intros H. rewrite <- rsum_plus, <- rsum_opp. now apply rsum_ext.
Qed.

Ltac tensor_step2 :=
  first [ tensor_step
        | rewrite getValue_sum_axis2 by range_side ].


Section PackedWrites.
Variables P a0 a1 a2 : Tensor.
Variables B K : nat.
Hypothesis HP : dim P = mkDim B 1 1 (3 * K).
Hypothesis HPlen : length (data P) = getDataLen (dim P).
Hypothesis Ha0 : dim a0 = mkDim B 1 1 K.
Hypothesis Ha1 : dim a1 = mkDim B 1 1 K.
Hypothesis Ha2 : dim a2 = mkDim B 1 1 K.

Let seg := mkDim B 1 1 K.
Let P1 := view_copy_with_stride (getSharedDataTensor P seg 0) a0.
Let P2 := view_copy_with_stride (getSharedDataTensor P1 seg K) a1.
Let P3 := view_copy_with_stride (getSharedDataTensor P2 seg (K * 2)) a2.

Lemma packed_writes_P1 :
  dim P1 = mkDim B 1 1 (3 * K) /\ length (data P1) = getDataLen (dim P1).
Proof.
  split.
  - apply (@dim_segment_write P a0 B (3 * K) K 0); (assumption || lia).
  - apply (@length_segment_write P a0 B (3 * K) K 0); (assumption || lia).
Qed.

Lemma packed_writes_P2 :
  dim P2 = mkDim B 1 1 (3 * K) /\ length (data P2) = getDataLen (dim P2).
Proof.
  destruct packed_writes_P1 as [H1 H1l]. split.
  - apply (@dim_segment_write P1 a1 B (3 * K) K K); (assumption || lia).
  - apply (@length_segment_write P1 a1 B (3 * K) K K); (assumption || lia).
Qed.

Lemma packed_writes_dim :
  dim P3 = mkDim B 1 1 (3 * K) /\ length (data P3) = getDataLen (dim P3).
Proof.
  destruct packed_writes_P2 as [H2 H2l]. split.
  - apply (@dim_segment_write P2 a2 B (3 * K) K (K * 2)); (assumption || lia).
  - apply (@length_segment_write P2 a2 B (3 * K) K (K * 2)); (assumption || lia).
Qed.

Lemma packed_writes_values (b k : nat) :
  b < B -> k < K ->
  getValue P3 b 0 0 k = getValue a0 b 0 0 k
  /\ getValue P3 b 0 0 (K + k) = getValue a1 b 0 0 k
  /\ getValue P3 b 0 0 (2 * K + k) = getValue a2 b 0 0 k.
Proof.
  intros Hb Hk.
  destruct packed_writes_P1 as [H1 H1l]. destruct packed_writes_P2 as [H2 H2l].
  repeat split.
  - unfold P3.
    rewrite (@getValue_segment_write_miss P2 a2 B (3 * K) K (K * 2)) by (assumption || lia).
    unfold P2.
    rewrite (@getValue_segment_write_miss P1 a1 B (3 * K) K K) by (assumption || lia).
    unfold P1.
    apply (@getValue_segment_write_hit P a0 B (3 * K) K 0); (assumption || lia).
  - unfold P3.
    rewrite (@getValue_segment_write_miss P2 a2 B (3 * K) K (K * 2)) by (assumption || lia).
    unfold P2.
    apply (@getValue_segment_write_hit P1 a1 B (3 * K) K K); (assumption || lia).
  - unfold P3. replace (2 * K + k) with (K * 2 + k) by lia.
    apply (@getValue_segment_write_hit P2 a2 B (3 * K) K (K * 2)); (assumption || lia).
Qed.
End PackedWrites.


Lemma helper_dstate (props : MolProps) (B T Q V U K : nat) (c : RunLayerContext) :
  after_forward B T Q V U K c ->
  forall b k, b < B -> k < K ->
    getValue (getOutgoingDerivative
                (calcDerivativeHelper_body (finalized_layer props) K c 2) 2) b 0 0 k
    = d_center c K T b k.
Proof.
  intros [Hi Ht Hlen Hout].
  destruct c as [ins outs ws wgs ts inc outg].
  cbn [inputs tensors outgoing_derivatives] in Hi, Ht, Hout.
  explode_map Hi. explode_map Ht. explode_map Hout.
  known_dims.
  intros b k Hb Hk.
  unfold d_center, d_left_arg, d_right_arg, d_prob, d_score, d_score_tensor,
    safe_scale, cached_weight, cached_scale.
  run_body.
  cbn [batch height width dim].
  match goal with |- context [reshape ?x ?d] => 
    rewrite (@reshape_same_len x d)
      by (unfold dot_batched_deriv_wrt_1; rewrite dim_dotBatched; unfold getDataLen, getFeatureLen; simpl; lia);
    set (DS := mkTensor d (data x)) end.
  unfold add, multiply, divide, multiply_scalar, add_scalar, zeros.
  rewrite !store_into_empty.
  collapse_store.
  repeat tensor_step2.
  cbn [dim build apply apply_broadcast height].
  apply rsum_pair_opp. intros t Ht.
  repeat tensor_step2.
  replace (K * 2) with (2 * K) by lia.
  unfold Rdiv. ring.
Qed.


Lemma getValue_softmaxPrime (y d : Tensor) (b c h i : nat) :
  b < batch (dim y) -> c < channel (dim y) ->
  h < height (dim y) -> i < width (dim y) ->
  getValue (softmaxPrime y d) b c h i
  = rsum (width (dim y)) (fun j =>
      ((if i =? j
        then getValue y b c h i * (1 - getValue y b c h j)
        else - (getValue y b c h i * getValue y b c h j))
       * getValue d b c h j)%R).
Proof. intros. unfold softmaxPrime. now rewrite getValue_build. Qed.

Ltac name_scores_gradient :=
  match goal with
  | |- context [reshape ?x ?d] =>
      rewrite (@reshape_same_len x d)
        by (unfold dot_batched_deriv_wrt_1; rewrite dim_dotBatched;
            unfold getDataLen, getFeatureLen; simpl; lia);
      set (DS := mkTensor d (data x))
  end.

Lemma helper_results (props : MolProps) (B T Q V U K : nat) (c : RunLayerContext) :
  after_forward B T Q V U K c ->
  forall b k, b < B -> k < K ->
    let c' := calcDerivativeHelper_body (finalized_layer props) K c 2 in
    getValue (getOutgoingDerivative c' 2) b 0 0 k = d_center c K T b k
    /\ getValue (getTensor c' 1) b 0 0 k
       = (d_center c K T b k * cached_shift c b k)%R
    /\ getValue (getTensor c' 1) b 0 0 (K + k)
       = (d_safe_scale c K T b k * cached_scale c K b k)%R
    /\ getValue (getTensor c' 1) b 0 0 (2 * K + k) = d_weight_logit c K T b k.
Proof.
  intros [Hi Ht Hlen Hout].
  destruct c as [ins outs ws wgs ts inc outg].
  cbn [inputs tensors outgoing_derivatives] in Hi, Ht, Hout.
  explode_map Hi. explode_map Ht. explode_map Hout.
  known_dims.
  intros b k Hb Hk.
  unfold d_weight_logit, d_weight, d_center, d_safe_scale, d_left_arg, d_right_arg,
    left_arg, right_arg, d_prob, d_score, d_score_tensor,
    safe_scale, cached_weight, cached_scale, cached_shift.
  run_body.
  cbn [batch height width dim].
  cbv beta iota zeta delta [getTensor tensors nth data] in Hlen.
  name_scores_gradient.
  rewrite !store_into_empty.
  collapse_store.
  match goal with
  | |- context [view_copy_with_stride
                  (getSharedDataTensor
                     (view_copy_with_stride
                        (getSharedDataTensor
                           (view_copy_with_stride
                              (getSharedDataTensor ?P _ 0) ?a0) _ _) ?a1) _ _) ?a2] =>
      destruct (@packed_writes_values P a0 a1 a2 B K eq_refl
                  ltac:(cbn [data dim]; rewrite Hlen;
                        unfold getDataLen, getFeatureLen; simpl; lia)
                  eq_refl eq_refl eq_refl b k Hb Hk) as (E0 & E1 & E2)
  end.
  rewrite E0, E1, E2. clear E0 E1 E2.
  unfold add, multiply, divide, multiply_scalar, add_scalar, zeros.
  assert (Hcenter :
    forall f1 f2 g x, (forall t, t < T -> (f1 t + f2 t = - g t)%R) ->
      ((rsum T f1 + rsum T f2) * x = - rsum T g * x)%R).
  { intros f1 f2 g x H. now rewrite (rsum_pair_opp _ _ _ H). }
  repeat split.
  - repeat tensor_step2.
    cbn [dim build apply apply_broadcast height].
    apply rsum_pair_opp. intros t Ht.
    repeat tensor_step2.
    replace (K * 2) with (2 * K) by lia.
    unfold Rdiv. ring.
  - repeat tensor_step2.
    cbn [dim build apply apply_broadcast height].
    change (0 + k) with k.
    apply Hcenter. intros t Ht.
    repeat tensor_step2.
    replace (K * 2) with (2 * K) by lia.
    unfold Rdiv. ring.
  - repeat tensor_step2.
    cbn [dim build apply apply_broadcast height].
    apply Hcenter. intros t Ht.
    repeat tensor_step2.
    replace (K * 2) with (2 * K) by lia.
    unfold Rdiv. ring.
  - rewrite getValue_softmaxPrime by range_side.
    cbn [dim build copy_with_stride vdim getSharedDataTensor width].
    apply rsum_ext. intros j Hj.
    repeat tensor_step2.
    cbn [dim build apply apply_broadcast height].
    replace (K * 2) with (2 * K) by lia.
    f_equal.
    apply rsum_ext. intros t Ht.
    repeat tensor_step2. ring.
Qed.

(** ** The context the forward pass hands to the backward pass *)

Ltac open_realizes H :=
  let Hi := fresh "Hi" in let Ho := fresh "Ho" in let Hw := fresh "Hw" in
  let Hwg := fresh "Hwg" in let Ht := fresh "Ht" in
  let Hinc := fresh "Hinc" in let Hout := fresh "Hout" in
  destruct H as [Hi Ho Hw Hwg Ht Hinc Hout];
  match goal with c : RunLayerContext |- _ => destruct c as [?ins ?outs ?ws ?wgs ?ts ?inc ?outg] end;
  cbn [inputs outputs weights weight_grads tensors incoming_derivatives outgoing_derivatives
       finalized_context input_dim output_dim weights_spec tensors_spec map w_dim t_dim
       set_width dim2 dim1 batch channel height width] in Hi, Ho, Hw, Hwg, Ht, Hinc, Hout;
  explode_map Hi; explode_map Ho; explode_map Hw; explode_map Ht; explode_map Hout;
  known_dims.

Lemma forwarding_body_after_forward (props : MolProps) (name : string)
    (B T Q V U K : nat) (c : RunLayerContext) :
  realizes (finalized_context name (mkDim B 1 1 Q) (mkDim B 1 T V) (mkDim B 1 1 K) U K) c ->
  0 < B -> 0 < T ->
  after_forward B T Q V U K (forwarding_body (finalized_layer props) K c).
Proof.
  intros Hreal HB HT.
  open_realizes Hreal.
  run_body.
  cbn [batch height dim].
  rewrite (store_into_id (add (dot _ _ false false) _) (apply tanh _))
    by (reflexivity || apply length_build).
  match goal with |- context [getSharedDataTensor ?p _ 0] => set (P := p) end.
  assert (HP : dim P = mkDim B 1 1 (3 * K)) by reflexivity.
  assert (HPl : length (data P) = getDataLen (dim P)) by apply length_build.
  clearbody P.
  rewrite !store_into_empty.
  collapse_store.
  match goal with
  | |- context [view_copy_with_stride
                  (getSharedDataTensor
                     (view_copy_with_stride
                        (getSharedDataTensor
                           (view_copy_with_stride
                              (getSharedDataTensor P _ 0) ?a0) _ _) ?a1) _ _) ?a2] =>
      destruct (@packed_writes_dim P a0 a1 a2 B K HP HPl)
        as [HP3 HP3l]
  end.
  constructor.
  - reflexivity.
  - cbn [tensors map]. rewrite HP3.
    rewrite dim_store_into_nonempty
      by (unfold empty, getDataLen, getFeatureLen; simpl; apply Nat.eqb_neq; nia).
    reflexivity.
  - cbv beta iota zeta delta [getTensor tensors nth].
    rewrite HP3l, HP3. unfold getDataLen, getFeatureLen. simpl. lia.
  - reflexivity.
Qed.

Lemma forwarding_body_packed (props : MolProps) (name : string)
    (B T Q V U K : nat) (c : RunLayerContext) :
  realizes (finalized_context name (mkDim B 1 1 Q) (mkDim B 1 T V) (mkDim B 1 1 K) U K) c ->
  forall b k, b < B -> k < K ->
    let c' := forwarding_body (finalized_layer props) K c in
    cached_shift c' b k = exp (shift_logit c b k)
    /\ cached_scale c' K b k = mol_scale c K b k
    /\ cached_weight c' K b k = mol_weight c K b k.
Proof.
  intros Hreal b k Hb Hk.
  open_realizes Hreal.
  unfold cached_shift, cached_scale, cached_weight, mol_scale, mol_weight,
    shift_logit, scale_logit, weight_logit, packed_output.
  run_body.
  cbn [batch height dim].
  rewrite (store_into_id (add (dot _ _ false false) _) (apply tanh _))
    by (reflexivity || apply length_build).
  match goal with |- context [getSharedDataTensor ?p _ 0] => set (P := p) end.
  assert (HP : dim P = mkDim B 1 1 (3 * K)) by reflexivity.
  assert (HPl : length (data P) = getDataLen (dim P)) by apply length_build.
  assert (HPc : channel (dim P) = 1 /\ height (dim P) = 1) by (split; reflexivity).
  destruct HPc as [HPc HPh].
  clearbody P.
  rewrite !store_into_empty.
  match goal with
  | |- context [view_copy_with_stride
                  (getSharedDataTensor
                     (view_copy_with_stride
                        (getSharedDataTensor
                           (view_copy_with_stride
                              (getSharedDataTensor P _ 0) ?a0) _ _) ?a1) _ _) ?a2] =>
      destruct (@packed_writes_values P a0 a1 a2 B K HP HPl eq_refl eq_refl eq_refl
                  b k Hb Hk) as (E0 & E1 & E2)
  end.
  rewrite E0, E1, E2. clear E0 E1 E2.
  repeat split.
  - repeat tensor_step. reflexivity.
  - repeat tensor_step. reflexivity.
  - rewrite getValue_softmax by range_side.
    cbn [dim copy_with_stride build vdim getSharedDataTensor width].
    repeat tensor_step.
    replace (K * 2) with (2 * K) by lia.
    f_equal. apply rsum_ext. intros j Hj. now repeat tensor_step.
Qed.


(** ** The shared computation runs once per step *)

Lemma length_eq_cons_inv (A : Type) (l : list A) (n : nat) :
  length l = S n -> exists x l', l = x :: l' /\ length l' = n.
Proof.
  destruct l as [|x l']; simpl; [discriminate|].
  intros H. injection H as H. now exists x, l'.
Qed.

Ltac explode_length H :=
  repeat
    match type of H with
    | length ?l = S _ =>
        let x := fresh "t" in
        let l' := fresh "l" in
        apply length_eq_cons_inv in H;
        destruct H as (x & l' & -> & H)
    | length ?l = 0 => apply length_zero_iff_nil in H; subst l
    end.

Lemma helper_after_first (props : MolProps) (K : nat) (c : RunLayerContext) :
  length (tensors c) = 8 -> length (outgoing_derivatives c) = 3 ->
  let l := finalized_layer props in
  getOutgoingDerivative (calcDerivativeHelper_body l K (calcDerivative_first l c) 2) 2
  = getOutgoingDerivative (calcDerivativeHelper_body l K c 2) 2
  /\ getTensor (calcDerivativeHelper_body l K (calcDerivative_first l c) 2) 1
     = getTensor (calcDerivativeHelper_body l K c 2) 1.
Proof.
  intros Ht Ho.
  destruct c as [ins outs ws wgs ts inc outg].
  cbn [tensors outgoing_derivatives] in Ht, Ho.
  explode_length Ht. explode_length Ho.
  cbv zeta.
  run_body.
  unfold dot_batched_deriv_wrt_1.
  rewrite !dim_dotBatched.
  split; reflexivity.
Qed.

Lemma nth_upd_neq (i j : nat) (x : Tensor) (l : list Tensor) (d : Tensor) :
  i <> j -> nth j (upd i x l) d = nth j l d.
Proof.
  revert i j. induction l as [|y l IH]; intros [|i] [|j] H; simpl; auto; try lia.
Qed.

Lemma length_upd (i : nat) (x : Tensor) (l : list Tensor) :
  length (upd i x l) = length l.
Proof. revert i. induction l as [|y l IH]; intros [|i]; simpl; auto. Qed.

Lemma calcDerivative_first_frame (l : MoLAttentionLayer) (c : RunLayerContext) :
  outgoing_derivatives (calcDerivative_first l c) = outgoing_derivatives c
  /\ length (tensors (calcDerivative_first l c)) = length (tensors c)
  /\ forall i, i <> wt_idx l AttentionParams.scores ->
       getTensor (calcDerivative_first l c) i = getTensor c i.
Proof.
  unfold calcDerivative_first. cbv zeta. repeat split.
  - cbn [setTensor tensors]. apply length_upd.
  - intros i Hi. unfold getTensor. cbn [setTensor tensors].
    apply nth_upd_neq. congruence.
Qed.

Lemma calcDerivative_rest_frame (l : MoLAttentionLayer) (c : RunLayerContext) :
  tensors (calcDerivative_rest l c) = tensors c
  /\ length (outgoing_derivatives (calcDerivative_rest l c))
     = length (outgoing_derivatives c)
  /\ forall i, i <> wt_idx l AttentionParams.query ->
       getOutgoingDerivative (calcDerivative_rest l c) i = getOutgoingDerivative c i.
Proof.
  unfold calcDerivative_rest. cbv zeta. repeat split.
  - cbn [setOutgoingDerivative outgoing_derivatives]. apply length_upd.
  - intros i Hi. unfold getOutgoingDerivative at 1.
    cbn [setOutgoingDerivative outgoing_derivatives].
    apply nth_upd_neq. congruence.
Qed.

Lemma calcGradient_rest_frame (l : MoLAttentionLayer) (c : RunLayerContext) :
  tensors (calcGradient_rest l c) = tensors c
  /\ outgoing_derivatives (calcGradient_rest l c) = outgoing_derivatives c.
Proof. unfold calcGradient_rest. cbv zeta. split; reflexivity. Qed.

Lemma forwarding_body_lengths (props : MolProps) (name : string) (q v s : TensorDim)
    (U K : nat) (c : RunLayerContext) :
  realizes (finalized_context name q v s U K) c ->
  length (tensors (forwarding_body (finalized_layer props) K c)) = 8
  /\ length (outgoing_derivatives (forwarding_body (finalized_layer props) K c)) = 3.
Proof.
  intros [Hi Ho Hw Hwg Ht Hinc Hout].
  destruct c as [ins outs ws wgs ts inc outg].
  cbn [inputs outputs weights weight_grads tensors incoming_derivatives
       outgoing_derivatives finalized_context input_dim output_dim weights_spec
       tensors_spec map] in Ht, Hout.
  explode_map Ht. explode_map Hout.
  run_body.
  split; reflexivity.
Qed.



(** ** The gradients the shared computation writes *)

Lemma after_forward_lengths (B T Q V U K : nat) (c : RunLayerContext) :
  after_forward B T Q V U K c ->
  length (tensors c) = 8 /\ length (outgoing_derivatives c) = 3.
Proof.
  intros [_ Ht _ Ho]. split.
  - apply (f_equal (@length _)) in Ht. now rewrite length_map in Ht.
  - apply (f_equal (@length _)) in Ho. now rewrite length_map in Ho.
Qed.



(** ** The concrete backward step, evaluated *)

Lemma nth_zeros (d : TensorDim) (i : nat) : nth i (data (zeros d)) 0%R = 0%R.
Proof.
  unfold zeros, build. simpl.
  destruct (nth_in_or_default i
              (map (fun _ : nat => 0%R) (seq 0 (getDataLen d))) 0%R) as [H|H];
    [|exact H].
  apply in_map_iff in H. destruct H as (x & Hx & _). now rewrite <- Hx.
Qed.

Lemma rsum_zero (n : nat) (f : nat -> R) :
  (forall i, i < n -> f i = 0%R) -> rsum n f = 0%R.
Proof.
  induction n as [|n IH]; intros H; simpl; [reflexivity|].
  rewrite IH by (intros; apply H; lia). rewrite H by lia. lra.
Qed.

Lemma getValue_dot_zeros (x : Tensor) (d : TensorDim) (b c h w : nat) :
  b < batch (dim x) -> c < channel (dim x) -> h < height (dim x) -> w < width d ->
  getValue (dot x (zeros d) false false) b c h w = 0%R.
Proof.
  intros Hb Hc Hh Hw. unfold dot.
  rewrite getValue_build by (simpl; assumption).
  unfold dot_value. apply rsum_zero. intros k Hk.
  unfold mat_get at 2. rewrite nth_zeros. lra.
Qed.

Lemma gradient_scenario_realizes :
  realizes (finalized_context "mol" unit_dim unit_dim unit_dim 1 1) gradient_scenario.
Proof. constructor; reflexivity. Qed.

Lemma gradient_scenario_logits (j : nat) :
  j < 3 -> getValue (packed_output gradient_scenario) 0 0 0 j = 0%R.
Proof.
  intros Hj. unfold packed_output.
  change (getWeight gradient_scenario 2) with (zeros (dim2 1 3)).
  apply getValue_dot_zeros; simpl; lia.
Qed.

Lemma gradient_scenario_d_score :
  d_score (forwarding_body (finalized_layer gradient_scenario_props) 1 gradient_scenario) 0 0
  = 1%R.
Proof.
  pose proof (forwarding_body_after_forward gradient_scenario_props
                gradient_scenario_realizes Nat.lt_0_1 Nat.lt_0_1) as [_ Ht _ _].
  unfold d_score, d_score_tensor.
  set (c1 := forwarding_body (finalized_layer gradient_scenario_props) 1 gradient_scenario) in *.
  assert (Hs : dim (getTensor c1 2) = mkDim 1 1 1 1).
  { unfold getTensor. 
    change (dim (nth 2 (tensors c1) empty_tensor)) with (nth 2 (map dim (tensors c1)) (dim empty_tensor)).
    rewrite Ht. reflexivity. }
  unfold Tensor_batch, Tensor_width, Tensor_height. rewrite Hs.
  change (getInput c1 1) with (mkTensor unit_dim [1%R]).
  change (getIncomingDerivative c1 0) with (mkTensor unit_dim [1%R]).
  cbv - [Rplus Rmult Rdiv Rinv Rminus Ropp IZR].
  lra.
Qed.

Lemma sigmoid_zero : sigmoid_fn 0 = (1 / 2)%R.
Proof. unfold sigmoid_fn. rewrite Ropp_0, exp_0. lra. Qed.

Lemma sigmoid_neg_lt_half (x : R) : (x < 0)%R -> (sigmoid_fn x < 1 / 2)%R.
Proof.
  intros Hx. unfold sigmoid_fn.
  assert (H1 : (1 < exp (- x))%R).
  { rewrite <- exp_0. apply exp_increasing. lra. }
  apply (Rmult_lt_reg_r (1 + exp (- x))); [lra|].
  unfold Rdiv. rewrite Rmult_assoc, Rinv_l by lra. lra.
Qed.



(** ** The theorems at concrete inputs *)




(** * Further properties of the code *)

(** ** Setup *)

Lemma nth_error_app_at (A : Type) (l r : list A) (i n : nat) :
  n = length l + i -> nth_error (l ++ r) n = nth_error r i.
Proof.
  intros ->. rewrite nth_error_app2 by lia. f_equal. lia.
Qed.

(** Look up a request that was appended [i] places after the earlier ones. *)
Ltac appended_request :=
  repeat match goal with
         | |- context [nth_error (?l ++ ?r) ?n] =>
             let side := (rewrite ?length_app, ?length_map; cbn [length]; lia) in
             first [ rewrite (@nth_error_app_at _ l r 0 n) by side
                   | rewrite (@nth_error_app_at _ l r 1 n) by side
                   | rewrite (@nth_error_app_at _ l r 2 n) by side
                   | rewrite (@nth_error_app_at _ l r 3 n) by side
                   | rewrite (@nth_error_app_at _ l r 4 n) by side
                   | rewrite (@nth_error_app_at _ l r 5 n) by side
                   | rewrite (@nth_error_app_at _ l r 6 n) by side
                   | rewrite (@nth_error_app_at _ l r 7 n) by side ]
         end.

(** [finalize] fixes the slots of the three inputs, whatever the layer
    object held before. *)
Lemma finalize_input_slots (l0 l : MoLAttentionLayer) (ictx0 ictx : InitLayerContext) :
  finalize l0 ictx0 = Ok (l, ictx) ->
  wt_idx l AttentionParams.query = 0
  /\ wt_idx l AttentionParams.value = 1
  /\ wt_idx l AttentionParams.state = 2.
Proof.
  intros H.
  destruct ictx0 as [ins name ws ts od].
  destruct l0 as [he ix a1 a2 a3 [pu pk] hr].
  unfold finalize in H. cbn [getNumInputs input_dim] in H.
  destruct ins as [|q [|v [|s [|x ins]]]]; try discriminate H.
  cbn in H.
  destruct pu as [U|]; [|discriminate H].
  destruct pk as [K|]; [|discriminate H].
  cbn in H.
  assert (Hl : l = fst (l, ictx)) by reflexivity.
  assert (HOk : forall (A : Type) (x y : A), Ok x = Ok y -> x = y)
    by (intros A x y E; congruence).
  apply HOk in H. rewrite <- H in Hl. cbn [fst] in Hl.
  subst l. repeat split.
Qed.

(** X1: whatever was requested from the setup context before, [finalize]
    appends three trainable weights and eight scratch tensors to the
    requests, declares one output with the dimension of the query, and
    stores for every weight and scratch tensor it requested the index that
    leads back to the request of that name; the three inputs get the indices
    0, 1 and 2. *)
Theorem finalize_requests (l0 l : MoLAttentionLayer) (ictx0 ictx : InitLayerContext) :
  finalize l0 ictx0 = Ok (l, ictx) ->
  exists q v s U K,
    input_dim ictx0 = [q; v; s]
    /\ Unit (mol_props l0) = Some U /\ MoL_K (mol_props l0) = Some K
    /\ weights_spec ictx
       = weights_spec ictx0
         ++ [mkWeightSpec (mkDim 1 1 (width q) U) "fc_w" true;
             mkWeightSpec (mkDim 1 1 1 U) "fc_bias" true;
             mkWeightSpec (mkDim 1 1 U (3 * K)) "fc_proj_w" true]
    /\ tensors_spec ictx
       = tensors_spec ictx0
         ++ [mkTensorSpec (set_width q U) "fc_out" false ITERATION_LIFESPAN;
             mkTensorSpec (set_width q U) "fc_proj_out" false ITERATION_LIFESPAN;
             mkTensorSpec (mkDim (batch v) 1 1 (height v)) "scores" false
                          ITERATION_LIFESPAN;
             mkTensorSpec (set_width v K) "prob" false ITERATION_LIFESPAN;
             mkTensorSpec (set_width v K) "prob_left" false ITERATION_LIFESPAN;
             mkTensorSpec (set_width v K) "prob_right" false ITERATION_LIFESPAN;
             mkTensorSpec (set_width v K) "u_neg_div" false ITERATION_LIFESPAN;
             mkTensorSpec (set_width v K) "u_pos_div" false ITERATION_LIFESPAN]
    /\ output_dim ictx = [q]
    /\ input_dim ictx = input_dim ictx0
    /\ map (wt_idx l) [AttentionParams.query; AttentionParams.value; AttentionParams.state]
       = [0; 1; 2]
    /\ map (fun p => nth_error (map w_name (weights_spec ictx)) (wt_idx l p))
           [AttentionParams.fc_w; AttentionParams.fc_bias; AttentionParams.fc_proj_w]
       = [Some "fc_w"; Some "fc_bias"; Some "fc_proj_w"]%string
    /\ map (fun p => nth_error (map t_name (tensors_spec ictx)) (wt_idx l p))
           [AttentionParams.fc_out; AttentionParams.fc_proj_out; AttentionParams.scores;
            AttentionParams.prob; AttentionParams.prob_left; AttentionParams.prob_right;
            AttentionParams.u_neg_div; AttentionParams.u_pos_div]
       = [Some "fc_out"; Some "fc_proj_out"; Some "scores"; Some "prob";
          Some "prob_left"; Some "prob_right"; Some "u_neg_div"; Some "u_pos_div"]%string.
Proof.
  intros H.
  destruct ictx0 as [ins name ws ts od].
  destruct l0 as [he ix a1 a2 a3 [pu pk] hr].
  unfold finalize in H. cbn [getNumInputs input_dim] in H.
  destruct ins as [|q [|v [|s [|x ins]]]]; try discriminate H.
  cbn in H.
  destruct pu as [U|]; [|discriminate H].
  destruct pk as [K|]; [|discriminate H].
  cbn in H.
  exists q, v, s, U, K.
  assert (Hl : l = fst (l, ictx)) by reflexivity.
  assert (Hc : ictx = snd (l, ictx)) by reflexivity.
  assert (HOk : forall (A : Type) (x y : A), Ok x = Ok y -> x = y)
    by (intros A x y E; congruence).
  apply HOk in H. rewrite <- H in Hl, Hc. cbn [fst snd] in Hl, Hc.
  subst l ictx. clear H HOk.
  cbn [input_dim mol_props Unit MoL_K weights_spec tensors_spec output_dim wt_idx].
  rewrite <- !app_assoc. cbn [app].
  repeat (split; [reflexivity|]).
  split; cbn; rewrite map_app; cbn [map w_name t_name]; appended_request; reflexivity.
Qed.

Lemma finalize_requests_witness :
  exists q v s U K,
    input_dim scenario_init = [q; v; s]
    /\ Unit scenario_props = Some U /\ MoL_K scenario_props = Some K.
Proof.
  destruct (@finalize_requests (new_layer scenario_props)
              (finalized_layer scenario_props) scenario_init
              (finalized_context "mol" (mkDim 1 1 1 2) (mkDim 1 1 4 1) (mkDim 1 1 1 1) 2 1))
    as (q & v & s & U & K & H1 & H2 & H3 & _).
  - vm_compute. reflexivity.
  - exists q, v, s, U, K. split; [exact H1|]. split; [exact H2 | exact H3].
Defined.

(** ** The projections of the forward pass *)

Lemma mat_get_row (x : Tensor) (B W i k : nat) :
  dim x = mkDim B 1 1 W -> mat_get x false i k = getValue x i 0 0 k.
Proof.
  intros H. unfold mat_get, getValue, getIndex. rewrite H. simpl.
  f_equal. lia.
Qed.

Lemma mat_get_row_trans (x : Tensor) (B W i k : nat) :
  dim x = mkDim B 1 1 W -> mat_get x true i k = getValue x k 0 0 i.
Proof.
  intros H. unfold mat_get, getValue, getIndex. rewrite H. simpl.
  f_equal. lia.
Qed.

Lemma mat_get_weight (m : Tensor) (H W k j : nat) :
  dim m = mkDim 1 1 H W -> mat_get m false k j = getValue m 0 0 k j.
Proof.
  intros E. unfold mat_get, getValue, getIndex. rewrite E. simpl.
  f_equal.
Qed.

Lemma mat_get_weight_trans (m : Tensor) (H W k j : nat) :
  dim m = mkDim 1 1 H W -> mat_get m true k j = getValue m 0 0 j k.
Proof.
  intros E. unfold mat_get, getValue, getIndex. rewrite E. simpl.
  f_equal.
Qed.

(** rows . weight *)
Lemma getValue_dot_rows (x m : Tensor) (B Q N b j : nat) :
  dim x = mkDim B 1 1 Q -> dim m = mkDim 1 1 Q N -> b < B -> j < N ->
  getValue (dot x m false false) b 0 0 j
  = rsum Q (fun k => getValue x b 0 0 k * getValue m 0 0 k j)%R.
Proof.
  intros Hx Hm Hb Hj. unfold dot, dot_dim.
  rewrite getValue_build by (rewrite Hx, Hm; simpl; lia).
  assert (Hr : rows (dim m) = Q) by (unfold rows; rewrite Hm; simpl; lia).
  assert (Hi : row_of (set_width (dim x) (width (dim m))) b 0 0 = b)
    by (unfold row_of; rewrite Hx; simpl; lia).
  unfold dot_value. cbv beta iota zeta. rewrite Hr, Hi.
  apply rsum_ext. intros k Hk.
  now rewrite (@mat_get_row _ _ _ _ _ Hx), (@mat_get_weight _ _ _ _ _ Hm).
Qed.

Lemma getValue_bcast_bias (m : Tensor) (U b u : nat) :
  dim m = mkDim 1 1 1 U -> u < U ->
  getValue_bcast m b 0 0 u = getValue m 0 0 0 u.
Proof.
  intros H Hu. unfold getValue_bcast. rewrite H. simpl.
  now rewrite (bcast_lt Hu).
Qed.

Lemma forwarding_body_hidden (props : MolProps) (name : string)
    (B T Q V U K : nat) (c : RunLayerContext) :
  realizes (finalized_context name (mkDim B 1 1 Q) (mkDim B 1 T V) (mkDim B 1 1 K) U K) c ->
  forall b u, b < B -> u < U ->
    getValue (getTensor (forwarding_body (finalized_layer props) K c) 0) b 0 0 u
    = mol_hidden c Q b u.
Proof.
  intros Hreal b u Hb Hu.
  open_realizes Hreal.
  unfold mol_hidden.
  run_body.
  rewrite (store_into_id (add (dot _ _ false false) _) (apply tanh _))
    by (reflexivity || apply length_build).
  unfold add.
  repeat tensor_step.
  rewrite (@getValue_dot_rows _ _ B Q U) by (reflexivity || assumption).
  rewrite (@getValue_bcast_bias _ U) by (reflexivity || assumption).
  reflexivity.
Qed.

Lemma packed_output_elementwise (name : string)
    (B T Q V U K : nat) (c : RunLayerContext) :
  realizes (finalized_context name (mkDim B 1 1 Q) (mkDim B 1 T V) (mkDim B 1 1 K) U K) c ->
  forall b j, b < B -> j < 3 * K ->
    getValue (packed_output c) b 0 0 j = mol_packed c Q U b j.
Proof.
  intros Hreal b j Hb Hj.
  open_realizes Hreal.
  unfold mol_packed, mol_hidden, packed_output.
  cbv beta iota zeta delta [getInput getWeight inputs weights nth].
  rewrite (@getValue_dot_rows _ _ B U (3 * K)) by (reflexivity || assumption).
  apply rsum_ext. intros u Hu.
  f_equal. unfold add.
  repeat tensor_step.
  rewrite (@getValue_dot_rows _ _ B Q U) by (reflexivity || assumption).
  rewrite (@getValue_bcast_bias _ U) by (reflexivity || assumption).
  reflexivity.
Qed.

(** From setup to the end of a forward pass. *)
Lemma finalize_then_forwarding
    (props : MolProps) (name : string) (q v s : TensorDim) (U K : nat)
    (l : MoLAttentionLayer) (ictx : InitLayerContext) (c : RunLayerContext) :
  Unit props = Some U -> MoL_K props = Some K ->
  finalize (new_layer props) (fresh_context name [q; v; s]) = Ok (l, ictx) ->
  l = finalized_layer props
  /\ ictx = finalized_context name q v s U K
  /\ forwarding l c
     = Ok (finalized_layer props, forwarding_body (finalized_layer props) K c).
Proof.
  intros HU HK Hfin.
  rewrite (@finalize_fresh props name q v s U K HU HK) in Hfin.
  assert (Hl : l = finalized_layer props) by congruence.
  assert (Hc : ictx = finalized_context name q v s U K) by congruence.
  subst l ictx. split; [reflexivity|]. split; [reflexivity|].
  now rewrite (@forwarding_eq (finalized_layer props) c K HK).
Qed.

(** X2: after setup and a forward pass, the slot that the layer reads
    as [fc_tanh] is the very slot of [fc_out], and it holds the hidden
    activation [tanh (query . fc_w + fc_bias)]. *)
Theorem forwarding_hidden_projection
    (props : MolProps) (name : string) (B T Q V U K : nat)
    (l : MoLAttentionLayer) (ictx : InitLayerContext) (c : RunLayerContext) :
  Unit props = Some U -> MoL_K props = Some K ->
  finalize (new_layer props)
           (fresh_context name [mkDim B 1 1 Q; mkDim B 1 T V; mkDim B 1 1 K])
  = Ok (l, ictx) ->
  realizes ictx c ->
  exists l' c',
    forwarding l c = Ok (l', c')
    /\ wt_idx l' AttentionParams.fc_tanh = wt_idx l' AttentionParams.fc_out
    /\ forall b u, b < B -> u < U ->
         getValue (getTensor c' (wt_idx l' AttentionParams.fc_out)) b 0 0 u
         = mol_hidden c Q b u.
Proof.
  intros HU HK Hfin Hreal.
  destruct (@finalize_then_forwarding props name _ _ _ U K l ictx c HU HK Hfin)
    as (-> & -> & Hf).
  do 2 eexists. split; [exact Hf|]. split; [reflexivity|].
  intros b u Hb Hu.
  exact (forwarding_body_hidden props Hreal Hb Hu).
Qed.

Lemma forwarding_hidden_projection_witness :
  exists l' c',
    forwarding (finalized_layer scenario_props)
               (zero_context (finalized_context "mol" (mkDim 1 1 1 2) (mkDim 1 1 4 1)
                                                (mkDim 1 1 1 1) 2 1))
    = Ok (l', c')
    /\ wt_idx l' AttentionParams.fc_tanh = wt_idx l' AttentionParams.fc_out
    /\ forall b u, b < 1 -> u < 2 ->
         getValue (getTensor c' (wt_idx l' AttentionParams.fc_out)) b 0 0 u
         = mol_hidden (zero_context (finalized_context "mol" (mkDim 1 1 1 2)
                                       (mkDim 1 1 4 1) (mkDim 1 1 1 1) 2 1)) 2 b u.
Proof.
  apply (@forwarding_hidden_projection scenario_props "mol" 1 4 2 1 2 1
           (finalized_layer scenario_props)
           (finalized_context "mol" (mkDim 1 1 1 2) (mkDim 1 1 4 1) (mkDim 1 1 1 1) 2 1)).
  - reflexivity.
  - reflexivity.
  - vm_compute. reflexivity.
  - apply realizes_zero_context.
Defined.

Lemma forwarding_body_packed_projection (props : MolProps) (name : string)
    (B T Q V U K : nat) (c : RunLayerContext) :
  realizes (finalized_context name (mkDim B 1 1 Q) (mkDim B 1 T V) (mkDim B 1 1 K) U K) c ->
  forall b k, b < B -> k < K ->
    cached_shift (forwarding_body (finalized_layer props) K c) b k
    = exp (mol_packed c Q U b k)
    /\ cached_scale (forwarding_body (finalized_layer props) K c) K b k
       = exp (mol_packed c Q U b (K + k))
    /\ cached_weight (forwarding_body (finalized_layer props) K c) K b k
       = (exp (mol_packed c Q U b (2 * K + k))
          / rsum K (fun j => exp (mol_packed c Q U b (2 * K + j))))%R.
Proof.
  intros Hreal b k Hb Hk.
  destruct (forwarding_body_packed props Hreal Hb Hk) as (H0 & H1 & H2).
  split; [|split].
  - rewrite H0. unfold shift_logit.
    now rewrite (packed_output_elementwise Hreal) by lia.
  - rewrite H1. unfold mol_scale, scale_logit.
    now rewrite (packed_output_elementwise Hreal) by lia.
  - rewrite H2. unfold mol_weight, weight_logit.
    rewrite (packed_output_elementwise Hreal) by lia.
    unfold Rdiv. f_equal. f_equal. apply rsum_ext. intros j Hj. f_equal.
    now rewrite (packed_output_elementwise Hreal) by lia.
Qed.

Lemma cached_values_read_slot_1 (c : RunLayerContext) (K b k : nat) :
  cached_shift c b k = getValue (getTensor c 1) b 0 0 k
  /\ cached_scale c K b k = getValue (getTensor c 1) b 0 0 (K + k)
  /\ cached_weight c K b k = getValue (getTensor c 1) b 0 0 (2 * K + k).
Proof. repeat split. Qed.

Lemma finalized_fc_proj_out_slot (props : MolProps) :
  wt_idx (finalized_layer props) AttentionParams.fc_proj_out = 1.
Proof. reflexivity. Qed.

(** X3: a forward pass leaves in the packed buffer, segment by segment,
    the exponential of the first two thirds of [hidden . fc_proj_w] and the
    softmax of the last third. *)
Theorem forwarding_writes_back_mixture_parameters
    (props : MolProps) (name : string) (B T Q V U K : nat)
    (l : MoLAttentionLayer) (ictx : InitLayerContext) (c : RunLayerContext) :
  Unit props = Some U -> MoL_K props = Some K ->
  finalize (new_layer props)
           (fresh_context name [mkDim B 1 1 Q; mkDim B 1 T V; mkDim B 1 1 K])
  = Ok (l, ictx) ->
  realizes ictx c ->
  exists l' c',
    forwarding l c = Ok (l', c')
    /\ forall b k, b < B -> k < K ->
         getValue (getTensor c' (wt_idx l' AttentionParams.fc_proj_out)) b 0 0 k
         = exp (mol_packed c Q U b k)
         /\ getValue (getTensor c' (wt_idx l' AttentionParams.fc_proj_out)) b 0 0 (K + k)
            = exp (mol_packed c Q U b (K + k))
         /\ getValue (getTensor c' (wt_idx l' AttentionParams.fc_proj_out)) b 0 0 (2 * K + k)
            = (exp (mol_packed c Q U b (2 * K + k))
               / rsum K (fun j => exp (mol_packed c Q U b (2 * K + j))))%R.
Proof.
  intros HU HK Hfin Hreal.
  destruct (@finalize_then_forwarding props name _ _ _ U K l ictx c HU HK Hfin)
    as (-> & -> & Hf).
  do 2 eexists. split; [exact Hf|].
  intros b k Hb Hk.
  rewrite finalized_fc_proj_out_slot.
  destruct (forwarding_body_packed_projection props Hreal Hb Hk) as (H0 & H1 & H2).
  destruct (cached_values_read_slot_1 (forwarding_body (finalized_layer props) K c) K b k)
    as (E0 & E1 & E2).
  rewrite <- E0, <- E1, <- E2.
  split; [exact H0 | split; [exact H1 | exact H2]].
Qed.

Lemma forwarding_writes_back_mixture_parameters_witness :
  exists l' c',
    forwarding (finalized_layer scenario_props)
               (zero_context (finalized_context "mol" (mkDim 1 1 1 2) (mkDim 1 1 4 1)
                                                (mkDim 1 1 1 1) 2 1))
    = Ok (l', c')
    /\ forall b k, b < 1 -> k < 1 ->
         getValue (getTensor c' (wt_idx l' AttentionParams.fc_proj_out)) b 0 0 k
         = exp (mol_packed (zero_context (finalized_context "mol" (mkDim 1 1 1 2)
                              (mkDim 1 1 4 1) (mkDim 1 1 1 1) 2 1)) 2 2 b k)
         /\ getValue (getTensor c' (wt_idx l' AttentionParams.fc_proj_out)) b 0 0 (1 + k)
            = exp (mol_packed (zero_context (finalized_context "mol" (mkDim 1 1 1 2)
                                 (mkDim 1 1 4 1) (mkDim 1 1 1 1) 2 1)) 2 2 b (1 + k))
         /\ getValue (getTensor c' (wt_idx l' AttentionParams.fc_proj_out)) b 0 0 (2 * 1 + k)
            = (exp (mol_packed (zero_context (finalized_context "mol" (mkDim 1 1 1 2)
                                  (mkDim 1 1 4 1) (mkDim 1 1 1 1) 2 1)) 2 2 b (2 * 1 + k))
               / rsum 1 (fun j => exp (mol_packed (zero_context (finalized_context "mol"
                                  (mkDim 1 1 1 2) (mkDim 1 1 4 1) (mkDim 1 1 1 1) 2 1))
                                  2 2 b (2 * 1 + j))))%R.
Proof.
  apply (@forwarding_writes_back_mixture_parameters scenario_props "mol" 1 4 2 1 2 1
           (finalized_layer scenario_props)
           (finalized_context "mol" (mkDim 1 1 1 2) (mkDim 1 1 4 1) (mkDim 1 1 1 1) 2 1)).
  - reflexivity.
  - reflexivity.
  - vm_compute. reflexivity.
  - apply realizes_zero_context.
Defined.

(** ** Batched products *)

Lemma nth_slice (l : list R) (L n k : nat) :
  k < L -> nth k (firstn L (skipn n l)) 0%R = nth (n + k) l 0%R.
Proof.
  intros Hk. rewrite nth_firstn.
  destruct (Nat.ltb_spec k L); [|lia]. apply nth_skipn.
Qed.

Lemma getValue_getBatchSlice (t : Tensor) (B H W b h w : nat) :
  dim t = mkDim B 1 H W -> h < H -> w < W ->
  getValue (getBatchSlice t b) 0 0 h w = getValue t b 0 h w.
Proof.
  intros Ht Hh Hw.
  unfold getValue, getBatchSlice, getIndex, getFeatureLen. simpl. rewrite Ht. simpl.
  rewrite nth_slice by nia. f_equal. nia.
Qed.

Lemma dim_getBatchSlice (t : Tensor) (b : nat) :
  dim (getBatchSlice t b) = set_batch (dim t) 1.
Proof. reflexivity. Qed.

(** The batch loop of [dotBatched]: each round rewrites one slice of the
    result and leaves the others. *)
Section BatchLoop.
Variables x m : Tensor.
Variable tm : bool.
Variables B W : nat.
Variable prod : nat -> nat -> R.
Hypothesis Hx : batch (dim x) = B.
Hypothesis Hrow : forall b v, b < B -> v < W ->
  nth v (data (dot (getBatchSlice x b) (getBatchSlice m b) false tm)) 0%R = prod b v.
Hypothesis Hrowlen : forall b, b < B ->
  length (data (dot (getBatchSlice x b) (getBatchSlice m b) false tm)) = W.

Let step (r : Tensor) (b : nat) : Tensor :=
  putBatchSlice r b
    (dot_out (getBatchSlice x b) (getBatchSlice m b) (getBatchSlice r b) false tm).

Section OneRound.
Variable r : Tensor.
Variable n : nat.
Hypothesis Hr : dim r = mkDim B 1 1 W.
Hypothesis Hlen : length (data r) = B * W.
Hypothesis Hn : n < B.
Hypothesis HW : 0 < W.

Lemma slice_len : getFeatureLen (dim r) = W.
Proof. unfold getFeatureLen. rewrite Hr. simpl. lia. Qed.

Lemma slice_nonempty : empty (getBatchSlice r n) = false.
Proof.
  unfold empty, getBatchSlice, getDataLen, getFeatureLen. simpl. rewrite Hr. simpl.
  apply Nat.eqb_neq. lia.
Qed.

Lemma step_data :
  data (step r n)
  = firstn (n * W) (data r)
    ++ firstn W (data (dot_out (getBatchSlice x n) (getBatchSlice m n)
                               (getBatchSlice r n) false tm))
    ++ skipn ((n + 1) * W) (data r).
Proof. unfold step, putBatchSlice. simpl. now rewrite slice_len. Qed.

Lemma row_written (v : nat) :
  v < W ->
  nth v (data (dot_out (getBatchSlice x n) (getBatchSlice m n)
                       (getBatchSlice r n) false tm)) 0%R
  = prod n v.
Proof.
  intros Hv. unfold dot_out.
  rewrite nth_store_into.
  - now apply Hrow.
  - unfold getBatchSlice, getDataLen, getFeatureLen. simpl. rewrite Hr. simpl. lia.
  - rewrite Hrowlen by assumption. exact Hv.
Qed.

Lemma row_written_length :
  length (data (dot_out (getBatchSlice x n) (getBatchSlice m n)
                        (getBatchSlice r n) false tm)) = W.
Proof.
  unfold dot_out, store_into. rewrite slice_nonempty. simpl.
  rewrite length_map, length_seq.
  unfold getDataLen, getFeatureLen. simpl. rewrite Hr. simpl. lia.
Qed.

Lemma step_length : length (data (step r n)) = B * W.
Proof.
  rewrite step_data, !length_app, length_skipn.
  rewrite !firstn_length_le by (rewrite ?row_written_length, ?Hlen; nia).
  rewrite Hlen. nia.
Qed.

Lemma step_row (v : nat) :
  v < W -> nth (n * W + v) (data (step r n)) 0%R = prod n v.
Proof.
  intros Hv. rewrite step_data.
  assert (Hf : length (firstn (n * W) (data r)) = n * W)
    by (apply firstn_length_le; rewrite Hlen; nia).
  rewrite app_nth2 by (rewrite Hf; lia). rewrite Hf.
  replace (n * W + v - n * W) with v by lia.
  rewrite app_nth1 by (rewrite firstn_length_le; rewrite ?row_written_length; lia).
  rewrite nth_firstn. destruct (Nat.ltb_spec v W); [|lia].
  now apply row_written.
Qed.

Lemma step_other_rows (b v : nat) :
  b < B -> b <> n -> v < W ->
  nth (b * W + v) (data (step r n)) 0%R = nth (b * W + v) (data r) 0%R.
Proof.
  intros Hb Hne Hv. rewrite step_data.
  assert (Hf : length (firstn (n * W) (data r)) = n * W)
    by (apply firstn_length_le; rewrite Hlen; nia).
  destruct (Nat.lt_ge_cases b n) as [Hlt|Hge].
  - rewrite app_nth1 by (rewrite Hf; nia).
    rewrite nth_firstn. destruct (Nat.ltb_spec (b * W + v) (n * W)); [reflexivity | nia].
  - assert (Hbn : n + 1 <= b) by lia.
    rewrite app_nth2 by (rewrite Hf; nia). rewrite Hf.
    assert (Hf2 : length (firstn W (data (dot_out (getBatchSlice x n) (getBatchSlice m n)
                            (getBatchSlice r n) false tm))) = W)
      by (apply firstn_length_le; rewrite row_written_length; lia).
    rewrite app_nth2 by (rewrite Hf2; nia). rewrite Hf2.
    rewrite nth_skipn. f_equal. nia.
Qed.
End OneRound.

Lemma batch_loop_rows (r : Tensor) (n : nat) :
  dim r = mkDim B 1 1 W -> length (data r) = B * W -> 0 < W -> n <= B ->
  dim (fold_left step (seq 0 n) r) = mkDim B 1 1 W
  /\ length (data (fold_left step (seq 0 n) r)) = B * W
  /\ (forall b v, b < n -> v < W ->
        nth (b * W + v) (data (fold_left step (seq 0 n) r)) 0%R = prod b v)
  /\ (forall b v, n <= b -> b < B -> v < W ->
        nth (b * W + v) (data (fold_left step (seq 0 n) r)) 0%R
        = nth (b * W + v) (data r) 0%R).
Proof.
  intros Hr Hlen HW. induction n as [|n IH]; intros Hn.
  - cbn [seq fold_left]. repeat split; auto. intros; lia.
  - rewrite seq_S, fold_left_app. cbn [fold_left Nat.add].
    destruct IH as (Hd & Hl & Hdone & Hrest); [lia|].
    set (rn := fold_left step (seq 0 n) r) in *.
    split; [exact Hd|]. split; [apply step_length; auto|]. split.
    + intros b v Hb Hv. destruct (Nat.eq_dec b n) as [->|Hne].
      * apply step_row; auto.
      * rewrite step_other_rows by (auto; lia). apply Hdone; lia.
    + intros b v Hb1 Hb2 Hv.
      rewrite step_other_rows by (auto; lia). apply Hrest; lia.
Qed.

Lemma getValue_batch_loop (r : Tensor) (b v : nat) :
  dim r = mkDim B 1 1 W -> length (data r) = B * W ->
  b < B -> v < W ->
  getValue (dotBatched x m r false tm) b 0 0 v = prod b v.
Proof.
  intros Hr Hlen Hb Hv.
  assert (HW : 0 < W) by lia.
  destruct (@batch_loop_rows r B Hr Hlen HW (Nat.le_refl B)) as (Hd & _ & Hrows & _).
  unfold dotBatched. rewrite Hx.
  unfold getValue.
  fold step.
  rewrite Hd. unfold getIndex. cbn [channel height width].
  replace ((b * 1 + 0) * 1 + 0) with b by lia.
  now apply Hrows.
Qed.

Lemma length_batch_loop (r : Tensor) :
  dim r = mkDim B 1 1 W -> length (data r) = B * W -> 0 < W ->
  dim (dotBatched x m r false tm) = mkDim B 1 1 W
  /\ length (data (dotBatched x m r false tm)) = B * W.
Proof.
  intros Hr Hlen HW.
  destruct (@batch_loop_rows r B Hr Hlen HW (Nat.le_refl B)) as (Hd & Hl & _ & _).
  unfold dotBatched. rewrite Hx. fold step. now split.
Qed.
End BatchLoop.

(** scores . value, batch row by batch row. *)
Lemma getValue_dotBatched (x m r : Tensor) (B T V b v : nat) :
  dim x = mkDim B 1 1 T -> dim m = mkDim B 1 T V ->
  dim r = mkDim B 1 1 V -> length (data r) = B * V ->
  b < B -> v < V ->
  getValue (dotBatched x m r false false) b 0 0 v
  = rsum T (fun t => getValue x b 0 0 t * getValue m b 0 t v)%R.
Proof.
  intros Hx Hm Hr Hlen Hb Hv.
  apply (@getValue_batch_loop x m false B V
           (fun b v => rsum T (fun t => getValue x b 0 0 t * getValue m b 0 t v)%R));
    try assumption.
  - now rewrite Hx.
  - intros b' v' Hb' Hv'.
    assert (Hdx : dim (getBatchSlice x b') = mkDim 1 1 1 T)
      by (rewrite dim_getBatchSlice, Hx; reflexivity).
    assert (Hdm : dim (getBatchSlice m b') = mkDim 1 1 T V)
      by (rewrite dim_getBatchSlice, Hm; reflexivity).
    unfold dot, dot_dim. rewrite Hdx, Hdm. cbn [set_width width batch channel height].
    replace v' with (getIndex (mkDim 1 1 1 V) 0 0 0 v') at 1
      by (unfold getIndex; simpl; lia).
    rewrite nth_build by (simpl; lia).
    unfold dot_value, rows, row_of. rewrite Hdm. cbn [batch channel height width].
    rewrite !Nat.mul_1_l.
    apply rsum_ext. intros t Ht. cbn [set_width channel height Nat.mul Nat.add].
    rewrite (@mat_get_row _ 1 T 0 t Hdx), (@mat_get_weight _ T V t v' Hdm).
    now rewrite (@getValue_getBatchSlice x B 1 T b' 0 t Hx), 
                (@getValue_getBatchSlice m B T V b' t v' Hm) by lia.
  - intros b' Hb'. unfold dot. rewrite length_build.
    unfold dot_dim, getDataLen, getFeatureLen.
    rewrite !dim_getBatchSlice, Hx, Hm. simpl. lia.
Qed.

(** output_deriv . value^T, batch row by batch row. *)
Lemma getValue_dot_batched_deriv_wrt_1 (self m d : Tensor) (B T V b t : nat) :
  dim d = mkDim B 1 1 V -> dim m = mkDim B 1 T V ->
  dim self = mkDim B 1 1 T -> length (data self) = B * T ->
  b < B -> t < T ->
  getValue (dot_batched_deriv_wrt_1 self m d) b 0 0 t
  = rsum V (fun v => getValue d b 0 0 v * getValue m b 0 t v)%R.
Proof.
  intros Hd Hm Hr Hlen Hb Ht.
  unfold dot_batched_deriv_wrt_1.
  apply (@getValue_batch_loop d m true B T
           (fun b t => rsum V (fun v => getValue d b 0 0 v * getValue m b 0 t v)%R));
    try assumption.
  - now rewrite Hd.
  - intros b' t' Hb' Ht'.
    assert (Hdx : dim (getBatchSlice d b') = mkDim 1 1 1 V)
      by (rewrite dim_getBatchSlice, Hd; reflexivity).
    assert (Hdm : dim (getBatchSlice m b') = mkDim 1 1 T V)
      by (rewrite dim_getBatchSlice, Hm; reflexivity).
    unfold dot, dot_dim. rewrite Hdx, Hdm.
    cbn [set_width width batch channel height rows Nat.mul Nat.add].
    replace t' with (getIndex (mkDim 1 1 1 (1 * 1 * T)) 0 0 0 t') at 1
      by (unfold getIndex; simpl; lia).
    rewrite nth_build by (simpl; lia).
    unfold dot_value, rows, row_of. rewrite Hdm. cbn [batch channel height width].
    apply rsum_ext. intros v Hv. cbn [set_width channel height Nat.mul Nat.add].
    rewrite (@mat_get_row _ 1 V 0 v Hdx), (@mat_get_weight_trans _ T V v t' Hdm).
    now rewrite (@getValue_getBatchSlice d B 1 V b' 0 v Hd), 
                (@getValue_getBatchSlice m B T V b' t' v Hm) by lia.
  - intros b' Hb'. unfold dot. rewrite length_build.
    unfold dot_dim, getDataLen, getFeatureLen.
    rewrite !dim_getBatchSlice, Hd, Hm. unfold rows. simpl. lia.
Qed.

(** ** What the forward pass writes and what it leaves *)

Lemma forwarding_body_frame (l : MoLAttentionLayer) (K : nat) (c : RunLayerContext) :
  inputs (forwarding_body l K c) = inputs c
  /\ weights (forwarding_body l K c) = weights c
  /\ weight_grads (forwarding_body l K c) = weight_grads c
  /\ incoming_derivatives (forwarding_body l K c) = incoming_derivatives c
  /\ outgoing_derivatives (forwarding_body l K c) = outgoing_derivatives c.
Proof. repeat split. Qed.

Lemma dim_nth_tensor (l : list Tensor) (ds : list TensorDim) (i : nat) :
  map dim l = ds -> dim (nth i l empty_tensor) = nth i ds (dim empty_tensor).
Proof. intros <-. symmetry. apply map_nth. Qed.

Lemma forwarding_body_outputs (props : MolProps) (K : nat) (c : RunLayerContext) :
  length (tensors c) = 8 ->
  outputs (forwarding_body (finalized_layer props) K c)
  = upd SINGLE_INOUT_IDX
        (dotBatched (getTensor (forwarding_body (finalized_layer props) K c) 2)
                    (getInput c 1) (getOutput c SINGLE_INOUT_IDX) false false)
        (outputs c).
Proof.
  intros Ht.
  destruct c as [ins outs ws wgs ts inc outg].
  cbn [tensors] in Ht. explode_length Ht.
  run_body.
  reflexivity.
Qed.

(** X4: when query and value have the same width, the output slot holds,
    after a forward pass, the score-weighted sum of the value rows. *)
Theorem forwarding_context_output
    (props : MolProps) (name : string) (B T V U K : nat)
    (l : MoLAttentionLayer) (ictx : InitLayerContext) (c : RunLayerContext) :
  Unit props = Some U -> MoL_K props = Some K ->
  finalize (new_layer props)
           (fresh_context name [mkDim B 1 1 V; mkDim B 1 T V; mkDim B 1 1 K])
  = Ok (l, ictx) ->
  realizes ictx c ->
  length (data (getOutput c SINGLE_INOUT_IDX)) = B * V ->
  0 < T ->
  exists l' c',
    forwarding l c = Ok (l', c')
    /\ forall b v, b < B -> v < V ->
         getValue (getOutput c' SINGLE_INOUT_IDX) b 0 0 v
         = rsum T (fun t => mol_score c K b (t + 1)
                            * getValue (getInput c (wt_idx l AttentionParams.value)) b 0 t v)%R.
Proof.
  intros HU HK Hfin Hreal Hlen HT.
  destruct (@finalize_then_forwarding props name _ _ _ U K l ictx c HU HK Hfin)
    as (-> & -> & Hf).
  do 2 eexists. split; [exact Hf|].
  intros b v Hb Hv.
  assert (HB : 0 < B) by lia.
  pose proof (forwarding_body_after_forward props Hreal HB HT) as Haf.
  assert (Hsc : forall h, h < T ->
            getValue (getTensor (forwarding_body (finalized_layer props) K c) 2) b 0 0 h
            = mol_score c K b (h + 1))
    by (intros h Hh; exact (forwarding_body_scores props Hreal Hb Hh)).
  assert (Hl8 : length (tensors c) = 8).
  { pose proof (tensors_dim Hreal) as Ht. apply (f_equal (@length _)) in Ht.
    now rewrite length_map in Ht. }
  change (wt_idx (finalized_layer props) AttentionParams.value) with 1.
  unfold getOutput at 1. rewrite (forwarding_body_outputs props K c Hl8).
  set (c' := forwarding_body (finalized_layer props) K c) in *.
  assert (Ho : exists o, outputs c = [o] /\ dim o = mkDim B 1 1 V).
  { pose proof (outputs_dim Hreal) as Ho. cbn in Ho.
    destruct (outputs c) as [|o [|o2 os]]; try discriminate.
    exists o. split; [reflexivity|]. cbn in Ho. congruence. }
  destruct Ho as (o & Ho & Hdo).
  unfold getOutput in *. rewrite Ho in *. cbn [upd nth SINGLE_INOUT_IDX] in *.
  assert (Hds : dim (getTensor c' 2) = mkDim B 1 1 T).
  { unfold getTensor. rewrite (@dim_nth_tensor _ _ 2 (af_tensors Haf)). reflexivity. }
  assert (Hdv : dim (getInput c 1) = mkDim B 1 T V).
  { unfold getInput. rewrite (@dim_nth_tensor _ _ 1 (inputs_dim Hreal)). reflexivity. }
  rewrite (@getValue_dotBatched _ _ _ B T V b v Hds Hdv Hdo Hlen Hb Hv).
  apply rsum_ext. intros t Ht.
  now rewrite Hsc by assumption.
Qed.

Lemma forwarding_context_output_witness :
  exists l' c',
    forwarding (finalized_layer scenario_props)
               (zero_context (finalized_context "mol" (mkDim 1 1 1 1) (mkDim 1 1 4 1)
                                                (mkDim 1 1 1 1) 2 1))
    = Ok (l', c')
    /\ forall b v, b < 1 -> v < 1 ->
         getValue (getOutput c' SINGLE_INOUT_IDX) b 0 0 v
         = rsum 4 (fun t =>
             mol_score (zero_context (finalized_context "mol" (mkDim 1 1 1 1)
                          (mkDim 1 1 4 1) (mkDim 1 1 1 1) 2 1)) 1 b (t + 1)
             * getValue (getInput (zero_context (finalized_context "mol" (mkDim 1 1 1 1)
                                     (mkDim 1 1 4 1) (mkDim 1 1 1 1) 2 1))
                                  (wt_idx (finalized_layer scenario_props)
                                          AttentionParams.value)) b 0 t v)%R.
Proof.
  apply (@forwarding_context_output scenario_props "mol" 1 4 1 2 1
           (finalized_layer scenario_props)
           (finalized_context "mol" (mkDim 1 1 1 1) (mkDim 1 1 4 1) (mkDim 1 1 1 1) 2 1)).
  - reflexivity.
  - reflexivity.
  - vm_compute. reflexivity.
  - apply realizes_zero_context.
  - reflexivity.
  - lia.
Defined.

(** X5: a forward pass writes scratch tensors and the output, nothing
    else: inputs, weights, weight gradients and both derivative lists are
    the ones it was given, and of the layer object only the helper flag
    can change, which is clear afterwards. *)
Theorem forwarding_writes_only_scratch_and_output
    (l l' : MoLAttentionLayer) (c c' : RunLayerContext) :
  forwarding l c = Ok (l', c') ->
  inputs c' = inputs c
  /\ weights c' = weights c
  /\ weight_grads c' = weight_grads c
  /\ incoming_derivatives c' = incoming_derivatives c
  /\ outgoing_derivatives c' = outgoing_derivatives c
  /\ wt_idx l' = wt_idx l
  /\ mol_props l' = mol_props l
  /\ helper_runs l' = helper_runs l
  /\ helper_exec l' = false.
Proof.
  intros Hf.
  pose proof (forwarding_layer _ _ Hf) as Hl.
  unfold forwarding in Hf.
  destruct (prop_get (MoL_K (mol_props l))) as [k|e]; [|discriminate].
  unfold bind in Hf.
  assert (Hc : c' = forwarding_body (with_helper_exec l false) k c) by congruence.
  subst l' c'.
  destruct (forwarding_body_frame (with_helper_exec l false) k c)
    as (H1 & H2 & H3 & H4 & H5).
  repeat (split; [assumption || reflexivity|]). reflexivity.
Qed.

Lemma forwarding_writes_only_scratch_and_output_witness :
  exists l' c',
    forwarding (finalized_layer gradient_scenario_props) gradient_scenario = Ok (l', c')
    /\ inputs c' = inputs gradient_scenario
    /\ weights c' = weights gradient_scenario.
Proof.
  assert (H : forwarding (finalized_layer gradient_scenario_props) gradient_scenario
              = Ok (finalized_layer gradient_scenario_props,
                    forwarding_body (finalized_layer gradient_scenario_props) 1 gradient_scenario))
    by reflexivity.
  do 2 eexists. split; [exact H|].
  split; apply (@forwarding_writes_only_scratch_and_output _ _ _ _ H).
Defined.


(** ** The scores as a distribution over the timesteps *)

Lemma rsum_pos (n : nat) (f : nat -> R) :
  0 < n -> (forall i, i < n -> (0 < f i)%R) -> (0 < rsum n f)%R.
Proof.
  intros Hn H. destruct n as [|n]; [lia|]. simpl.
  assert (0 <= rsum n f)%R by (apply rsum_nonneg; intros; left; apply H; lia).
  assert (0 < f n)%R by (apply H; lia). lra.
Qed.

Lemma rsum_lt (n : nat) (f g : nat -> R) :
  0 < n -> (forall i, i < n -> (f i < g i)%R) -> (rsum n f < rsum n g)%R.
Proof.
  intros Hn H.
  assert (Hd : (0 < rsum n (fun i => g i + - f i))%R).
  { apply rsum_pos; [exact Hn|]. intros i Hi. specialize (H i Hi). lra. }
  rewrite rsum_plus, rsum_opp in Hd. lra.
Qed.

Lemma rsum_scal_l (n : nat) (f : nat -> R) (a : R) :
  rsum n (fun i => (a * f i)%R) = (a * rsum n f)%R.
Proof. induction n as [|n IH]; simpl; [lra | rewrite IH; lra]. Qed.

Lemma rsum_swap (n m : nat) (f : nat -> nat -> R) :
  rsum n (fun i => rsum m (fun j => f i j))
  = rsum m (fun j => rsum n (fun i => f i j)).
Proof.
  induction n as [|n IH]; simpl.
  - induction m as [|m IHm]; simpl; [reflexivity | rewrite <- IHm; lra].
  - rewrite IH. now rewrite <- rsum_plus.
Qed.

(** Consecutive differences cancel. *)
Lemma rsum_telescope (n : nat) (g : nat -> R) :
  rsum n (fun t => (g (S t) - g t)%R) = (g n - g 0%nat)%R.
Proof. induction n as [|n IH]; simpl; [lra | rewrite IH; lra]. Qed.

Lemma sigmoid_increasing (x y : R) : (x < y)%R -> (sigmoid_fn x < sigmoid_fn y)%R.
Proof.
  intros Hxy. unfold sigmoid_fn.
  pose proof (exp_pos (- x)) as Hx. pose proof (exp_pos (- y)) as Hy.
  assert (Hlt : (exp (- y) < exp (- x))%R) by (apply exp_increasing; lra).
  unfold Rdiv. rewrite !Rmult_1_l.
  apply Rinv_lt_contravar; [|lra].
  apply Rmult_lt_0_compat; lra.
Qed.

Section MixtureFacts.
Variable c : RunLayerContext.
Variable K : nat.

Lemma mol_scale_floor_pos (b k : nat) : (0 < mol_scale c K b k + scale_eps)%R.
Proof.
  unfold mol_scale, scale_eps. pose proof (exp_pos (scale_logit c K b k)). lra.
Qed.

Lemma mol_weight_pos (b k : nat) : k < K -> (0 < mol_weight c K b k)%R.
Proof.
  intros Hk. unfold mol_weight.
  apply Rdiv_lt_0_compat; [apply exp_pos|].
  apply rsum_pos; [lia|]. intros; apply exp_pos.
Qed.

Lemma mol_weight_sum (b : nat) : 0 < K -> rsum K (mol_weight c K b) = 1%R.
Proof.
  intros HK. unfold mol_weight, Rdiv.
  rewrite rsum_scal_r. apply Rinv_r.
  apply Rgt_not_eq. apply rsum_pos; [exact HK|]. intros; apply exp_pos.
Qed.

(** The right edge of the bin of timestep [t + 1] is the left edge of the
    bin of timestep [t]. *)
Let edge (b k t : nat) : R :=
  sigmoid_fn ((INR t + 5 / 10 - mol_center c b k) / (mol_scale c K b k + scale_eps)).

Lemma mol_prob_edges (b t k : nat) :
  mol_prob c K b (S t) k = (edge b k (S t) - edge b k t)%R.
Proof.
  unfold mol_prob, edge. rewrite S_INR.
  replace (INR t + 1 - 5 / 10)%R with (INR t + 5 / 10)%R by lra.
  reflexivity.
Qed.

Lemma edge_increasing (b k t u : nat) : t < u -> (edge b k t < edge b k u)%R.
Proof.
  intros Htu. unfold edge. apply sigmoid_increasing.
  pose proof (mol_scale_floor_pos b k) as Hs.
  unfold Rdiv. apply Rmult_lt_compat_r; [now apply Rinv_0_lt_compat|].
  apply lt_INR in Htu. lra.
Qed.

Lemma mol_prob_pos (b t k : nat) : (0 < mol_prob c K b (S t) k)%R.
Proof.
  rewrite mol_prob_edges.
  pose proof (@edge_increasing b k t (S t) (Nat.lt_succ_diag_r t)). lra.
Qed.

Lemma mol_prob_sum (b k T : nat) :
  rsum T (fun t => mol_prob c K b (S t) k) = (edge b k T - edge b k 0)%R.
Proof.
  rewrite (rsum_ext _ (fun t => edge b k (S t) - edge b k t)%R)
    by (intros; apply mol_prob_edges).
  apply (rsum_telescope T (edge b k)).
Qed.

Lemma mol_prob_sum_lt_1 (b k T : nat) :
  (rsum T (fun t => mol_prob c K b (S t) k) < 1)%R.
Proof.
  rewrite mol_prob_sum. unfold edge.
  match goal with |- (sigmoid_fn ?x - sigmoid_fn ?y < 1)%R =>
    pose proof (sigmoid_lt_1 x); pose proof (sigmoid_pos y) end.
  lra.
Qed.

Lemma mol_score_pos (b t : nat) : 0 < K -> (0 < mol_score c K b (S t))%R.
Proof.
  intros HK. unfold mol_score. apply rsum_pos; [exact HK|].
  intros k Hk. apply Rmult_lt_0_compat; [now apply mol_weight_pos | apply mol_prob_pos].
Qed.

Lemma mol_score_sum_lt_1 (b T : nat) :
  0 < K -> (rsum T (fun t => mol_score c K b (S t)) < 1)%R.
Proof.
  intros HK. unfold mol_score.
  rewrite rsum_swap.
  rewrite (rsum_ext _ (fun k => mol_weight c K b k
                                * rsum T (fun t => mol_prob c K b (S t) k))%R)
    by (intros; apply rsum_scal_l).
  rewrite <- (mol_weight_sum b HK).
  apply rsum_lt; [exact HK|]. intros k Hk.
  pose proof (mol_weight_pos b Hk) as Hw.
  pose proof (mol_prob_sum_lt_1 b k T) as Hp.
  nra.
Qed.
End MixtureFacts.





(** ** What the backward pass writes and what it leaves *)

Lemma nth_upd_eq (i : nat) (x : Tensor) (l : list Tensor) (d : Tensor) :
  i < length l -> nth i (upd i x l) d = x.
Proof.
  revert i. induction l as [|y l IH]; intros [|i] H; simpl in *; try lia; auto.
  apply IH. lia.
Qed.

Lemma map_dim_upd (i : nat) (x : Tensor) (l : list Tensor) :
  dim x = dim (nth i l empty_tensor) -> map dim (upd i x l) = map dim l.
Proof.
  revert i. induction l as [|y l IH]; intros [|i] H; simpl in *; auto.
  - now rewrite H.
  - now rewrite IH.
Qed.

Lemma dim_view_copy_with_stride (P : Tensor) (d : TensorDim) (off : nat) (from : Tensor) :
  dim (view_copy_with_stride (getSharedDataTensor P d off) from) = dim P.
Proof.
  unfold view_copy_with_stride. destruct (dim_eqb _ _); reflexivity.
Qed.

Lemma helper_body_frame (l : MoLAttentionLayer) (K : nat) (c : RunLayerContext) (i : nat) :
  inputs (calcDerivativeHelper_body l K c i) = inputs c
  /\ outputs (calcDerivativeHelper_body l K c i) = outputs c
  /\ weights (calcDerivativeHelper_body l K c i) = weights c
  /\ weight_grads (calcDerivativeHelper_body l K c i) = weight_grads c
  /\ incoming_derivatives (calcDerivativeHelper_body l K c i) = incoming_derivatives c.
Proof. repeat split. Qed.

Lemma helper_body_tensors (l : MoLAttentionLayer) (K : nat) (c : RunLayerContext) (i : nat) :
  length (tensors (calcDerivativeHelper_body l K c i)) = length (tensors c)
  /\ map dim (tensors (calcDerivativeHelper_body l K c i)) = map dim (tensors c)
  /\ forall j, j <> wt_idx l AttentionParams.fc_proj_out ->
       getTensor (calcDerivativeHelper_body l K c i) j = getTensor c j.
Proof.
  split; [|split].
  - lazy beta iota zeta delta [calcDerivativeHelper_body setTensor setOutgoingDerivative tensors].
    now rewrite !length_upd.
  - lazy beta iota zeta delta [calcDerivativeHelper_body setTensor setOutgoingDerivative
                                 tensors getTensor].
    rewrite !map_dim_upd; try reflexivity; rewrite dim_view_copy_with_stride; reflexivity.
  - intros j Hj.
    lazy beta iota zeta delta [calcDerivativeHelper_body setTensor setOutgoingDerivative
                                 tensors getTensor].
    now rewrite !nth_upd_neq by congruence.
Qed.

(** The shared helper keeps the shapes the forward pass left. *)
Lemma helper_body_after_forward (props : MolProps) (B T Q V U K : nat)
    (c : RunLayerContext) :
  after_forward B T Q V U K c ->
  after_forward B T Q V U K (calcDerivativeHelper_body (finalized_layer props) K c 2).
Proof.
  intros Haf.
  pose proof (helper_body_tensors (finalized_layer props) K c 2) as (_ & Hd & _).
  destruct Haf as [Hi Ht Hlen Hout].
  constructor.
  - exact Hi.
  - now rewrite Hd.
  - destruct c as [ins outs ws wgs ts inc outg].
    cbn [inputs tensors outgoing_derivatives] in Hi, Ht, Hout.
    unfold getTensor in Hlen. cbn [tensors] in Hlen.
    explode_map Hi. explode_map Ht. explode_map Hout.
    known_dims.
    cbn [nth data] in Hlen.
    run_body.
    cbn [batch height width dim].
    match goal with
    | |- context [view_copy_with_stride
                    (getSharedDataTensor
                       (view_copy_with_stride
                          (getSharedDataTensor
                             (view_copy_with_stride
                                (getSharedDataTensor ?P _ 0) ?a0) _ _) ?a1) _ _) ?a2] =>
        destruct (@packed_writes_dim P a0 a1 a2 B K eq_refl) as [HP3 HP3l]
    end.
    + cbn [dim data]. rewrite Hlen. unfold getDataLen, getFeatureLen. simpl. lia.
    + rewrite HP3l, HP3. unfold getDataLen, getFeatureLen. simpl. lia.
  - destruct c as [ins outs ws wgs ts inc outg].
    cbn [inputs tensors outgoing_derivatives] in Hi, Ht, Hout.
    explode_map Hi. explode_map Ht. explode_map Hout.
    known_dims.
    run_body.
    cbn [map]. f_equal. f_equal. f_equal.
    apply dim_store_into. reflexivity.
Qed.

(** ** A forward pass after a backward pass *)

(** A result written over the whole of a buffer does not depend on what
    the buffer held. *)
Lemma store_into_covers (o1 o2 r : Tensor) :
  dim o1 = dim o2 -> getDataLen (dim o1) <= length (data r) ->
  store_into o1 r = store_into o2 r.
Proof.
  intros Hd Hl. unfold store_into, empty. rewrite <- Hd.
  destruct (getDataLen (dim o1) =? 0); [reflexivity|].
  f_equal. apply map_ext_in. intros i Hi. apply in_seq in Hi.
  destruct (Nat.ltb_spec i (length (data r))); [reflexivity | lia].
Qed.

Lemma forwarding_body_scratch_determined (p1 p2 : MolProps) (h1 h2 : bool)
    (n1 n2 : nat) (B T Q V K : nat)
    (c1 c2 : RunLayerContext) (d0 d1 e0 e1 : TensorDim) :
  map dim (inputs c1) = [mkDim B 1 1 Q; mkDim B 1 T V; mkDim B 1 1 K] ->
  inputs c2 = inputs c1 -> weights c2 = weights c1 ->
  map dim (tensors c1)
  = [d0; d1; mkDim B 1 1 T;
     mkDim B 1 T K; mkDim B 1 T K; mkDim B 1 T K; mkDim B 1 T K; mkDim B 1 T K] ->
  map dim (tensors c2)
  = [e0; e1; mkDim B 1 1 T;
     mkDim B 1 T K; mkDim B 1 T K; mkDim B 1 T K; mkDim B 1 T K; mkDim B 1 T K] ->
  tensors (forwarding_body
             (mkLayer h2 finalized_wt_idx ACT_SOFTMAX ACT_TANH ACT_SIGMOID p2 n2) K c2)
  = tensors (forwarding_body
               (mkLayer h1 finalized_wt_idx ACT_SOFTMAX ACT_TANH ACT_SIGMOID p1 n1) K c1).
Proof.
  intros Hi Hi2 Hw2 Ht1 Ht2.
  destruct c1 as [ins outs ws wgs ts inc outg].
  destruct c2 as [ins2 outs2 ws2 wgs2 ts2 inc2 outg2].
  cbn [inputs weights tensors] in *. subst ins2 ws2.
  explode_map Hi. explode_map Ht1. explode_map Ht2.
  known_dims.
  run_body.
  cbn [batch height dim].
  rewrite !(store_into_id (add (dot _ _ false false) _) (apply tanh _))
    by (reflexivity || apply length_build).
  match goal with |- context [getSharedDataTensor ?p _ 0] => set (P := p) end.
  clearbody P.
  unfold subtract, divide, add, add_scalar, multiply.
  collapse_store.
  do 2 f_equal. f_equal.
  apply store_into_covers; [reflexivity|].
  unfold sum_axis3. rewrite length_build. cbn [dim build apply_broadcast set_width
    batch channel height width]. unfold getDataLen, getFeatureLen. simpl. lia.
Qed.

Lemma calcGradient_rest_keeps (l : MoLAttentionLayer) (c : RunLayerContext) :
  inputs (calcGradient_rest l c) = inputs c
  /\ weights (calcGradient_rest l c) = weights c
  /\ outputs (calcGradient_rest l c) = outputs c
  /\ incoming_derivatives (calcGradient_rest l c) = incoming_derivatives c.
Proof. repeat split. Qed.

Lemma calcDerivative_keeps (l : MoLAttentionLayer) (c : RunLayerContext) :
  inputs (calcDerivative_rest l (calcDerivative_first l c)) = inputs c
  /\ weights (calcDerivative_rest l (calcDerivative_first l c)) = weights c
  /\ weight_grads (calcDerivative_rest l (calcDerivative_first l c)) = weight_grads c
  /\ outputs (calcDerivative_rest l (calcDerivative_first l c)) = outputs c
  /\ incoming_derivatives (calcDerivative_rest l (calcDerivative_first l c))
     = incoming_derivatives c.
Proof. repeat split. Qed.

Lemma calcDerivative_first_dims (l : MoLAttentionLayer) (c : RunLayerContext) :
  map dim (tensors (calcDerivative_first l c)) = map dim (tensors c).
Proof.
  unfold calcDerivative_first. cbv zeta. cbn [setTensor tensors].
  apply map_dim_upd. unfold dot_batched_deriv_wrt_1. now rewrite dim_dotBatched.
Qed.



(** ** The input-gradient entry point *)

Lemma helper_body_outgoing (l : MoLAttentionLayer) (K : nat) (c : RunLayerContext)
    (dstate : nat) :
  forall j, j <> dstate ->
    getOutgoingDerivative (calcDerivativeHelper_body l K c dstate) j
    = getOutgoingDerivative c j.
Proof.
  intros j Hj.
  lazy beta iota zeta delta [calcDerivativeHelper_body setTensor setOutgoingDerivative
                               outgoing_derivatives getOutgoingDerivative].
  now rewrite nth_upd_neq by congruence.
Qed.

(** X9: [calcDerivative] never writes the gradient of the value input:
    whatever the helper flag and the context, the outgoing derivative at
    the value slot is after the call what it was before.  The only
    statement that names [dvalue] passes it to [dot_batched_deriv_wrt_1]
    as the matrix operand, which is read, not written. *)
Theorem calcDerivative_never_writes_value_gradient
    (l0 lf l l' : MoLAttentionLayer) (ictx0 ictx : InitLayerContext)
    (c c' : RunLayerContext) :
  finalize l0 ictx0 = Ok (lf, ictx) ->
  wt_idx l = wt_idx lf ->
  calcDerivative l c = Ok (l', c') ->
  wt_idx l AttentionParams.value = 1
  /\ getOutgoingDerivative c' (wt_idx l AttentionParams.value)
     = getOutgoingDerivative c (wt_idx l AttentionParams.value).
Proof.
  intros Hfin Hix Hd.
  destruct (@finalize_input_slots l0 lf ictx0 ictx Hfin) as (Hq & Hv & Hs).
  rewrite <- Hix in Hq, Hv, Hs.
  split; [exact Hv|]. rewrite Hv.
  destruct (helper_exec l) eqn:Hx.
  - rewrite (@calcDerivative_computed l c Hx) in Hd.
    assert (Hc : c' = calcDerivative_rest l (calcDerivative_first l c)) by congruence.
    subst c'.
    rewrite (proj2 (proj2 (calcDerivative_rest_frame l _))) by (rewrite Hq; lia).
    unfold getOutgoingDerivative.
    now rewrite (proj1 (calcDerivative_first_frame l c)).
  - destruct (MoL_K (mol_props l)) as [k|] eqn:Hk.
    + rewrite (@calcDerivative_pending l c k Hk Hx) in Hd.
      set (lH := count_helper_run (with_helper_exec l true)) in *.
      assert (Hc : c' = calcDerivative_rest lH
                          (calcDerivativeHelper_body l k (calcDerivative_first l c)
                             (wt_idx l AttentionParams.state))) by congruence.
      subst c'.
      rewrite (proj2 (proj2 (calcDerivative_rest_frame lH _)))
        by (change (wt_idx lH) with (wt_idx l); rewrite Hq; lia).
      rewrite helper_body_outgoing by (rewrite Hs; lia).
      unfold getOutgoingDerivative.
      now rewrite (proj1 (calcDerivative_first_frame l c)).
    + exfalso. unfold calcDerivative, calcDerivativeHelper in Hd.
      rewrite Hx, Hk in Hd. discriminate Hd.
Qed.

Lemma calcDerivative_never_writes_value_gradient_witness :
  exists l' c',
    calcDerivative (finalized_layer gradient_scenario_props) gradient_scenario = Ok (l', c')
    /\ getOutgoingDerivative c' 1 = getOutgoingDerivative gradient_scenario 1.
Proof.
  assert (H : calcDerivative (finalized_layer gradient_scenario_props) gradient_scenario
              = Ok (count_helper_run
                      (with_helper_exec (finalized_layer gradient_scenario_props) true),
                    calcDerivative_rest
                      (count_helper_run
                         (with_helper_exec (finalized_layer gradient_scenario_props) true))
                      (calcDerivativeHelper_body (finalized_layer gradient_scenario_props) 1
                         (calcDerivative_first (finalized_layer gradient_scenario_props)
                                               gradient_scenario) 2)))
    by reflexivity.
  assert (Hfin : finalize (new_layer gradient_scenario_props)
                           (fresh_context "mol" [unit_dim; unit_dim; unit_dim])
                 = Ok (finalized_layer gradient_scenario_props,
                       finalized_context "mol" unit_dim unit_dim unit_dim 1 1))
    by (vm_compute; reflexivity).
  do 2 eexists. split; [exact H|].
  exact (proj2 (@calcDerivative_never_writes_value_gradient _ _ _ _ _ _ _ _
                  Hfin eq_refl H)).
Defined.

Lemma length_store_into_nonempty (out res : Tensor) :
  empty out = false -> length (data (store_into out res)) = getDataLen (dim out).
Proof.
  intros H. unfold store_into. rewrite H. cbn [data].
  now rewrite length_map, length_seq.
Qed.

Lemma forwarding_body_scores_length (props : MolProps) (name : string)
    (B T Q V U K : nat) (c : RunLayerContext) :
  realizes (finalized_context name (mkDim B 1 1 Q) (mkDim B 1 T V) (mkDim B 1 1 K) U K) c ->
  0 < B -> 0 < T ->
  length (data (getTensor (forwarding_body (finalized_layer props) K c) 2)) = B * T.
Proof.
  intros Hreal HB HT.
  open_realizes Hreal.
  run_body.
  rewrite length_store_into_nonempty.
  - unfold getDataLen, getFeatureLen. simpl. lia.
  - unfold empty, getDataLen, getFeatureLen. simpl. apply Nat.eqb_neq. nia.
Qed.

Lemma getTensor_calcDerivative_rest (l : MoLAttentionLayer) (c : RunLayerContext)
    (i : nat) :
  getTensor (calcDerivative_rest l c) i = getTensor c i.
Proof. unfold getTensor. now rewrite (proj1 (calcDerivative_rest_frame l c)). Qed.

Lemma getTensor_calcDerivative_first (l : MoLAttentionLayer) (c : RunLayerContext) :
  wt_idx l AttentionParams.scores < length (tensors c) ->
  getTensor (calcDerivative_first l c) (wt_idx l AttentionParams.scores)
  = dot_batched_deriv_wrt_1
      (getTensor c (wt_idx l AttentionParams.scores))
      (getOutgoingDerivative c (wt_idx l AttentionParams.value))
      (getIncomingDerivative c SINGLE_INOUT_IDX).
Proof.
  intros H. unfold calcDerivative_first. cbv zeta.
  unfold getTensor at 1. cbn [setTensor tensors].
  now apply nth_upd_eq.
Qed.

(** X10: the first statement of [calcDerivative] overwrites the scores
    the forward pass cached: after [finalize], a forward pass and
    [calcDerivative], the scores slot holds, per batch row, the product of
    the incoming derivative with the transposed old contents of the
    value-gradient buffer, and the value-gradient buffer is unchanged. *)
Theorem calcDerivative_overwrites_scores
    (props : MolProps) (name : string) (B T V U K : nat)
    (l : MoLAttentionLayer) (ictx : InitLayerContext) (c : RunLayerContext) :
  Unit props = Some U -> MoL_K props = Some K ->
  finalize (new_layer props)
           (fresh_context name [mkDim B 1 1 V; mkDim B 1 T V; mkDim B 1 1 K])
  = Ok (l, ictx) ->
  realizes ictx c ->
  0 < T ->
  exists l1 c1 l2 c2,
    forwarding l c = Ok (l1, c1)
    /\ calcDerivative l1 c1 = Ok (l2, c2)
    /\ getOutgoingDerivative c2 (wt_idx l AttentionParams.value)
       = getOutgoingDerivative c (wt_idx l AttentionParams.value)
    /\ forall b t, b < B -> t < T ->
         getValue (getTensor c2 (wt_idx l AttentionParams.scores)) b 0 0 t
         = rsum V (fun v =>
             getValue (getIncomingDerivative c SINGLE_INOUT_IDX) b 0 0 v
             * getValue (getOutgoingDerivative c (wt_idx l AttentionParams.value)) b 0 t v)%R.
Proof.
  intros HU HK Hfin Hreal HT.
  destruct (@finalize_then_forwarding props name _ _ _ U K l ictx c HU HK Hfin)
    as (-> & -> & Hf).
  set (l1 := finalized_layer props) in *.
  set (c1 := forwarding_body l1 K c) in *.
  set (lH := count_helper_run (with_helper_exec l1 true)).
  set (cF := calcDerivative_first l1 c1).
  assert (HD : calcDerivative l1 c1
               = Ok (lH, calcDerivative_rest lH (calcDerivativeHelper_body l1 K cF 2)))
    by (apply (@calcDerivative_pending l1 c1 K); [exact HK | reflexivity]).
  exists l1, c1, lH, (calcDerivative_rest lH (calcDerivativeHelper_body l1 K cF 2)).
  split; [exact Hf|]. split; [exact HD|].
  change (wt_idx l1 AttentionParams.value) with 1.
  change (wt_idx l1 AttentionParams.scores) with 2.
  assert (Hout : outgoing_derivatives cF = outgoing_derivatives c).
  { unfold cF. rewrite (proj1 (calcDerivative_first_frame l1 c1)).
    unfold c1. apply (proj2 (proj2 (proj2 (proj2 (forwarding_body_frame l1 K c))))). }
  split.
  - rewrite (proj2 (proj2 (calcDerivative_rest_frame lH _))) by (cbv; lia).
    rewrite helper_body_outgoing by lia.
    unfold getOutgoingDerivative. now rewrite Hout.
  - intros b t Hb Ht.
    assert (HB : 0 < B) by lia.
    pose proof (forwarding_body_after_forward props Hreal HB HT) as Haf.
    pose proof (forwarding_body_scores_length props Hreal HB HT) as Hsl.
    fold l1 in Haf, Hsl. fold c1 in Haf, Hsl.
    destruct (after_forward_lengths Haf) as [Hl8 _].
    rewrite getTensor_calcDerivative_rest.
    rewrite (proj2 (proj2 (helper_body_tensors l1 K cF 2))) by (cbv; lia).
    pose proof (@getTensor_calcDerivative_first l1 c1) as Hfirst.
    change (wt_idx l1 AttentionParams.value) with 1 in Hfirst.
    change (wt_idx l1 AttentionParams.scores) with 2 in Hfirst.
    unfold cF. rewrite Hfirst by (rewrite Hl8; lia).
    assert (Hinc : getIncomingDerivative c1 SINGLE_INOUT_IDX
                   = getIncomingDerivative c SINGLE_INOUT_IDX).
    { unfold getIncomingDerivative, c1.
      now rewrite (proj1 (proj2 (proj2 (proj2 (forwarding_body_frame l1 K c))))). }
    assert (Hdv : getOutgoingDerivative c1 1 = getOutgoingDerivative c 1).
    { unfold getOutgoingDerivative, c1.
      now rewrite (proj2 (proj2 (proj2 (proj2 (forwarding_body_frame l1 K c))))). }
    rewrite Hinc, Hdv.
    apply (@getValue_dot_batched_deriv_wrt_1 _ _ _ B T V b t).
    + unfold getIncomingDerivative, SINGLE_INOUT_IDX.
      rewrite (@dim_nth_tensor _ _ 0 (incoming_dim Hreal)). reflexivity.
    + unfold getOutgoingDerivative.
      rewrite (@dim_nth_tensor _ _ 1 (outgoing_dim Hreal)). reflexivity.
    + unfold getTensor. rewrite (@dim_nth_tensor _ _ 2 (af_tensors Haf)). reflexivity.
    + exact Hsl.
    + exact Hb.
    + exact Ht.
Qed.

Lemma calcDerivative_overwrites_scores_witness :
  exists l1 c1 l2 c2,
    forwarding (finalized_layer scenario_props)
               (zero_context (finalized_context "mol" (mkDim 1 1 1 1) (mkDim 1 1 4 1)
                                                (mkDim 1 1 1 1) 2 1))
    = Ok (l1, c1)
    /\ calcDerivative l1 c1 = Ok (l2, c2)
    /\ forall b t, b < 1 -> t < 4 ->
         getValue (getTensor c2 (wt_idx (finalized_layer scenario_props)
                                        AttentionParams.scores)) b 0 0 t
         = rsum 1 (fun v =>
             getValue (getIncomingDerivative
                         (zero_context (finalized_context "mol" (mkDim 1 1 1 1)
                            (mkDim 1 1 4 1) (mkDim 1 1 1 1) 2 1)) SINGLE_INOUT_IDX) b 0 0 v
             * getValue (getOutgoingDerivative
                           (zero_context (finalized_context "mol" (mkDim 1 1 1 1)
                              (mkDim 1 1 4 1) (mkDim 1 1 1 1) 2 1))
                           (wt_idx (finalized_layer scenario_props) AttentionParams.value))
                        b 0 t v)%R.
Proof.
  destruct (@calcDerivative_overwrites_scores scenario_props "mol" 1 4 1 2 1
              (finalized_layer scenario_props)
              (finalized_context "mol" (mkDim 1 1 1 1) (mkDim 1 1 4 1) (mkDim 1 1 1 1) 2 1)
              (zero_context (finalized_context "mol" (mkDim 1 1 1 1) (mkDim 1 1 4 1)
                                               (mkDim 1 1 1 1) 2 1)))
    as (l1 & c1 & l2 & c2 & Hf & Hd & _ & Hs).
  - reflexivity.
  - reflexivity.
  - vm_compute. reflexivity.
  - apply realizes_zero_context.
  - lia.
  - exists l1, c1, l2, c2. split; [exact Hf|]. split; [exact Hd | exact Hs].
Defined.

(** ** The gradient products *)

(** output_deriv . m^T, for rows times a weight matrix. *)
Lemma getValue_dot_deriv_wrt_1 (self m od : Tensor) (B U W b u : nat) :
  dim od = mkDim B 1 1 W -> dim m = mkDim 1 1 U W -> dim self = mkDim B 1 1 U ->
  b < B -> u < U ->
  getValue (dot_deriv_wrt_1 self m od) b 0 0 u
  = rsum W (fun k => getValue od b 0 0 k * getValue m 0 0 u k)%R.
Proof.
  intros Hod Hm Hs Hb Hu.
  unfold dot_deriv_wrt_1, dot_out, dot, dot_dim.
  assert (Hr : rows (dim m) = U) by (unfold rows; rewrite Hm; simpl; lia).
  rewrite Hr, Hod. cbn [set_width batch channel height width].
  rewrite getValue_store_into_build by (assumption || (simpl; lia)).
  unfold dot_value, row_of. rewrite Hm. cbn [batch channel height width].
  apply rsum_ext. intros k Hk.
  cbn [set_width channel height]. replace ((b * 1 + 0) * 1 + 0) with b by lia.
  now rewrite (@mat_get_row _ B W b k Hod), (@mat_get_weight_trans _ U W k u Hm).
Qed.

(** x^T . output_deriv, for rows times rows. *)
Lemma getValue_dot_deriv_wrt_2 (x md od : Tensor) (B U N u j : nat) :
  dim x = mkDim B 1 1 U -> dim od = mkDim B 1 1 N -> dim md = mkDim 1 1 U N ->
  u < U -> j < N ->
  getValue (dot_deriv_wrt_2 x md od) 0 0 u j
  = rsum B (fun b => getValue x b 0 0 u * getValue od b 0 0 j)%R.
Proof.
  intros Hx Hod Hmd Hu Hj.
  unfold dot_deriv_wrt_2, dot_out, dot, dot_dim.
  rewrite Hx, Hod. cbn [set_width batch channel height width].
  rewrite getValue_store_into_build by (assumption || (simpl; lia)).
  unfold dot_value, row_of, rows. rewrite Hod. cbn [batch channel height width].
  replace (B * 1 * 1) with B by lia.
  apply rsum_ext. intros b Hb.
  cbn [set_width channel height]. replace ((0 * 1 + 0) * U + u) with u by lia.
  now rewrite (@mat_get_row_trans _ B U u b Hx), (@mat_get_row _ B N b j Hod).
Qed.

Lemma dim_store_into_eq (out res : Tensor) (d : TensorDim) :
  dim res = d -> dim out = d -> dim (store_into out res) = d.
Proof. intros Hr Ho. unfold store_into. destruct (empty out); assumption. Qed.

Lemma getValue_sum_axes012 (out x : Tensor) (B W w : nat) :
  dim x = mkDim B 1 1 W -> dim out = mkDim 1 1 1 W -> w < W ->
  getValue (store_into out (sum_axes012 x)) 0 0 0 w
  = rsum B (fun b => getValue x b 0 0 w).
Proof.
  intros Hx Ho Hw. unfold sum_axes012. rewrite Hx.
  cbn [batch channel height width dim1].
  rewrite getValue_store_into_build by (assumption || (simpl; lia)).
  apply rsum_ext. intros b Hb. simpl. lra.
Qed.

Lemma getValue_tanh_backward (y z W2 G : Tensor) (B U N b u : nat) :
  dim y = mkDim B 1 1 U -> dim z = mkDim B 1 1 U ->
  dim W2 = mkDim 1 1 U N -> dim G = mkDim B 1 1 N ->
  b < B -> u < U ->
  getValue (run_prime_fn ACT_TANH y empty_tensor (dot_deriv_wrt_1 z W2 G)) b 0 0 u
  = ((1 - getValue y b 0 0 u * getValue y b 0 0 u)
     * rsum N (fun j => getValue G b 0 0 j * getValue W2 0 0 u j))%R.
Proof.
  intros Hy Hz HW HG Hb Hu.
  unfold run_prime_fn. rewrite store_into_empty. unfold multiply.
  rewrite getValue_apply_broadcast
    by (unfold apply; cbn [dim build]; rewrite Hy; simpl; lia).
  rewrite getValue_apply by (rewrite Hy; simpl; lia).
  assert (Hd : dim (dot_deriv_wrt_1 z W2 G) = mkDim B 1 1 U).
  { unfold dot_deriv_wrt_1, dot_out. apply dim_store_into_eq.
    - unfold dot, dot_dim, rows. cbn [dim build]. rewrite HW, HG.
      cbn [set_width batch channel height width]. now rewrite !Nat.mul_1_l.
    - exact Hz. }
  unfold getValue_bcast. rewrite Hd. cbn [batch channel height width].
  rewrite !bcast_lt by lia.
  rewrite (@getValue_dot_deriv_wrt_1 _ _ _ B U N b u HG HW Hz Hb Hu).
  reflexivity.
Qed.

Lemma dim_tanh_backward (y d : Tensor) :
  dim (run_prime_fn ACT_TANH y empty_tensor d) = dim y.
Proof. unfold run_prime_fn. rewrite store_into_empty. reflexivity. Qed.

Lemma calcGradient_rest_formulas (h : bool) (p : MolProps) (n : nat)
    (B T Q V U K : nat) (c : RunLayerContext) :
  after_forward B T Q V U K c -> weights_allocated Q U K c ->
  let l := mkLayer h finalized_wt_idx ACT_SOFTMAX ACT_TANH ACT_SIGMOID p n in
  (forall u j, u < U -> j < 3 * K ->
     getValue (getWeightGrad (calcGradient_rest l c) 2) 0 0 u j
     = rsum B (fun b => getValue (getTensor c 0) b 0 0 u
                        * getValue (getTensor c 1) b 0 0 j)%R)
  /\ (forall q u, q < Q -> u < U ->
        getValue (getWeightGrad (calcGradient_rest l c) 0) 0 0 q u
        = rsum B (fun b => getValue (getInput c 0) b 0 0 q * d_hidden c K b u)%R)
  /\ (forall u, u < U ->
        getValue (getWeightGrad (calcGradient_rest l c) 1) 0 0 0 u
        = rsum B (fun b => d_hidden c K b u)).
Proof.
  intros [Hi Ht Hlen Hout] [Hw Hwg] l.
  destruct c as [ins outs ws wgs ts inc outg].
  cbn [inputs tensors outgoing_derivatives weights weight_grads] in Hi, Ht, Hout, Hw, Hwg.
  explode_map Hi. explode_map Ht. explode_map Hw. explode_map Hwg.
  known_dims.
  unfold d_hidden, l.
  cbv beta iota zeta delta [calcGradient_rest finalized_wt_idx wt_idx set_idx AttentionParams.eqb AttentionParams.to_nat Nat.eqb getInput getWeight getWeightGrad getTensor setWeightGrad inputs weights tensors weight_grads upd nth act_tanh].
  cbn [dim].
  split; [|split].
  - intros u j Hu Hj.
    apply (@getValue_dot_deriv_wrt_2 _ _ _ B U (3 * K) u j); (reflexivity || assumption).
  - intros q u Hq Hu.
    rewrite (@getValue_dot_deriv_wrt_2 _ _ _ B Q U q u)
      by (reflexivity || assumption || apply dim_tanh_backward).
    apply rsum_ext. intros b Hb. f_equal.
    apply (@getValue_tanh_backward _ _ _ _ B U (3 * K) b u); (reflexivity || assumption).
  - intros u Hu.
    rewrite (@getValue_sum_axes012 _ _ B U u)
      by (reflexivity || assumption || apply dim_tanh_backward).
    apply rsum_ext. intros b Hb.
    apply (@getValue_tanh_backward _ _ _ _ B U (3 * K) b u); (reflexivity || assumption).
Qed.

Lemma d_hidden_calcGradient_rest (l : MoLAttentionLayer) (c : RunLayerContext)
    (K b u : nat) :
  d_hidden (calcGradient_rest l c) K b u = d_hidden c K b u.
Proof.
  unfold d_hidden, getTensor, getWeight.
  rewrite (proj1 (calcGradient_rest_frame l c)).
  now rewrite (proj1 (proj2 (calcGradient_rest_keeps l c))).
Qed.

Lemma getTensor_calcGradient_rest (l : MoLAttentionLayer) (c : RunLayerContext) (i : nat) :
  getTensor (calcGradient_rest l c) i = getTensor c i.
Proof. unfold getTensor. now rewrite (proj1 (calcGradient_rest_frame l c)). Qed.

Lemma helper_body_weights_allocated (l : MoLAttentionLayer) (Q U K k : nat)
    (c : RunLayerContext) (i : nat) :
  weights_allocated Q U K c ->
  weights_allocated Q U K (calcDerivativeHelper_body l k c i).
Proof.
  intros [Hw Hg].
  destruct (helper_body_frame l k c i) as (_ & _ & Ew & Eg & _).
  constructor; [now rewrite Ew | now rewrite Eg].
Qed.



Lemma calcDerivative_rest_formula (h : bool) (p : MolProps) (n : nat)
    (B T Q V U K : nat) (c : RunLayerContext) :
  after_forward B T Q V U K c -> weights_allocated Q U K c ->
  let l := mkLayer h finalized_wt_idx ACT_SOFTMAX ACT_TANH ACT_SIGMOID p n in
  forall b q, b < B -> q < Q ->
    getValue (getOutgoingDerivative (calcDerivative_rest l c) 0) b 0 0 q
    = rsum U (fun u => d_hidden c K b u * getValue (getWeight c 0) 0 0 q u)%R.
Proof.
  intros [Hi Ht Hlen Hout] [Hw Hwg] l.
  destruct c as [ins outs ws wgs ts inc outg].
  cbn [inputs tensors outgoing_derivatives weights weight_grads] in Hi, Ht, Hout, Hw, Hwg.
  explode_map Hi. explode_map Ht. explode_map Hw. explode_map Hwg. explode_map Hout.
  known_dims.
  unfold d_hidden, l.
  cbv beta iota zeta delta [calcDerivative_rest finalized_wt_idx wt_idx set_idx
    AttentionParams.eqb AttentionParams.to_nat Nat.eqb getInput getWeight getWeightGrad
    getTensor getOutgoingDerivative setOutgoingDerivative inputs weights tensors
    weight_grads outgoing_derivatives upd nth act_tanh].
  cbn [dim].
  intros b q Hb Hq.
  rewrite (@getValue_dot_deriv_wrt_1 _ _ _ B Q U b q)
    by (reflexivity || assumption || apply dim_tanh_backward).
  apply rsum_ext. intros u Hu. f_equal.
  apply (@getValue_tanh_backward _ _ _ _ B U (3 * K) b u); (reflexivity || assumption).
Qed.

Lemma calcDerivative_first_after_forward (l : MoLAttentionLayer) (B T Q V U K : nat)
    (c : RunLayerContext) :
  wt_idx l AttentionParams.scores = 2 ->
  after_forward B T Q V U K c ->
  after_forward B T Q V U K (calcDerivative_first l c).
Proof.
  intros Hs [Hi Ht Hlen Hout].
  constructor.
  - exact Hi.
  - now rewrite calcDerivative_first_dims.
  - rewrite (proj2 (proj2 (calcDerivative_first_frame l c))) by (rewrite Hs; lia).
    exact Hlen.
  - now rewrite (proj1 (calcDerivative_first_frame l c)).
Qed.

Lemma d_hidden_calcDerivative_rest (l : MoLAttentionLayer) (c : RunLayerContext)
    (K b u : nat) :
  d_hidden (calcDerivative_rest l c) K b u = d_hidden c K b u.
Proof.
  unfold d_hidden, getTensor, getWeight.
  now rewrite (proj1 (calcDerivative_rest_frame l c)).
Qed.



(** ** Batch-size changes *)

(** X13: [setBatch] covers every scratch tensor [finalize] requested: after
    it each of them has the dimension it was requested with, except for the
    batch size, which is the new one; inputs, outputs, weights, weight
    gradients and derivatives are not touched, and a second call replaces
    the batch size of the first. *)
Theorem setBatch_resizes_every_requested_tensor
    (props : MolProps) (name : string) (q v s : TensorDim) (U K : nat)
    (l : MoLAttentionLayer) (ictx : InitLayerContext) (c : RunLayerContext)
    (n m : nat) :
  Unit props = Some U -> MoL_K props = Some K ->
  finalize (new_layer props) (fresh_context name [q; v; s]) = Ok (l, ictx) ->
  realizes ictx c ->
  let c' := snd (setBatch l c n) in
  map dim (tensors c') = map (fun r => set_batch (t_dim r) n) (tensors_spec ictx)
  /\ inputs c' = inputs c /\ outputs c' = outputs c
  /\ weights c' = weights c /\ weight_grads c' = weight_grads c
  /\ incoming_derivatives c' = incoming_derivatives c
  /\ outgoing_derivatives c' = outgoing_derivatives c
  /\ map dim (tensors (snd (setBatch l c' m)))
     = map (fun r => set_batch (t_dim r) m) (tensors_spec ictx).
Proof.
  intros HU HK Hfin Hreal.
  rewrite (@finalize_fresh props name q v s U K HU HK) in Hfin.
  assert (Hl : l = finalized_layer props) by congruence.
  assert (Hc : ictx = finalized_context name q v s U K) by congruence.
  subst l ictx. clear Hfin.
  destruct Hreal as [_ _ _ _ Ht _ _].
  destruct c as [ins outs ws wgs ts inc outg].
  cbn [tensors finalized_context tensors_spec map t_dim] in Ht.
  explode_map Ht.
  known_dims.
  cbv beta iota zeta delta [setBatch snd updateTensor setTensor getTensor tensors upd nth
    finalized_layer finalized_wt_idx wt_idx set_idx AttentionParams.eqb
    AttentionParams.to_nat Nat.eqb inputs outputs weights weight_grads
    incoming_derivatives outgoing_derivatives].
  repeat split.
Qed.

Lemma setBatch_resizes_every_requested_tensor_witness :
  map dim (tensors (snd (setBatch (finalized_layer scenario_props)
                           (zero_context (finalized_context "mol" (mkDim 1 1 1 2)
                              (mkDim 1 1 4 1) (mkDim 1 1 1 1) 2 1)) 3)))
  = [mkDim 3 1 1 2; mkDim 3 1 1 2; mkDim 3 1 1 4;
     mkDim 3 1 4 1; mkDim 3 1 4 1; mkDim 3 1 4 1; mkDim 3 1 4 1; mkDim 3 1 4 1].
Proof.
  apply (@setBatch_resizes_every_requested_tensor scenario_props "mol"
           (mkDim 1 1 1 2) (mkDim 1 1 4 1) (mkDim 1 1 1 1) 2 1
           (finalized_layer scenario_props)
           (finalized_context "mol" (mkDim 1 1 1 2) (mkDim 1 1 4 1) (mkDim 1 1 1 1) 2 1)
           (zero_context (finalized_context "mol" (mkDim 1 1 1 2) (mkDim 1 1 4 1)
                            (mkDim 1 1 1 1) 2 1)) 3 3).
  - reflexivity.
  - reflexivity.
  - vm_compute. reflexivity.
  - apply realizes_zero_context.
Defined.

(** ** The cached arguments of the sigmoids *)

Lemma forwarding_body_sigmoid_args (props : MolProps) (name : string)
    (B T Q V U K : nat) (c : RunLayerContext) :
  realizes (finalized_context name (mkDim B 1 1 Q) (mkDim B 1 T V) (mkDim B 1 1 K) U K) c ->
  forall b h k, b < B -> h < T -> k < K ->
    getValue (getTensor (forwarding_body (finalized_layer props) K c) 7) b 0 h k
    = ((INR (h + 1) + 5 / 10 - mol_center c b k) / (mol_scale c K b k + scale_eps))%R
    /\ getValue (getTensor (forwarding_body (finalized_layer props) K c) 6) b 0 h k
       = ((INR (h + 1) - 5 / 10 - mol_center c b k) / (mol_scale c K b k + scale_eps))%R.
Proof.
  intros Hreal b h k Hb Hh Hk.
  open_realizes Hreal.
  unfold mol_center, mol_scale, shift_logit, scale_logit, packed_output.
  run_body.
  cbn [batch height dim].
  rewrite (store_into_id (add (dot _ _ false false) _) (apply tanh _))
    by (reflexivity || apply length_build).
  match goal with |- context [getSharedDataTensor ?p _ 0] => set (P := p) end.
  assert (HP : channel (dim P) = 1 /\ height (dim P) = 1) by (split; reflexivity).
  destruct HP as [HPc HPh].
  clearbody P.
  unfold subtract, divide, add, add_scalar.
  collapse_store.
  repeat tensor_step.
  change (0 + k) with k.
  repeat split; reflexivity.
Qed.

(** X15: the arguments of the two sigmoids that the forward pass caches
    for the backward pass are (t + 0.5 - center) / (scale + 1e-8) and
    (t - 0.5 - center) / (scale + 1e-8), and the two cached sigmoid outputs
    are the sigmoids of exactly these cached arguments. *)
Theorem forwarding_caches_sigmoid_arguments
    (props : MolProps) (name : string) (B T Q V U K : nat)
    (l : MoLAttentionLayer) (ictx : InitLayerContext) (c : RunLayerContext) :
  Unit props = Some U -> MoL_K props = Some K ->
  finalize (new_layer props)
           (fresh_context name [mkDim B 1 1 Q; mkDim B 1 T V; mkDim B 1 1 K])
  = Ok (l, ictx) ->
  realizes ictx c ->
  exists l' c',
    forwarding l c = Ok (l', c')
    /\ forall b t k, b < B -> 1 <= t <= T -> k < K ->
         getValue (getTensor c' (wt_idx l' AttentionParams.u_pos_div)) b 0 (t - 1) k
         = ((INR t + 5 / 10 - mol_center c b k) / (mol_scale c K b k + scale_eps))%R
         /\ getValue (getTensor c' (wt_idx l' AttentionParams.u_neg_div)) b 0 (t - 1) k
            = ((INR t - 5 / 10 - mol_center c b k) / (mol_scale c K b k + scale_eps))%R
         /\ getValue (getTensor c' (wt_idx l' AttentionParams.prob_left)) b 0 (t - 1) k
            = sigmoid_fn
                (getValue (getTensor c' (wt_idx l' AttentionParams.u_pos_div)) b 0 (t - 1) k)
         /\ getValue (getTensor c' (wt_idx l' AttentionParams.prob_right)) b 0 (t - 1) k
            = sigmoid_fn
                (getValue (getTensor c' (wt_idx l' AttentionParams.u_neg_div)) b 0 (t - 1) k).
Proof.
  intros HU HK Hfin Hreal.
  destruct (@finalize_then_forwarding props name _ _ _ U K l ictx c HU HK Hfin)
    as (-> & -> & Hf).
  do 2 eexists. split; [exact Hf|].
  intros b t k Hb Ht Hk.
  replace (wt_idx (finalized_layer props) AttentionParams.u_pos_div) with 7 by reflexivity.
  replace (wt_idx (finalized_layer props) AttentionParams.u_neg_div) with 6 by reflexivity.
  replace (wt_idx (finalized_layer props) AttentionParams.prob_left) with 4 by reflexivity.
  replace (wt_idx (finalized_layer props) AttentionParams.prob_right) with 5 by reflexivity.
  assert (Ht1 : t - 1 < T) by lia.
  destruct (forwarding_body_sigmoid_args props Hreal Hb Ht1 Hk) as (Hp & Hn).
  destruct (forwarding_body_prob props Hreal Hb Ht1 Hk) as (Hl & Hr & _).
  replace (t - 1 + 1) with t in Hp, Hn, Hl, Hr by lia.
  set (c' := forwarding_body (finalized_layer props) K c) in *.
  rewrite Hp, Hn, Hl, Hr.
  repeat split; reflexivity.
Qed.

Lemma forwarding_caches_sigmoid_arguments_witness :
  exists l' c',
    forwarding (finalized_layer scenario_props)
               (zero_context (finalized_context "mol" (mkDim 1 1 1 2) (mkDim 1 1 4 1)
                                                (mkDim 1 1 1 1) 2 1))
    = Ok (l', c')
    /\ forall b t k, b < 1 -> 1 <= t <= 4 -> k < 1 ->
         getValue (getTensor c' (wt_idx l' AttentionParams.prob_left)) b 0 (t - 1) k
         = sigmoid_fn
             (getValue (getTensor c' (wt_idx l' AttentionParams.u_pos_div)) b 0 (t - 1) k).
Proof.
  destruct (@forwarding_caches_sigmoid_arguments scenario_props "mol" 1 4 2 1 2 1
              (finalized_layer scenario_props)
              (finalized_context "mol" (mkDim 1 1 1 2) (mkDim 1 1 4 1) (mkDim 1 1 1 1) 2 1)
              (zero_context (finalized_context "mol" (mkDim 1 1 1 2) (mkDim 1 1 4 1)
                                               (mkDim 1 1 1 1) 2 1)))
    as (l' & c' & Hf & H).
  - reflexivity.
  - reflexivity.
  - vm_compute. reflexivity.
  - apply realizes_zero_context.
  - exists l', c'. split; [exact Hf|].
    intros b t k Hb Ht Hk. exact (proj1 (proj2 (proj2 (H b t k Hb Ht Hk)))).
Defined.

(** ** The shared helper *)

(** X16: the shared helper writes two things, the gradient of the location
    state (at the slot it is handed) and the packed buffer, and marks
    itself as run; every other scratch tensor, every other outgoing
    derivative, the inputs, outputs, weights, weight gradients and incoming
    derivatives are as before, and no scratch tensor changes shape. *)
Theorem calcDerivativeHelper_writes_two_slots
    (l l' : MoLAttentionLayer) (c c' : RunLayerContext) (dstate : nat) :
  calcDerivativeHelper l c dstate = Ok (l', c') ->
  helper_exec l' = true
  /\ helper_runs l' = S (helper_runs l)
  /\ wt_idx l' = wt_idx l
  /\ inputs c' = inputs c /\ outputs c' = outputs c
  /\ weights c' = weights c /\ weight_grads c' = weight_grads c
  /\ incoming_derivatives c' = incoming_derivatives c
  /\ map dim (tensors c') = map dim (tensors c)
  /\ (forall j, j <> wt_idx l AttentionParams.fc_proj_out ->
        getTensor c' j = getTensor c j)
  /\ (forall j, j <> dstate -> getOutgoingDerivative c' j = getOutgoingDerivative c j).
Proof.
  intros H.
  pose proof (calcDerivativeHelper_layer _ _ _ H) as Hl.
  unfold calcDerivativeHelper in H.
  destruct (prop_get (MoL_K (mol_props l))) as [k|e]; [|discriminate].
  unfold bind in H.
  assert (Hc : c' = calcDerivativeHelper_body l k c dstate) by congruence.
  subst l' c'.
  destruct (helper_body_frame l k c dstate) as (H1 & H2 & H3 & H4 & H5).
  destruct (helper_body_tensors l k c dstate) as (_ & H6 & H7).
  repeat (split; [assumption || reflexivity|]).
  intros j Hj. now apply helper_body_outgoing.
Qed.

Lemma calcDerivativeHelper_writes_two_slots_witness :
  exists l' c',
    calcDerivativeHelper (finalized_layer gradient_scenario_props) gradient_scenario 2
    = Ok (l', c')
    /\ helper_exec l' = true
    /\ helper_runs l' = 1.
Proof.
  assert (H : calcDerivativeHelper (finalized_layer gradient_scenario_props)
                gradient_scenario 2
              = Ok (count_helper_run
                      (with_helper_exec (finalized_layer gradient_scenario_props) true),
                    calcDerivativeHelper_body (finalized_layer gradient_scenario_props) 1
                      gradient_scenario 2))
    by reflexivity.
  do 2 eexists. split; [exact H|].
  split; apply (@calcDerivativeHelper_writes_two_slots _ _ _ _ _ H).
Defined.

(** ** The gradient of the scores *)

Lemma getValue_reshape_column (x : Tensor) (B T b t : nat) :
  dim x = mkDim B 1 1 T -> b < B -> t < T ->
  getValue (reshape x (mkDim B 1 T 1)) b 0 t 0 = getValue x b 0 0 t.
Proof.
  intros Hx Hb Ht. unfold reshape. rewrite Hx.
  replace (getDataLen (mkDim B 1 T 1) =? getDataLen (mkDim B 1 1 T)) with true
    by (symmetry; apply Nat.eqb_eq; unfold getDataLen, getFeatureLen; simpl; lia).
  unfold getValue, getIndex. rewrite Hx. cbn [dim data channel height width].
  f_equal. lia.
Qed.



(** ** The weight-gradient entry point: what it leaves *)

Lemma calcGradient_rest_weight_grads (l : MoLAttentionLayer) (c : RunLayerContext) :
  forall j,
    j <> wt_idx l AttentionParams.fc_w -> j <> wt_idx l AttentionParams.fc_bias ->
    j <> wt_idx l AttentionParams.fc_proj_w ->
    getWeightGrad (calcGradient_rest l c) j = getWeightGrad c j.
Proof.
  intros j H0 H1 H2.
  lazy beta iota zeta delta [calcGradient_rest setWeightGrad weight_grads getWeightGrad].
  now rewrite !nth_upd_neq by congruence.
Qed.

Lemma getOutgoingDerivative_calcGradient_rest (l : MoLAttentionLayer)
    (c : RunLayerContext) (j : nat) :
  getOutgoingDerivative (calcGradient_rest l c) j = getOutgoingDerivative c j.
Proof.
  unfold getOutgoingDerivative. now rewrite (proj2 (calcGradient_rest_frame l c)).
Qed.

(** X18: [calcGradient] writes the three weight gradients and, when the
    helper has not run yet, what the helper writes (the gradient of the
    location state and the packed buffer); it never writes another weight
    gradient, another scratch tensor, the gradient of the query or of the
    value, an input, an output, a weight or an incoming derivative. *)
Theorem calcGradient_writes_only_its_gradients
    (l l' : MoLAttentionLayer) (c c' : RunLayerContext) :
  calcGradient l c = Ok (l', c') ->
  inputs c' = inputs c /\ outputs c' = outputs c /\ weights c' = weights c
  /\ incoming_derivatives c' = incoming_derivatives c
  /\ (forall j, j <> wt_idx l AttentionParams.fc_w ->
                j <> wt_idx l AttentionParams.fc_bias ->
                j <> wt_idx l AttentionParams.fc_proj_w ->
        getWeightGrad c' j = getWeightGrad c j)
  /\ (forall j, j <> wt_idx l AttentionParams.fc_proj_out ->
        getTensor c' j = getTensor c j)
  /\ (forall j, j <> wt_idx l AttentionParams.state ->
        getOutgoingDerivative c' j = getOutgoingDerivative c j)
  /\ helper_exec l' = true.
Proof.
  intros H.
  destruct (helper_exec l) eqn:Hx.
  - rewrite (@calcGradient_computed l c Hx) in H.
    assert (Hl : l' = l) by congruence.
    assert (Hc : c' = calcGradient_rest l c) by congruence.
    subst l' c'.
    destruct (calcGradient_rest_keeps l c) as (H1 & H2 & H3 & H4).
    repeat (split; [assumption|]).
    split; [exact (calcGradient_rest_weight_grads l c)|].
    split; [intros j _; apply getTensor_calcGradient_rest|].
    split; [intros j _; apply getOutgoingDerivative_calcGradient_rest | exact Hx].
  - destruct (MoL_K (mol_props l)) as [k|] eqn:Hk.
    + rewrite (@calcGradient_pending l c k Hk Hx) in H.
      set (lH := count_helper_run (with_helper_exec l true)) in *.
      set (cH := calcDerivativeHelper_body l k c (wt_idx l AttentionParams.state)) in *.
      assert (Hl : l' = lH) by congruence.
      assert (Hc : c' = calcGradient_rest lH cH) by congruence.
      subst l' c'.
      destruct (calcGradient_rest_keeps lH cH) as (H1 & H2 & H3 & H4).
      destruct (helper_body_frame l k c (wt_idx l AttentionParams.state))
        as (G1 & G2 & G3 & G4 & G5).
      fold cH in G1, G2, G3, G4, G5.
      split; [now rewrite H1|]. split; [now rewrite H3|]. split; [now rewrite H2|].
      split; [now rewrite H4|].
      split.
      { intros j J0 J1 J2.
        rewrite (@calcGradient_rest_weight_grads lH cH j J0 J1 J2).
        unfold getWeightGrad. now rewrite G4. }
      split.
      { intros j J. rewrite getTensor_calcGradient_rest.
        now apply (proj2 (proj2 (helper_body_tensors l k c (wt_idx l AttentionParams.state)))). }
      split; [|reflexivity].
      intros j J. rewrite getOutgoingDerivative_calcGradient_rest.
      now apply helper_body_outgoing.
    + exfalso. unfold calcGradient, calcDerivativeHelper in H.
      rewrite Hx, Hk in H. discriminate H.
Qed.

Lemma calcGradient_writes_only_its_gradients_witness :
  exists l' c',
    calcGradient (finalized_layer gradient_scenario_props) gradient_scenario = Ok (l', c')
    /\ inputs c' = inputs gradient_scenario
    /\ helper_exec l' = true.
Proof.
  assert (H : calcGradient (finalized_layer gradient_scenario_props) gradient_scenario
              = Ok (count_helper_run
                      (with_helper_exec (finalized_layer gradient_scenario_props) true),
                    calcGradient_rest
                      (count_helper_run
                         (with_helper_exec (finalized_layer gradient_scenario_props) true))
                      (calcDerivativeHelper_body (finalized_layer gradient_scenario_props) 1
                         gradient_scenario 2)))
    by reflexivity.
  do 2 eexists. split; [exact H|].
  split; apply (@calcGradient_writes_only_its_gradients _ _ _ _ H).
Defined.

(** ** The dimensions the forward pass leaves *)

(** X19: a forward pass assigns the packed buffer: whatever dimension it
    was requested with (the width of the hidden layer), it has afterwards
    the dimension batch x 1 x 1 x 3 * mol_k with storage of that length;
    the hidden activation, the scores and the five per-timestep caches keep
    the requested dimensions. *)
Theorem forwarding_scratch_dimensions
    (props : MolProps) (name : string) (B T Q V U K : nat)
    (l : MoLAttentionLayer) (ictx : InitLayerContext) (c : RunLayerContext) :
  Unit props = Some U -> MoL_K props = Some K ->
  finalize (new_layer props)
           (fresh_context name [mkDim B 1 1 Q; mkDim B 1 T V; mkDim B 1 1 K])
  = Ok (l, ictx) ->
  realizes ictx c ->
  0 < B -> 0 < T ->
  exists l' c',
    forwarding l c = Ok (l', c')
    /\ map dim (tensors c')
       = [mkDim B 1 1 U; mkDim B 1 1 (3 * K); mkDim B 1 1 T;
          mkDim B 1 T K; mkDim B 1 T K; mkDim B 1 T K; mkDim B 1 T K; mkDim B 1 T K]
    /\ length (data (getTensor c' (wt_idx l' AttentionParams.fc_proj_out))) = B * (3 * K)
    /\ nth_error (map t_dim (tensors_spec ictx)) (wt_idx l' AttentionParams.fc_proj_out)
       = Some (mkDim B 1 1 U).
Proof.
  intros HU HK Hfin Hreal HB HT.
  destruct (@finalize_then_forwarding props name _ _ _ U K l ictx c HU HK Hfin)
    as (-> & -> & Hf).
  do 2 eexists. split; [exact Hf|].
  destruct (forwarding_body_after_forward props Hreal HB HT) as [_ Ht Hlen _].
  rewrite finalized_fc_proj_out_slot.
  split; [exact Ht|]. split; [exact Hlen | reflexivity].
Qed.

Lemma forwarding_scratch_dimensions_witness :
  exists l' c',
    forwarding (finalized_layer scenario_props)
               (zero_context (finalized_context "mol" (mkDim 1 1 1 2) (mkDim 1 1 4 1)
                                                (mkDim 1 1 1 1) 2 1))
    = Ok (l', c')
    /\ map dim (tensors c')
       = [mkDim 1 1 1 2; mkDim 1 1 1 (3 * 1); mkDim 1 1 1 4;
          mkDim 1 1 4 1; mkDim 1 1 4 1; mkDim 1 1 4 1; mkDim 1 1 4 1; mkDim 1 1 4 1].
Proof.
  destruct (@forwarding_scratch_dimensions scenario_props "mol" 1 4 2 1 2 1
              (finalized_layer scenario_props)
              (finalized_context "mol" (mkDim 1 1 1 2) (mkDim 1 1 4 1) (mkDim 1 1 1 1) 2 1)
              (zero_context (finalized_context "mol" (mkDim 1 1 1 2) (mkDim 1 1 4 1)
                                               (mkDim 1 1 1 1) 2 1)))
    as (l' & c' & Hf & Hd & _).
  - reflexivity.
  - reflexivity.
  - vm_compute. reflexivity.
  - apply realizes_zero_context.
  - lia.
  - lia.
  - exists l', c'. split; [exact Hf | exact Hd].
Defined.

(** ** A zero incoming gradient *)

Section ZeroGradient.
Variables B T Q V U K : nat.
Variable c : RunLayerContext.
Hypothesis Haf : after_forward B T Q V U K c.
Hypothesis Hdim : dim (getIncomingDerivative c SINGLE_INOUT_IDX) = mkDim B 1 1 V.
Hypothesis Hzero : forall b v, b < B -> v < V ->
  getValue (getIncomingDerivative c SINGLE_INOUT_IDX) b 0 0 v = 0%R.

Lemma zero_d_score (b t : nat) : b < B -> t < T -> d_score c b t = 0%R.
Proof.
  intros Hb Ht.
  assert (Hv : dim (getInput c 1) = mkDim B 1 T V).
  { unfold getInput. rewrite (@dim_nth_tensor _ _ 1 (af_inputs Haf)). reflexivity. }
  assert (Hs : dim (getTensor c 2) = mkDim B 1 1 T).
  { unfold getTensor. rewrite (@dim_nth_tensor _ _ 2 (af_tensors Haf)). reflexivity. }
  unfold d_score, d_score_tensor, Tensor_batch, Tensor_height, Tensor_width.
  rewrite Hv, Hs. cbn [batch height width].
  change (getIncomingDerivative c 0) with (getIncomingDerivative c SINGLE_INOUT_IDX).
  rewrite getValue_reshape_column
    by (assumption || (unfold dot_batched_deriv_wrt_1; now rewrite dim_dotBatched)).
  rewrite (@getValue_dot_batched_deriv_wrt_1 _ _ _ B T V b t);
    [ | assumption | assumption | reflexivity
      | unfold zeros; rewrite length_build; unfold getDataLen, getFeatureLen; simpl; lia
      | assumption | assumption ].
  apply rsum_zero. intros v Hv'. rewrite Hzero by assumption. lra.
Qed.

Lemma zero_d_center (b k : nat) : b < B -> d_center c K T b k = 0%R.
Proof.
  intros Hb. unfold d_center.
  rewrite rsum_zero; [lra|]. intros t Ht.
  unfold d_left_arg, d_right_arg, d_prob. rewrite zero_d_score by assumption.
  unfold Rdiv. ring.
Qed.

Lemma zero_d_safe_scale (b k : nat) : b < B -> d_safe_scale c K T b k = 0%R.
Proof.
  intros Hb. unfold d_safe_scale.
  rewrite rsum_zero; [lra|]. intros t Ht.
  unfold d_left_arg, d_right_arg, d_prob. rewrite zero_d_score by assumption.
  unfold Rdiv. ring.
Qed.

Lemma zero_d_weight_logit (b k : nat) : b < B -> d_weight_logit c K T b k = 0%R.
Proof.
  intros Hb. unfold d_weight_logit.
  apply rsum_zero. intros j Hj.
  unfold d_weight. rewrite (@rsum_zero T); [ring|].
  intros t Ht. rewrite zero_d_score by assumption. ring.
Qed.
End ZeroGradient.


